(** * Offline persistence and mode switching of the YouTube Schedule Manager

    A shallow embedding of the TypeScript sources
      - client/src/lib/database/schema.ts             (Profile, Video, tables)
      - client/src/lib/database/filesystem-service.ts (FileSystemService)
      - client/src/lib/database/sqlite-service.ts     (SQLiteService)
      - client/src/lib/api/offline-api-service.ts     (OfflineApiService)
      - client/src/lib/api/api-switcher.ts            (mode switch, apiRequest)
      - client/src/lib/offline-app.ts                 (foreground handler)
    and the properties of them that the design document states.

    Asynchronous functions are computations over one explicit [World]
    (device, preferences, Documents directory, database file and the
    singletons' private flags) that either resolve or reject. *)

From Stdlib Require Import ZArith QArith String Ascii List Bool Lia.
From stdpp Require Import base option gmap strings list fin_maps pretty sorting.

Local Open Scope string_scope.
Local Open Scope Z_scope.

(* ===================================================================== *)
(** * JavaScript values the sources rely on                                *)
(* ===================================================================== *)

(** Thrown values.  Plugin rejections and [new Error(..)] are [Error];
    failures raised by the language itself are [TypeError]. *)
Inductive JsError : Type :=
  | Error (message : string)
  | TypeError (message : string).

(** How a promise settles. *)
Inductive Settled (A : Type) : Type :=
  | Resolved (value : A)
  | Rejected (reason : JsError).
Arguments Resolved {A} value.
Arguments Rejected {A} reason.

(** A value of type [T | null | undefined]. *)
Inductive Nullish (A : Type) : Type :=
  | Undefined
  | Null
  | Obj (value : A).
Arguments Undefined {A}.
Arguments Null {A}.
Arguments Obj {A} value.

(** [toNullable] of offline-api-service.ts. *)
Definition toNullable {A} (value : option A) : Nullish A :=
  match value with
  | None => Null
  | Some v => Obj v
  end.

(** Truthiness of the operands that appear on the left of [||] and in
    conditions: strings, numbers and nullable fields. *)
Definition truthy_string (s : string) : bool :=
  negb (String.eqb s EmptyString).

Definition truthy_number (n : Z) : bool :=
  negb (n =? 0).

(** [x || null] for a nullable string field. *)
Definition string_or_null (x : option string) : option string :=
  match x with
  | Some s => if truthy_string s then Some s else None
  | None => None
  end.

(** [x || null] for a nullable number field. *)
Definition number_or_null (x : option Z) : option Z :=
  match x with
  | Some n => if truthy_number n then Some n else None
  | None => None
  end.

(** A value a plugin hands back, as far as the services look at it. *)
#[warnings="-register-all"]
Inductive Js : Type :=
  | JsUndefined
  | JsNumber (n : Z)
  | JsObject (properties : list (string * Js)).

(** [object.name]: [undefined] when the object has no property of that
    name. *)
Definition property (object : list (string * Js)) (name : string) : Js :=
  match find (fun p : string * Js => String.eqb p.1 name) object with
  | Some p => p.2
  | None => JsUndefined
  end.

(** [x !== undefined]. *)
Definition defined (x : Js) : bool :=
  match x with
  | JsUndefined => false
  | _ => true
  end.

(** [x > n] for a number [n].  An operand that is not a number is turned
    into one first: an object and [undefined] both become NaN, and every
    comparison with NaN is false. *)
Definition greater_than (x : Js) (n : Z) : bool :=
  match x with
  | JsNumber m => n <? m
  | JsObject _ => false
  | JsUndefined => false
  end.

(** Numbers are IEEE doubles.  Every whole number up to 2^53 in size is
    one; beyond that the doubles are the multiples of a power of two, and
    an operation gives the double nearest to the exact result, on a tie
    the one whose quotient by that power is even. *)
Definition nearest_double (x : Z) : Z :=
  let m := Z.abs x in
  if m <=? 2 ^ 53 then x
  else
    let unit := 2 ^ (Z.log2 m - 52) in
    let q := m / unit in
    let r := m mod unit in
    let q' :=
      if 2 * r <? unit then q
      else if unit <? 2 * r then q + 1
      else if Z.even q then q else q + 1 in
    Z.sgn x * (q' * unit).

(** [a + b] on numbers: the operands are doubles, and so is the sum. *)
Definition plus (a b : Z) : Z :=
  nearest_double (nearest_double a + nearest_double b).

(** The string and array methods the services use. *)
Module JsString.

(** [s.split(sep)] for a separator of one character: the pieces between
    the separators, at least one. *)
Fixpoint split (sep : ascii) (s : string) : list string :=
  match s with
  | EmptyString => [EmptyString]
  | String c s' =>
      if Ascii.eqb c sep then EmptyString :: split sep s'
      else
        match split sep s' with
        | piece :: pieces => String c piece :: pieces
        | [] => [String c EmptyString]
        end
  end.

(** [pieces.join(sep)]. *)
Fixpoint join (sep : string) (pieces : list string) : string :=
  match pieces with
  | [] => EmptyString
  | [piece] => piece
  | piece :: rest => piece +:+ sep +:+ join sep rest
  end.

(** [pieces.pop()]: the last piece, [undefined] for the empty array. *)
Definition pop (pieces : list string) : option string := last pieces.

(** [pieces.slice(0, -1)]. *)
Definition slice_to_last (pieces : list string) : list string := removelast pieces.

(** [s.startsWith(p)]. *)
Definition startsWith (s p : string) : bool := String.prefix p s.

(** [x || fallback] for a string that may be undefined. *)
Definition string_or (x : option string) (fallback : string) : string :=
  match x with
  | Some s => if truthy_string s then s else fallback
  | None => fallback
  end.

(** [s.indexOf(c) >= 0] for a character [c]. *)
Fixpoint includes (s : string) (c : ascii) : bool :=
  match s with
  | EmptyString => false
  | String x s' => Ascii.eqb x c || includes s' c
  end.

(** The rest of [s] after the prefix [p], when [s] starts with [p]. *)
Fixpoint after_prefix (p s : string) : option string :=
  match p, s with
  | EmptyString, _ => Some s
  | String a p', String b s' => if Ascii.eqb a b then after_prefix p' s' else None
  | String _ _, EmptyString => None
  end.

(** [s.substr(s.indexOf(c, 1))] when the character occurs at position 1
    or later: the part of [s] from that occurrence on. *)
Fixpoint from_char (c : ascii) (s : string) : option string :=
  match s with
  | EmptyString => None
  | String x s' => if Ascii.eqb x c then Some s else from_char c s'
  end.

Definition from_char_after_first (c : ascii) (s : string) : option string :=
  match s with
  | EmptyString => None
  | String _ s' => from_char c s'
  end.

(** [s.substr(-1)]: the last character, as a text. *)
Fixpoint last_char (s : string) : string :=
  match s with
  | EmptyString => EmptyString
  | String c EmptyString => s
  | String _ s' => last_char s'
  end.

End JsString.

(** [btoa]: the base64 text of a string of characters below 256. *)
Module Base64.

Definition alphabet : string :=
  "ABCDEFGHIJKLMNOPQRSTUVWXYZabcdefghijklmnopqrstuvwxyz0123456789+/".

Definition sextet (n : Z) : ascii :=
  default "="%char (String.get (Z.to_nat n) alphabet).

Definition text_of (cs : list ascii) : string := string_of_list_ascii cs.

Fixpoint encode (bytes : list Z) : list ascii :=
  match bytes with
  | a :: b :: c :: rest =>
      sextet (a / 4) :: sextet ((a mod 4) * 16 + b / 16)
        :: sextet ((b mod 16) * 4 + c / 64) :: sextet (c mod 64) :: encode rest
  | [a; b] =>
      [sextet (a / 4); sextet ((a mod 4) * 16 + b / 16); sextet ((b mod 16) * 4);
       "="%char]
  | [a] => [sextet (a / 4); sextet ((a mod 4) * 16); "="%char; "="%char]
  | [] => []
  end.

Definition btoa (binary : string) : string :=
  text_of (encode ((fun c => Z.of_nat (nat_of_ascii c)) <$> list_ascii_of_string binary)).

(** [atob]: the forgiving decoder.  White space is dropped; when the
    length is a multiple of four, up to two [=] at the end are dropped;
    a length that leaves the remainder 1 and a character outside the
    alphabet are errors; the bits left over in the last group are
    discarded. *)
Definition value_of (c : ascii) : option Z :=
  let n := Z.of_nat (nat_of_ascii c) in
  if (65 <=? n) && (n <=? 90) then Some (n - 65)
  else if (97 <=? n) && (n <=? 122) then Some (n - 71)
  else if (48 <=? n) && (n <=? 57) then Some (n + 4)
  else if n =? 43 then Some 62
  else if n =? 47 then Some 63
  else None.

Definition is_white_space (c : ascii) : bool :=
  let n := Z.of_nat (nat_of_ascii c) in
  (n =? 9) || (n =? 10) || (n =? 12) || (n =? 13) || (n =? 32).

Fixpoint without_padding (cs : list ascii) : list ascii :=
  match cs with
  | [] => []
  | c :: cs' =>
      if Ascii.eqb c "="
         && match cs' with
            | [] => true
            | [d] => Ascii.eqb d "="
            | _ => false
            end
      then []
      else c :: without_padding cs'
  end.

Fixpoint values_of (cs : list ascii) : option (list Z) :=
  match cs with
  | [] => Some []
  | c :: cs' =>
      match value_of c, values_of cs' with
      | Some v, Some vs => Some (v :: vs)
      | _, _ => None
      end
  end.

Fixpoint decode (sextets : list Z) : list Z :=
  match sextets with
  | a :: b :: c :: d :: rest =>
      (a * 4 + b / 16) :: ((b mod 16) * 16 + c / 4) :: ((c mod 4) * 64 + d)
        :: decode rest
  | [a; b; c] => [a * 4 + b / 16; (b mod 16) * 16 + c / 4]
  | [a; b] => [a * 4 + b / 16]
  | _ => []
  end.

Definition atob (data : string) : option string :=
  let cs := List.filter (fun c => negb (is_white_space c)) (list_ascii_of_string data) in
  let cs := if (length cs mod 4 =? 0)%nat then without_padding cs else cs in
  if (length cs mod 4 =? 1)%nat then None
  else
    match values_of cs with
    | Some sextets =>
        Some (text_of ((fun n => ascii_of_nat (Z.to_nat n)) <$> decode sextets))
    | None => None
    end.

End Base64.

(* ===================================================================== *)
(** * Dates: [Date] and date-fns                                           *)
(* ===================================================================== *)

(** The date library is external to the repository.  A [Date] object is
    its time value in milliseconds, [None] standing for Invalid Date. *)
Class DateLib : Type := {
  (** [new Date(text).getTime()] *)
  newDate : string -> option Z;
  (** [format(date, pattern)] of date-fns *)
  format : Z -> string -> string
}.

Definition isValid (d : option Z) : bool :=
  match d with
  | Some _ => true
  | None => false
  end.

(** [date.getTime()]; the program calls it on valid dates only. *)
Definition getTime (d : option Z) : Z := default 0 d.

(** A concrete calendar for the two patterns the program writes,
    ['yyyy-MM-dd HH:mm:ss'] and ['yyyy-MM-dd'], with the local time zone
    taken as UTC. *)
Module Calendar.

Definition days_from_civil (y m d : Z) : Z :=
  let y' := if m <=? 2 then y - 1 else y in
  let era := y' / 400 in
  let yoe := y' - era * 400 in
  let doy := (153 * (if 2 <? m then m - 3 else m + 9) + 2) / 5 + d - 1 in
  let doe := yoe * 365 + yoe / 4 - yoe / 100 + doy in
  era * 146097 + doe - 719468.

Definition civil_from_days (z : Z) : Z * Z * Z :=
  let z := z + 719468 in
  let era := z / 146097 in
  let doe := z - era * 146097 in
  let yoe := (doe - doe / 1460 + doe / 36524 - doe / 146096) / 365 in
  let doy := doe - (365 * yoe + yoe / 4 - yoe / 100) in
  let mp := (5 * doy + 2) / 153 in
  let d := doy - (153 * mp + 2) / 5 + 1 in
  let m := if mp <? 10 then mp + 3 else mp - 9 in
  let y := yoe + era * 400 in
  (if m <=? 2 then y + 1 else y, m, d).

Definition digit (c : ascii) : option Z :=
  let n := Z.of_nat (nat_of_ascii c) in
  if (48 <=? n) && (n <=? 57) then Some (n - 48) else None.

Fixpoint number (cs : list ascii) (acc : Z) : option Z :=
  match cs with
  | [] => Some acc
  | c :: cs' =>
      match digit c with
      | Some d => number cs' (10 * acc + d)
      | None => None
      end
  end.

Definition in_range (lo x hi : Z) : bool := (lo <=? x) && (x <=? hi).

Definition parse (text : string) : option Z :=
  match list_ascii_of_string text with
  | [y1; y2; y3; y4; "-"%char; m1; m2; "-"%char; d1; d2; " "%char;
     h1; h2; ":"%char; n1; n2; ":"%char; s1; s2] =>
      match number [y1; y2; y3; y4] 0, number [m1; m2] 0, number [d1; d2] 0,
            number [h1; h2] 0, number [n1; n2] 0, number [s1; s2] 0 with
      | Some y, Some m, Some d, Some h, Some n, Some s =>
          if in_range 1 m 12 && in_range 1 d 31 && in_range 0 h 23
             && in_range 0 n 59 && in_range 0 s 59
          then Some ((((days_from_civil y m d * 24 + h) * 60 + n) * 60 + s) * 1000)
          else None
      | _, _, _, _, _, _ => None
      end
  | _ => None
  end.

Definition digit_char (d : Z) : ascii :=
  ascii_of_nat (Z.to_nat (48 + d mod 10)).

Fixpoint pad (width : nat) (n : Z) (acc : string) : string :=
  match width with
  | O => acc
  | S w => pad w (n / 10) (String (digit_char n) acc)
  end.

Definition render_date (ms : Z) : string :=
  let '(y, m, d) := civil_from_days (ms / 86400000) in
  pad 4 y ("-" +:+ pad 2 m ("-" +:+ pad 2 d EmptyString)).

Definition render_time (ms : Z) : string :=
  let s := (ms / 1000) mod 86400 in
  pad 2 (s / 3600) (":" +:+ pad 2 ((s / 60) mod 60) (":" +:+ pad 2 (s mod 60) EmptyString)).

Definition render (ms : Z) (pattern : string) : string :=
  if String.eqb pattern "yyyy-MM-dd HH:mm:ss"
  then render_date ms +:+ " " +:+ render_time ms
  else if String.eqb pattern "yyyy-MM-dd" then render_date ms
  else pattern.

Definition lib : DateLib := {| newDate := parse; format := render |}.

End Calendar.

(* ===================================================================== *)
(** * schema.ts: records and tables                                        *)
(* ===================================================================== *)

(** [interface Profile]. *)
Module Profile.
Record t : Type := mk {
  id : Z;
  name : string;
  channelName : string;
  channelLink : string;
  dailyPushCount : Z;
  lastPushReset : option string
}.
End Profile.

(** [Omit<Profile, 'id'>]. *)
Module ProfileData.
Record t : Type := mk {
  name : string;
  channelName : string;
  channelLink : string;
  dailyPushCount : Z;
  lastPushReset : option string
}.
End ProfileData.

(** [Partial<Profile>]: [None] is a property that is absent or
    [undefined]. *)
Module PartialProfile.
Record t : Type := mk {
  id : option Z;
  name : option string;
  channelName : option string;
  channelLink : option string;
  dailyPushCount : option Z;
  lastPushReset : option (option string)
}.
Definition empty : t := mk None None None None None None.
End PartialProfile.

(** [interface Video]. *)
Module Video.
Record t : Type := mk {
  id : Z;
  profileId : Z;
  title : string;
  description : string;
  filePath : option string;
  fileName : option string;
  fileSize : option Z;
  originalFilePath : option string;
  originalFileSize : option Z;
  thumbnailPath : option string;
  duration : option string;
  scheduleDate : string;
  status : string;
  uploadedDate : option string;
  youtubeLink : option string;
  isFileUploaded : bool;
  isPlaceholder : bool
}.
End Video.

(** [Omit<Video, 'id'>]. *)
Module VideoData.
Record t : Type := mk {
  profileId : Z;
  title : string;
  description : string;
  filePath : option string;
  fileName : option string;
  fileSize : option Z;
  originalFilePath : option string;
  originalFileSize : option Z;
  thumbnailPath : option string;
  duration : option string;
  scheduleDate : string;
  status : string;
  uploadedDate : option string;
  youtubeLink : option string;
  isFileUploaded : bool;
  isPlaceholder : bool
}.
End VideoData.

(** [Partial<Video>]. *)
Module PartialVideo.
Record t : Type := mk {
  id : option Z;
  profileId : option Z;
  title : option string;
  description : option string;
  filePath : option (option string);
  fileName : option (option string);
  fileSize : option (option Z);
  originalFilePath : option (option string);
  originalFileSize : option (option Z);
  thumbnailPath : option (option string);
  duration : option (option string);
  scheduleDate : option string;
  status : option string;
  uploadedDate : option (option string);
  youtubeLink : option (option string);
  isFileUploaded : option bool;
  isPlaceholder : option bool
}.
Definition empty : t :=
  mk None None None None None None None None None None None None None
     None None None None.
End PartialVideo.

(** A value held in a column, or bound to a [?] of a statement. *)
Inductive SqlValue : Type :=
  | SqlNull
  | SqlInteger (n : Z)
  | SqlText (s : string).

#[global] Instance SqlValue_eq_dec : EqDecision SqlValue.
Proof. solve_decision. Defined.

(** A row is what the plugin hands back: an object from column names to
    values.  A table maps the rowid (the [id INTEGER PRIMARY KEY] column)
    to the other columns of the row. *)
Abbreviation Row := (gmap string SqlValue).
Abbreviation Table := (gmap Z (gmap string SqlValue)).

(** The database file [youtube_planner.db] with the two tables of
    CREATE_PROFILES_TABLE and CREATE_VIDEOS_TABLE.  [*_seq] is the
    AUTOINCREMENT counter of the table: the largest rowid ever handed
    out. *)
Record Database : Type := mkDatabase {
  profiles : Table;
  profiles_seq : Z;
  videos : Table;
  videos_seq : Z
}.

Definition empty_database : Database :=
  {| profiles := ∅; profiles_seq := 0; videos := ∅; videos_seq := 0 |}.

(* ===================================================================== *)
(** * The world the services run in                                        *)
(* ===================================================================== *)

(** An entry of [Directory.Documents]: a folder, or a file with the
    content the plugin keeps for it. *)
Inductive Entry : Type :=
  | Folder
  | File (data : string).

#[global] Instance Entry_eq_dec : EqDecision Entry.
Proof. solve_decision. Defined.

(** What the SQLite plugin runs into: for each call of the initialization
    that can fail, the error it fails with, [None] when it works. *)
Record SqliteFaults : Type := mkSqliteFaults {
  initWebStore_fault : option JsError;
  createConnection_fault : option JsError;
  open_fault : option JsError
}.

Definition no_faults : SqliteFaults := mkSqliteFaults None None None.

Record World : Type := mkWorld {
  (** the system clock read by [new Date()], in milliseconds; it stands
      still while one operation runs *)
  clock : Z;
  (** [(await Device.getInfo()).platform]; [None] when the call rejects *)
  platform : option string;
  (** the key-value store behind [Preferences], and whether the plugin
      answers at all *)
  preferences : gmap string string;
  preferences_available : bool;
  (** [Directory.Documents] *)
  documents : gmap string Entry;
  (** the database file and whether the plugin holds an open connection *)
  database : Database;
  connection_open : bool;
  (** [SQLiteService._isInitialized] *)
  _isInitialized : bool;
  (** [OfflineApiService.isInitialized] *)
  offline_isInitialized : bool;
  (** whether the page holds a [jeep-sqlite] element *)
  jeep_sqlite : bool;
  (** the failures of the SQLite plugin *)
  sqlite_faults : SqliteFaults
}.

(** Time passing between two operations. *)
Definition set_clock (t : Z) (w : World) : World :=
  mkWorld t (platform w) (preferences w) (preferences_available w) (documents w)
          (database w) (connection_open w) (_isInitialized w)
          (offline_isInitialized w) (jeep_sqlite w) (sqlite_faults w).

Definition set_preferences (m : gmap string string) (w : World) : World :=
  mkWorld (clock w) (platform w) m (preferences_available w) (documents w)
          (database w) (connection_open w) (_isInitialized w)
          (offline_isInitialized w) (jeep_sqlite w) (sqlite_faults w).

Definition set_documents (d : gmap string Entry) (w : World) : World :=
  mkWorld (clock w) (platform w) (preferences w) (preferences_available w) d
          (database w) (connection_open w) (_isInitialized w)
          (offline_isInitialized w) (jeep_sqlite w) (sqlite_faults w).

Definition set_database (db : Database) (w : World) : World :=
  mkWorld (clock w) (platform w) (preferences w) (preferences_available w)
          (documents w) db (connection_open w) (_isInitialized w)
          (offline_isInitialized w) (jeep_sqlite w) (sqlite_faults w).

Definition set_connection_open (b : bool) (w : World) : World :=
  mkWorld (clock w) (platform w) (preferences w) (preferences_available w)
          (documents w) (database w) b (_isInitialized w)
          (offline_isInitialized w) (jeep_sqlite w) (sqlite_faults w).

Definition set__isInitialized (b : bool) (w : World) : World :=
  mkWorld (clock w) (platform w) (preferences w) (preferences_available w)
          (documents w) (database w) (connection_open w) b
          (offline_isInitialized w) (jeep_sqlite w) (sqlite_faults w).

Definition set_offline_isInitialized (b : bool) (w : World) : World :=
  mkWorld (clock w) (platform w) (preferences w) (preferences_available w)
          (documents w) (database w) (connection_open w) (_isInitialized w) b
          (jeep_sqlite w) (sqlite_faults w).

Definition set_jeep_sqlite (b : bool) (w : World) : World :=
  mkWorld (clock w) (platform w) (preferences w) (preferences_available w)
          (documents w) (database w) (connection_open w) (_isInitialized w)
          (offline_isInitialized w) b (sqlite_faults w).

(** An [async] function: it runs on the world and settles.  Logging to
    the console is not part of the world. *)
Definition Async (A : Type) : Type := World -> Settled A * World.

Definition ret {A} (a : A) : Async A := fun w => (Resolved a, w).

Definition throw {A} (e : JsError) : Async A := fun w => (Rejected e, w).

Definition bind {A B} (m : Async A) (k : A -> Async B) : Async B :=
  fun w =>
    match m w with
    | (Resolved a, w') => k a w'
    | (Rejected e, w') => (Rejected e, w')
    end.

(** [try { m } catch (error) { handler }], also [m.catch(handler)]. *)
Definition try_catch {A} (m : Async A) (handler : JsError -> Async A) : Async A :=
  fun w =>
    match m w with
    | (Resolved a, w') => (Resolved a, w')
    | (Rejected e, w') => handler e w'
    end.

Notation "'let*' x ':=' m 'in' k" := (bind m (fun x => k))
  (at level 10, x name, m at level 100, k at level 200).
Notation "m ';;' k" := (bind m (fun _ => k))
  (at level 100, k at level 200, right associativity).

(** [for (const x of xs) { await body(x) }]. *)
Fixpoint for_of {A} (xs : list A) (body : A -> Async unit) : Async unit :=
  match xs with
  | [] => ret tt
  | x :: xs' => body x ;; for_of xs' body
  end.

(** [new Date()]. *)
Definition Date_now : Async Z := fun w => (Resolved (clock w), w).

(** [Device.getInfo()], reduced to the platform name. *)
Definition Device_getInfo : Async string :=
  fun w =>
    match platform w with
    | Some p => (Resolved p, w)
    | None => (Rejected (Error "Device information unavailable"), w)
    end.

(* ===================================================================== *)
(** * filesystem-service.ts                                                *)
(* ===================================================================== *)

(** The calls of the [@capacitor/filesystem] plugin that the service
    makes, all with [Directory.Documents] and none with an encoding.
    The plugin keeps one entry per path: [getPath] turns the path of a
    call into the path of its entry, and an entry lies in the folder that
    [parent] gives for its path.  Without an encoding the data of a file
    is base64 text; it is what [readFile] hands back. *)
Module Filesystem.

Definition DOCUMENTS : string := "DOCUMENTS".

(** [uriPath.replace(/^[/]+|[/]+$/g, '')]. *)
Fixpoint without_leading_slashes (s : string) : string :=
  match s with
  | EmptyString => EmptyString
  | String c s' => if Ascii.eqb c "/" then without_leading_slashes s' else s
  end.

Fixpoint without_trailing_slashes (s : string) : string :=
  match s with
  | EmptyString => EmptyString
  | String c s' =>
      match without_trailing_slashes s' with
      | EmptyString => if Ascii.eqb c "/" then EmptyString else String c EmptyString
      | rest => String c rest
      end
  end.

Definition clean (uriPath : string) : string :=
  without_trailing_slashes (without_leading_slashes uriPath).

(** [getPath(Directory.Documents, uriPath)]. *)
Definition getPath (uriPath : string) : string :=
  "/" +:+ DOCUMENTS
  +:+ (if String.eqb uriPath EmptyString then EmptyString else "/" +:+ clean uriPath).

(** [path.substr(0, path.lastIndexOf('/'))], which is also
    [path.split('/').slice(0, -1).join('/')]: the folder a path lies in,
    [EmptyString] for a path without a slash. *)
Definition parent (path : string) : string :=
  JsString.join "/" (JsString.slice_to_last (JsString.split "/"%char path)).

(** [(path.match(/\//g) || []).length]. *)
Definition depth (path : string) : nat :=
  pred (length (JsString.split "/"%char path)).

(** [documents] holds the entry of the path ["/DOCUMENTS/" + rest] under
    [rest] and the entry of ["/DOCUMENTS"] itself under [ROOT].  Every
    entry was stored under a path that [getPath] built, so no other path
    has one. *)
Definition ROOT : string := "/".

Definition key (path : string) : option string :=
  if String.eqb path ("/" +:+ DOCUMENTS) then Some ROOT
  else
    match JsString.after_prefix ("/" +:+ DOCUMENTS +:+ "/") path with
    | Some rest => if String.eqb (clean rest) rest then Some rest else None
    | None => None
    end.

(** [dbRequest('get', [path])], [dbRequest('put', [entry])] and
    [dbRequest('delete', [path])]. *)
Definition get (path : string) (w : World) : option Entry :=
  match key path with
  | Some k => documents w !! k
  | None => None
  end.

Definition put (path : string) (e : Entry) : Async unit :=
  fun w =>
    match key path with
    | Some k => (Resolved tt, set_documents (<[k := e]> (documents w)) w)
    | None => (Resolved tt, w)
    end.

Definition remove (path : string) : Async unit :=
  fun w =>
    match key path with
    | Some k => (Resolved tt, set_documents (delete k (documents w)) w)
    | None => (Resolved tt, w)
    end.

(** The path of the entry kept under a key. *)
Definition path_of (k : string) : string :=
  if String.eqb k ROOT then "/" +:+ DOCUMENTS else "/" +:+ DOCUMENTS +:+ "/" +:+ k.

(** [dbIndexRequest('by_folder', 'getAllKeys', [path])] is not empty:
    some entry lies in the folder [path]. *)
Definition has_entries (path : string) (w : World) : bool :=
  negb (bool_decide
          (map_Forall (fun (k : string) (_ : Entry) => parent (path_of k) ≠ path)
                      (documents w))).

(** [stat]: the entry of the path, looked up a second time with a slash
    at its end. *)
Definition stat (uriPath : string) : Async Entry :=
  fun w =>
    let path := getPath uriPath in
    match get path w with
    | Some e => (Resolved e, w)
    | None =>
        match get (path +:+ "/") w with
        | Some e => (Resolved e, w)
        | None => (Rejected (Error "Entry does not exist."), w)
        end
    end.

(** [mkdir].  With [recursive] it first makes the folder it lies in, when
    that one is missing, by calling itself; every such call is for a
    shorter path, so the length of the path bounds their number. *)
Fixpoint mkdir_within (calls : nat) (uriPath : string) (recursive : bool) : Async unit :=
  fun w =>
    let path := getPath uriPath in
    let parentPath := parent path in
    let parentEntry := get parentPath w in
    let occupiedEntry := get path w in
    if (depth path =? 1)%nat then (Rejected (Error "Cannot create Root directory"), w)
    else if bool_decide (is_Some occupiedEntry)
    then (Rejected (Error "Current directory does already exist."), w)
    else if negb recursive && negb (depth path =? 2)%nat
            && bool_decide (parentEntry = None)
    then (Rejected (Error "Parent directory must exist"), w)
    else
      ((if recursive && negb (depth path =? 2)%nat && bool_decide (parentEntry = None)
        then
          match calls with
          | S calls' =>
              mkdir_within calls'
                (default (JsString.last_char parentPath)
                         (JsString.from_char_after_first "/" parentPath))
                recursive
          | O => throw (Error "Maximum call stack size exceeded")
          end
        else ret tt) ;;
       put path Folder) w.

Definition mkdir (uriPath : string) (recursive : bool) : Async unit :=
  mkdir_within (String.length uriPath) uriPath recursive.

(** [isBase64String]: [btoa(atob(str)) == str], [false] when [atob]
    throws. *)
Definition isBase64String (str : string) : bool :=
  match Base64.atob str with
  | Some binary => String.eqb (Base64.btoa binary) str
  | None => false
  end.

(** [data.indexOf(',') >= 0 ? data.split(',')[1] : data]: the part after
    the header of a data URL. *)
Definition without_header (data : string) : string :=
  if JsString.includes data ","
  then default EmptyString (JsString.split ","%char data !! 1%nat)
  else data.

(** [writeFile] without an encoding.  The folder of the path is made when
    it is missing; then the data must be base64 text, and it replaces the
    entry of the path.  The call resolves to the path of the entry. *)
Definition writeFile (uriPath data : string) (recursive : bool) : Async string :=
  fun w =>
    let path := getPath uriPath in
    match get path w with
    | Some Folder => (Rejected (Error "The supplied path is a directory."), w)
    | _ =>
        let parentPath := parent path in
        ((match get parentPath w with
          | None =>
              match JsString.from_char_after_first "/" parentPath with
              | Some parentArgPath => mkdir parentArgPath recursive
              | None => ret tt
              end
          | Some _ => ret tt
          end) ;;
         let data := without_header data in
         if negb (isBase64String data)
         then throw (Error "The supplied data is not valid base64 content.")
         else put path (File data) ;; ret path) w
    end.

(** [readFile]: the content of the entry, the empty text for an entry
    without one. *)
Definition readFile (uriPath : string) : Async string :=
  fun w =>
    match get (getPath uriPath) w with
    | Some (File data) => (Resolved data, w)
    | Some Folder => (Resolved EmptyString, w)
    | None => (Rejected (Error "File does not exist."), w)
    end.

(** [deleteFile]: the entry must exist and no entry may lie in it. *)
Definition deleteFile (uriPath : string) : Async unit :=
  fun w =>
    let path := getPath uriPath in
    match get path w with
    | None => (Rejected (Error "File does not exist."), w)
    | Some _ =>
        if has_entries path w then (Rejected (Error "Folder is not empty."), w)
        else remove path w
    end.

End Filesystem.

Module FileSystemService.

(** [createDirectory]: stat first, [mkdir] when the stat failed. *)
Definition createDirectory (dirName : string) : Async unit :=
  try_catch
    (let* checkResult :=
       try_catch (let* e := Filesystem.stat dirName in ret (Some e))
                 (fun _ => ret None) in
     match checkResult with
     | Some _ => ret tt
     | None => Filesystem.mkdir dirName true
     end)
    (fun error => throw error).

Definition is_native_platform (p : string) : bool :=
  String.eqb p "android" || String.eqb p "ios".

(** [initialize]: on a native platform create the three areas; a
    failure there is logged and swallowed.  The field [isNative] is
    written and read here only. *)
Definition initialize : Async unit :=
  let* info := Device_getInfo in
  if is_native_platform info
  then try_catch
         (createDirectory "videos" ;;
          createDirectory "thumbs" ;;
          createDirectory "temp")
         (fun _ => ret tt)
  else ret tt.

(** [deleteFile]: the plugin's failure is logged and thrown again. *)
Definition deleteFile (path : string) : Async unit :=
  try_catch (Filesystem.deleteFile path) (fun error => throw error).


(** The data handed to [writeFile]: [string | Uint8Array]. *)
Inductive WriteData : Type :=
  | Text (data : string)
  | Uint8Array (bytes : list Byte.byte).

(** [Partial<WriteFileOptions>] and [Partial<ReadFileOptions>], spread
    over the arguments of the plugin call.  No caller overrides the
    directory or the encoding. *)
Record WriteFileOptions : Type := mkWriteFileOptions {
  write_path : option string;
  write_data : option string;
  write_recursive : option bool
}.

Definition no_write_options : WriteFileOptions := mkWriteFileOptions None None None.

Record ReadFileOptions : Type := mkReadFileOptions {
  read_path : option string
}.

Definition no_read_options : ReadFileOptions := mkReadFileOptions None.

(** [arrayBufferToBase64]: one character per byte, then [btoa]. *)
Definition arrayBufferToBase64 (buffer : list Byte.byte) : string :=
  let binary :=
    foldl (fun binary b => binary +:+ String (ascii_of_byte b) EmptyString)
          EmptyString buffer in
  Base64.btoa binary.

(** [writeFile]: make sure the folder of the path exists, then write. *)
Definition writeFile (path : string) (data : WriteData) (options : WriteFileOptions)
    : Async string :=
  try_catch
    (let dirPath :=
       JsString.join "/" (JsString.slice_to_last (JsString.split "/"%char path)) in
     (if truthy_string dirPath then createDirectory dirPath else ret tt) ;;
     let encoded :=
       match data with
       | Uint8Array bytes => arrayBufferToBase64 bytes
       | Text text => text
       end in
     let* uri :=
       Filesystem.writeFile (default path (write_path options))
                            (default encoded (write_data options))
                            (default true (write_recursive options)) in
     ret uri)
    (fun error => throw error).

Definition readFile (path : string) (options : ReadFileOptions) : Async string :=
  try_catch
    (let* data := Filesystem.readFile (default path (read_path options)) in
     ret data)
    (fun error => throw error).

(** [copyFile]: read the source, then [return this.writeFile(..)]. *)
Definition copyFile (source destination : string) : Async string :=
  let* write :=
    try_catch
      (let* fileData := readFile source no_read_options in
       ret (writeFile destination (Text fileData) no_write_options))
      (fun error => throw error) in
  write.

Definition fileExists (path : string) : Async bool :=
  try_catch (Filesystem.stat path ;; ret true) (fun _ => ret false).

End FileSystemService.

(* ===================================================================== *)
(** * The embedded database: the statements sqlite-service.ts runs         *)
(* ===================================================================== *)

Module Sql.

(** Reading a property of a row object.  The schema types the columns;
    where a column holds a value of another type, the typed readers below
    fall back to the empty text, zero or null. *)
Definition column (r : Row) (c : string) : SqlValue :=
  default SqlNull (r !! c).

Definition text (v : SqlValue) : string :=
  match v with SqlText s => s | _ => EmptyString end.

Definition integer (v : SqlValue) : Z :=
  match v with SqlInteger n => n | _ => 0 end.

Definition nullable_text (v : SqlValue) : option string :=
  match v with SqlText s => Some s | _ => None end.

Definition nullable_integer (v : SqlValue) : option Z :=
  match v with SqlInteger n => Some n | _ => None end.

(** Binding a nullable argument to a [?]. *)
Definition of_text (x : option string) : SqlValue :=
  match x with Some s => SqlText s | None => SqlNull end.

Definition of_integer (x : option Z) : SqlValue :=
  match x with Some n => SqlInteger n | None => SqlNull end.

(** [b ? 1 : 0]. *)
Definition of_flag (b : bool) : SqlValue :=
  SqlInteger (if b then 1 else 0).

(** [Boolean(v)]. *)
Definition Boolean (v : SqlValue) : bool :=
  match v with
  | SqlNull => false
  | SqlInteger n => truthy_number n
  | SqlText s => truthy_string s
  end.

(** [SELECT *] gives the row with its rowid as column [id]. *)
Definition select_row (k : Z) (r : Row) : Row :=
  <["id" := SqlInteger k]> r.

Fixpoint insert_sorted {A} (le : A -> A -> bool) (x : A) (l : list A) : list A :=
  match l with
  | [] => [x]
  | y :: l' => if le x y then x :: l else y :: insert_sorted le x l'
  end.

Definition sort_by {A} (le : A -> A -> bool) (l : list A) : list A :=
  foldr (insert_sorted le) [] l.

(** A full scan, in rowid order. *)
Definition scan (t : Table) : list Row :=
  (fun kr : Z * Row => select_row kr.1 kr.2)
    <$> sort_by (fun a b : Z * Row => a.1 <=? b.1) (map_to_list t).

(** [ORDER BY c ASC] and [ORDER BY c DESC] on a text column, binary
    collation. *)
Definition order_by_asc (c : string) (rows : list Row) : list Row :=
  sort_by (fun a b => String.leb (text (column a c)) (text (column b c))) rows.

Definition order_by_desc (c : string) (rows : list Row) : list Row :=
  sort_by (fun a b => String.leb (text (column b c)) (text (column a c))) rows.

(** [SELECT * FROM t WHERE id = ?]. *)
Definition select_where_id (t : Table) (id : Z) : list Row :=
  match t !! id with
  | Some r => [select_row id r]
  | None => []
  end.

(** [UPDATE t SET c1 = ?, c2 = ?, .. WHERE id = ?]. *)
Definition assign (r : Row) (fields : list (string * SqlValue)) : Row :=
  foldl (fun r (cv : string * SqlValue) => <[cv.1 := cv.2]> r) r fields.

Definition update_where_id (t : Table) (id : Z)
    (fields : list (string * SqlValue)) : Table :=
  alter (fun r => assign r fields) id t.

(** [FOREIGN KEY (profileId) REFERENCES profiles (id)], which the store
    enforces: the value written to [profileId] must be the id of a
    profile. *)
Definition references_profile (db : Database) (v : SqlValue) : bool :=
  match v with
  | SqlInteger pid => bool_decide (is_Some (profiles db !! pid))
  | _ => false
  end.

Definition foreign_key_ok (db : Database) (fields : list (string * SqlValue)) : bool :=
  forallb (fun cv : string * SqlValue =>
             if String.eqb cv.1 "profileId" then references_profile db cv.2
             else true)
          fields.

Definition constraint_failed {A} : Settled A :=
  Rejected (Error "FOREIGN KEY constraint failed").

(** What [db.run] resolves to: [{ changes: { changes, lastId } }].  The
    number of changed rows and the id of the inserted row are properties
    of the object under [changes]; the result has no property [lastId] of
    its own.  After a DELETE the plugin reports the id of an earlier
    insert as [lastId]; no caller reads it, and it is left out here. *)
Definition RunResult : Type := list (string * Js).

Definition inserted (lastId : Z) : RunResult :=
  [("changes", JsObject [("changes", JsNumber 1); ("lastId", JsNumber lastId)])].

Definition deleted (changes : Z) : RunResult :=
  [("changes", JsObject [("changes", JsNumber changes)])].

(** [INSERT INTO profiles (..) VALUES (..)]. *)
Definition insert_profile (values : list (string * SqlValue))
    (db : Database) : Settled RunResult * Database :=
  let id := profiles_seq db + 1 in
  (Resolved (inserted id),
   {| profiles := <[id := assign ∅ values]> (profiles db);
      profiles_seq := id;
      videos := videos db;
      videos_seq := videos_seq db |}).

(** [INSERT INTO videos (..) VALUES (..)]. *)
Definition insert_video (values : list (string * SqlValue))
    (db : Database) : Settled RunResult * Database :=
  if foreign_key_ok db values then
    let id := videos_seq db + 1 in
    (Resolved (inserted id),
     {| profiles := profiles db;
        profiles_seq := profiles_seq db;
        videos := <[id := assign ∅ values]> (videos db);
        videos_seq := id |})
  else (constraint_failed, db).

Definition update_profile (id : Z) (fields : list (string * SqlValue))
    (db : Database) : Settled unit * Database :=
  (Resolved tt,
   {| profiles := update_where_id (profiles db) id fields;
      profiles_seq := profiles_seq db;
      videos := videos db;
      videos_seq := videos_seq db |}).

Definition update_video (id : Z) (fields : list (string * SqlValue))
    (db : Database) : Settled unit * Database :=
  match videos db !! id with
  | Some _ =>
      if foreign_key_ok db fields then
        (Resolved tt,
         {| profiles := profiles db;
            profiles_seq := profiles_seq db;
            videos := update_where_id (videos db) id fields;
            videos_seq := videos_seq db |})
      else (constraint_failed, db)
  | None => (Resolved tt, db)
  end.

(** [DELETE FROM profiles WHERE id = ?], with the [ON DELETE CASCADE]
    of the videos table. *)
Definition delete_profile (id : Z) (db : Database) : Settled RunResult * Database :=
  match profiles db !! id with
  | Some _ =>
      (Resolved (deleted 1),
       {| profiles := delete id (profiles db);
          profiles_seq := profiles_seq db;
          videos := filter (fun kr : Z * Row =>
                              column kr.2 "profileId" ≠ SqlInteger id)
                           (videos db);
          videos_seq := videos_seq db |})
  | None => (Resolved (deleted 0), db)
  end.

(** [DELETE FROM videos WHERE id = ?]. *)
Definition delete_video (id : Z) (db : Database) : Settled RunResult * Database :=
  match videos db !! id with
  | Some _ =>
      (Resolved (deleted 1),
       {| profiles := profiles db;
          profiles_seq := profiles_seq db;
          videos := delete id (videos db);
          videos_seq := videos_seq db |})
  | None => (Resolved (deleted 0), db)
  end.

(** A statement needs the open connection [this.db]. *)
Definition run {A} (stmt : Database -> Settled A * Database) : Async A :=
  fun w =>
    if connection_open w then
      let '(r, db') := stmt (database w) in (r, set_database db' w)
    else (Rejected (Error "Database youtube_planner.db not opened"), w).

Definition query {A} (q : Database -> A) : Async A :=
  run (fun db => (Resolved (q db), db)).

End Sql.

(* ===================================================================== *)
(** * sqlite-service.ts                                                    *)
(* ===================================================================== *)

Module SQLiteService.

(** ** Opening and closing *)

Definition DB_NAME : string := "youtube_planner.db".

(** What a caller hands to [SQLiteConnection.isDatabase]: the method is
    declared for the name of the database, a string. *)
Inductive DatabaseArgument : Type :=
  | DatabaseName (name : string)
  | DatabaseOptions (database : string).

(** [this.sqlite.isDatabase(..)].  The wrapper takes its argument for
    the name and first asks it whether it ends with [.db]; an object has
    no method [endsWith], and the call rejects.  The world holds one
    database file, the one of [DB_NAME]. *)
Definition sqlite_isDatabase (argument : DatabaseArgument) : Async bool :=
  match argument with
  | DatabaseName name => ret (String.eqb name DB_NAME)
  | DatabaseOptions _ => throw (TypeError "database.endsWith is not a function")
  end.

(** [this.sqlite.initWebStore()], [this.sqlite.createConnection(..)] and
    [this.db.open()]: each fails with the error the world holds for it. *)
Definition sqlite_initWebStore : Async unit :=
  fun w =>
    match initWebStore_fault (sqlite_faults w) with
    | Some error => (Rejected error, w)
    | None => (Resolved tt, w)
    end.

Definition sqlite_createConnection : Async unit :=
  fun w =>
    match createConnection_fault (sqlite_faults w) with
    | Some error => (Rejected error, w)
    | None => (Resolved tt, w)
    end.

Definition db_open : Async unit :=
  fun w =>
    match open_fault (sqlite_faults w) with
    | Some error => (Rejected error, w)
    | None => (Resolved tt, set_connection_open true w)
    end.

(** [initializeNative]: the call of [isDatabase] is made with the object
    [{ database: this.DB_NAME }]. *)
Definition initializeNative : Async unit :=
  let* result := sqlite_isDatabase (DatabaseOptions DB_NAME) in
  (if result : bool then sqlite_createConnection else sqlite_createConnection) ;;
  db_open.

(** [initializeWeb]: a page without the [jeep-sqlite] element gets one,
    and the web store is set up, before the connection is made.  The
    element is taken to be defined once it is in the page. *)
Definition initializeWeb : Async unit :=
  try_catch
    ((fun w =>
        if jeep_sqlite w then (Resolved tt, w)
        else sqlite_initWebStore (set_jeep_sqlite true w)) ;;
     sqlite_createConnection ;;
     db_open)
    (fun error => throw error).

(** [createTables]: both statements are CREATE TABLE IF NOT EXISTS, and
    the two tables of a [Database] are there from the start. *)
Definition createTables : Async unit :=
  try_catch (Sql.run (fun db => (Resolved tt, db)) ;;
             Sql.run (fun db => (Resolved tt, db)))
            (fun error => throw error).

Definition initialize : Async unit :=
  fun w =>
    if _isInitialized w then (Resolved tt, w)
    else
      try_catch
        (let* info := Device_getInfo in
         let isNative := negb (String.eqb info "web") in
         (if isNative then initializeNative else initializeWeb) ;;
         createTables ;;
         fun w' => (Resolved tt, set__isInitialized true w'))
        (fun error => throw error)
        w.

(** [this.sqlite.closeConnection(DB_NAME, false)] of the plugin. *)
Definition sqlite_closeConnection : Async unit :=
  fun w =>
    if connection_open w then (Resolved tt, set_connection_open false w)
    else (Rejected (Error ("No available connection for " +:+ DB_NAME)), w).

(** [this.isInitialized = false].  The class declares [isInitialized]
    with [get] only and the private field is [_isInitialized]; in the
    strict code of a class body, assigning to an accessor property that
    has no setter throws. *)
Definition assign_isInitialized (value : bool) : Async unit :=
  throw (TypeError "Cannot set property isInitialized which has only a getter").

Definition closeConnection : Async unit :=
  try_catch (sqlite_closeConnection ;; assign_isInitialized false)
            (fun _ => ret tt).

(** ** Profiles *)

Definition mapProfileResult (p : Row) : Profile.t :=
  {| Profile.id := Sql.integer (Sql.column p "id");
     Profile.name := Sql.text (Sql.column p "name");
     Profile.channelName := Sql.text (Sql.column p "channelName");
     Profile.channelLink := Sql.text (Sql.column p "channelLink");
     Profile.dailyPushCount := Sql.integer (Sql.column p "dailyPushCount");
     Profile.lastPushReset := Sql.nullable_text (Sql.column p "lastPushReset") |}.

Definition mapProfileResults (rows : list Row) : list Profile.t :=
  mapProfileResult <$> rows.

Definition getProfiles : Async (list Profile.t) :=
  let* result := Sql.query (fun db => Sql.order_by_asc "name" (Sql.scan (profiles db))) in
  ret (mapProfileResults result).

Definition getProfile (id : Z) : Async (option Profile.t) :=
  let* result := Sql.query (fun db => Sql.select_where_id (profiles db) id) in
  match result with
  | [] => ret None
  | r :: _ => ret (Some (mapProfileResult r))
  end.

(** [{ id: result.lastId!, ...profile }]: the input with an [id] read
    from the property [lastId] of the result. *)
Record Created (A : Type) : Type := mkCreated {
  created_id : Js;
  created_fields : A
}.
Arguments mkCreated {A}.
Arguments created_id {A}.
Arguments created_fields {A}.

Definition createProfile (profile : ProfileData.t) : Async (Created ProfileData.t) :=
  let* result :=
    Sql.run (Sql.insert_profile
      [ ("name", SqlText (ProfileData.name profile));
        ("channelName", SqlText (ProfileData.channelName profile));
        ("channelLink", SqlText (ProfileData.channelLink profile));
        ("dailyPushCount",
           SqlInteger (if truthy_number (ProfileData.dailyPushCount profile)
                       then ProfileData.dailyPushCount profile else 0));
        ("lastPushReset",
           Sql.of_text (string_or_null (ProfileData.lastPushReset profile))) ]) in
  ret (mkCreated (property result "lastId") profile).

(** [if (x !== undefined) { fields.push('c = ?'); values.push(x) }]. *)
Definition push_field {A} (x : option A) (c : string) (bind_value : A -> SqlValue)
    : list (string * SqlValue) :=
  match x with
  | Some v => [(c, bind_value v)]
  | None => []
  end.

Definition profile_fields (profile : PartialProfile.t) : list (string * SqlValue) :=
  push_field (PartialProfile.name profile) "name" SqlText
  ++ push_field (PartialProfile.channelName profile) "channelName" SqlText
  ++ push_field (PartialProfile.channelLink profile) "channelLink" SqlText
  ++ push_field (PartialProfile.dailyPushCount profile) "dailyPushCount" SqlInteger
  ++ push_field (PartialProfile.lastPushReset profile) "lastPushReset" Sql.of_text.

Definition updateProfile (id : Z) (profile : PartialProfile.t)
    : Async (option Profile.t) :=
  let fields := profile_fields profile in
  if (length fields =? 0)%nat then getProfile id
  else Sql.run (Sql.update_profile id fields) ;; getProfile id.

(** [result.changes !== undefined && result.changes > 0]. *)
Definition deleteProfile (id : Z) : Async bool :=
  let* result := Sql.run (Sql.delete_profile id) in
  ret (defined (property result "changes")
       && greater_than (property result "changes") 0).

Section Dates.
Context `{Dates : DateLib}.

(** [has24HoursPassed].  The difference in hours is the exact quotient:
    the quotients of whole milliseconds lie either at 24 or above, or
    more than 2e-7 below it, so rounding them to doubles does not change
    the comparison with 24. *)
Definition has24HoursPassed (lastResetDate : option Z) : Async bool :=
  if negb (isValid lastResetDate) then ret true
  else
    let* now := Date_now in
    let diffMs := now - getTime lastResetDate in
    let diffHours := (inject_Z diffMs / inject_Z (1000 * 60 * 60))%Q in
    ret (Qle_bool 24 diffHours).

Definition incrementProfilePushCount (profileId : Z) : Async (option Profile.t) :=
  let* profile := getProfile profileId in
  match profile with
  | None => ret None
  | Some profile =>
      let* shouldReset :=
        match Profile.lastPushReset profile with
        | Some text =>
            if truthy_string text then has24HoursPassed (newDate text)
            else ret true
        | None => ret true
        end in
      if shouldReset : bool then
        let* now := Date_now in
        updateProfile profileId
          {| PartialProfile.id := None;
             PartialProfile.name := None;
             PartialProfile.channelName := None;
             PartialProfile.channelLink := None;
             PartialProfile.dailyPushCount := Some 1;
             PartialProfile.lastPushReset :=
               Some (Some (format now "yyyy-MM-dd HH:mm:ss")) |}
      else
        updateProfile profileId
          {| PartialProfile.id := None;
             PartialProfile.name := None;
             PartialProfile.channelName := None;
             PartialProfile.channelLink := None;
             PartialProfile.dailyPushCount :=
               Some (plus (Profile.dailyPushCount profile) 1);
             PartialProfile.lastPushReset := None |}
  end.

Definition resetProfilePushCount (profileId : Z) : Async (option Profile.t) :=
  let* now := Date_now in
  updateProfile profileId
    {| PartialProfile.id := None;
       PartialProfile.name := None;
       PartialProfile.channelName := None;
       PartialProfile.channelLink := None;
       PartialProfile.dailyPushCount := Some 0;
       PartialProfile.lastPushReset :=
         Some (Some (format now "yyyy-MM-dd HH:mm:ss")) |}.

End Dates.

(** ** Videos *)

Definition mapVideoResult (v : Row) : Video.t :=
  {| Video.id := Sql.integer (Sql.column v "id");
     Video.profileId := Sql.integer (Sql.column v "profileId");
     Video.title := Sql.text (Sql.column v "title");
     Video.description := Sql.text (Sql.column v "description");
     Video.filePath := Sql.nullable_text (Sql.column v "filePath");
     Video.fileName := Sql.nullable_text (Sql.column v "fileName");
     Video.fileSize := Sql.nullable_integer (Sql.column v "fileSize");
     Video.originalFilePath := Sql.nullable_text (Sql.column v "originalFilePath");
     Video.originalFileSize := Sql.nullable_integer (Sql.column v "originalFileSize");
     Video.thumbnailPath := Sql.nullable_text (Sql.column v "thumbnailPath");
     Video.duration := Sql.nullable_text (Sql.column v "duration");
     Video.scheduleDate := Sql.text (Sql.column v "scheduleDate");
     Video.status := Sql.text (Sql.column v "status");
     Video.uploadedDate := Sql.nullable_text (Sql.column v "uploadedDate");
     Video.youtubeLink := Sql.nullable_text (Sql.column v "youtubeLink");
     Video.isFileUploaded := Sql.Boolean (Sql.column v "isFileUploaded");
     Video.isPlaceholder := Sql.Boolean (Sql.column v "isPlaceholder") |}.

Definition mapVideoResults (rows : list Row) : list Video.t :=
  mapVideoResult <$> rows.

Definition getVideos : Async (list Video.t) :=
  let* result :=
    Sql.query (fun db => Sql.order_by_desc "scheduleDate" (Sql.scan (videos db))) in
  ret (mapVideoResults result).

Definition getVideosByProfile (profileId : Z) : Async (list Video.t) :=
  let* result :=
    Sql.query (fun db =>
      Sql.order_by_desc "scheduleDate"
        (filter (fun r : Row => Sql.column r "profileId" = SqlInteger profileId)
                (Sql.scan (videos db)))) in
  ret (mapVideoResults result).

Definition getVideo (id : Z) : Async (option Video.t) :=
  let* result := Sql.query (fun db => Sql.select_where_id (videos db) id) in
  match result with
  | [] => ret None
  | r :: _ => ret (Some (mapVideoResult r))
  end.

Definition createVideo (video : VideoData.t) : Async (Created VideoData.t) :=
  let* result :=
    Sql.run (Sql.insert_video
      [ ("profileId", SqlInteger (VideoData.profileId video));
        ("title", SqlText (VideoData.title video));
        ("description", SqlText (VideoData.description video));
        ("filePath", Sql.of_text (string_or_null (VideoData.filePath video)));
        ("fileName", Sql.of_text (string_or_null (VideoData.fileName video)));
        ("fileSize", Sql.of_integer (number_or_null (VideoData.fileSize video)));
        ("originalFilePath",
           Sql.of_text (string_or_null (VideoData.originalFilePath video)));
        ("originalFileSize",
           Sql.of_integer (number_or_null (VideoData.originalFileSize video)));
        ("thumbnailPath",
           Sql.of_text (string_or_null (VideoData.thumbnailPath video)));
        ("duration", Sql.of_text (string_or_null (VideoData.duration video)));
        ("scheduleDate", SqlText (VideoData.scheduleDate video));
        ("status",
           SqlText (if truthy_string (VideoData.status video)
                    then VideoData.status video else "pending"));
        ("uploadedDate",
           Sql.of_text (string_or_null (VideoData.uploadedDate video)));
        ("youtubeLink",
           Sql.of_text (string_or_null (VideoData.youtubeLink video)));
        ("isFileUploaded", Sql.of_flag (VideoData.isFileUploaded video));
        ("isPlaceholder", Sql.of_flag (VideoData.isPlaceholder video)) ]) in
  ret (mkCreated (property result "lastId") video).

Definition video_fields (video : PartialVideo.t) : list (string * SqlValue) :=
  push_field (PartialVideo.profileId video) "profileId" SqlInteger
  ++ push_field (PartialVideo.title video) "title" SqlText
  ++ push_field (PartialVideo.description video) "description" SqlText
  ++ push_field (PartialVideo.filePath video) "filePath" Sql.of_text
  ++ push_field (PartialVideo.fileName video) "fileName" Sql.of_text
  ++ push_field (PartialVideo.fileSize video) "fileSize" Sql.of_integer
  ++ push_field (PartialVideo.originalFilePath video) "originalFilePath" Sql.of_text
  ++ push_field (PartialVideo.originalFileSize video) "originalFileSize" Sql.of_integer
  ++ push_field (PartialVideo.thumbnailPath video) "thumbnailPath" Sql.of_text
  ++ push_field (PartialVideo.duration video) "duration" Sql.of_text
  ++ push_field (PartialVideo.scheduleDate video) "scheduleDate" SqlText
  ++ push_field (PartialVideo.status video) "status" SqlText
  ++ push_field (PartialVideo.uploadedDate video) "uploadedDate" Sql.of_text
  ++ push_field (PartialVideo.youtubeLink video) "youtubeLink" Sql.of_text
  ++ push_field (PartialVideo.isFileUploaded video) "isFileUploaded" Sql.of_flag
  ++ push_field (PartialVideo.isPlaceholder video) "isPlaceholder" Sql.of_flag.

Definition updateVideo (id : Z) (video : PartialVideo.t) : Async (option Video.t) :=
  let fields := video_fields video in
  if (length fields =? 0)%nat then getVideo id
  else Sql.run (Sql.update_video id fields) ;; getVideo id.

Definition deleteVideo (id : Z) : Async bool :=
  let* result := Sql.run (Sql.delete_video id) in
  ret (defined (property result "changes")
       && greater_than (property result "changes") 0).


Definition getVideosByStatus (status : string) : Async (list Video.t) :=
  let* result :=
    Sql.query (fun db =>
      Sql.order_by_desc "scheduleDate"
        (filter (fun r : Row => Sql.column r "status" = SqlText status)
                (Sql.scan (videos db)))) in
  ret (mapVideoResults result).

End SQLiteService.

(* ===================================================================== *)
(** * offline-api-service.ts                                               *)
(* ===================================================================== *)

(** An operand of [||] inside [return]: a promise that was not awaited,
    or a value. *)
Inductive Operand (A : Type) : Type :=
  | Promise (p : Async A)
  | Value (v : A).
Arguments Promise {A} p.
Arguments Value {A} v.

(** A promise is an object, and every object is truthy. *)
Definition truthy {A} (x : Operand (Nullish A)) : bool :=
  match x with
  | Promise _ => true
  | Value (Obj _) => true
  | Value Null => false
  | Value Undefined => false
  end.

(** [a || b]. *)
Definition js_or {A} (a b : Operand (Nullish A)) : Operand (Nullish A) :=
  if truthy a then a else b.

(** [return x] of an async function: a promise is adopted, a value
    resolves. *)
Definition async_return {A} (x : Operand A) : Async A :=
  match x with
  | Promise p => p
  | Value v => ret v
  end.

(** A result typed [T | undefined], seen as [T | null | undefined]. *)
Definition or_undefined {A} (x : option A) : Nullish A :=
  match x with
  | Some v => Obj v
  | None => Undefined
  end.

Definition settles_as {A} (m : Async (option A)) : Async (Nullish A) :=
  let* x := m in ret (or_undefined x).

(** A property of the parsed import file that should hold an array:
    absent, present with a value that cannot be iterated (null, a number,
    a plain object), or an array. *)
Inductive JsonField (A : Type) : Type :=
  | Missing
  | NotIterable
  | Items (items : list A).
Arguments Missing {A}.
Arguments NotIterable {A}.
Arguments Items {A} items.

Definition iterate {A} (field : JsonField A) (body : A -> Async unit) : Async unit :=
  match field with
  | Items items => for_of items body
  | Missing => throw (TypeError "undefined is not iterable")
  | NotIterable => throw (TypeError "object is not iterable")
  end.

Module ImportData.
Record t : Type := mk {
  profiles : JsonField Profile.t;
  videos : JsonField Video.t
}.
End ImportData.

Module ExportData.
Record t : Type := mk {
  profiles : list Profile.t;
  videos : list Video.t
}.
End ExportData.

Module OfflineApiService.

Definition initialize : Async unit :=
  fun w =>
    if offline_isInitialized w then (Resolved tt, w)
    else
      (SQLiteService.initialize ;;
       FileSystemService.initialize ;;
       fun w' => (Resolved tt, set_offline_isInitialized true w')) w.

Definition ensureInitialized : Async unit :=
  fun w =>
    if negb (offline_isInitialized w) then initialize w
    else (Resolved tt, w).

(** ** Profiles *)

Definition getProfiles : Async (list Profile.t) :=
  ensureInitialized ;; SQLiteService.getProfiles.

Definition getProfile (id : Z) : Async (Nullish Profile.t) :=
  ensureInitialized ;;
  let* profile := SQLiteService.getProfile id in
  async_return (js_or (Value (or_undefined profile)) (Value Null)).

Definition createProfile (profile : ProfileData.t)
    : Async (SQLiteService.Created ProfileData.t) :=
  ensureInitialized ;; SQLiteService.createProfile profile.

Definition updateProfile (id : Z) (profile : PartialProfile.t)
    : Async (Nullish Profile.t) :=
  ensureInitialized ;;
  let* result := SQLiteService.updateProfile id profile in
  ret (toNullable result).

Definition deleteProfile (id : Z) : Async bool :=
  ensureInitialized ;; SQLiteService.deleteProfile id.

(** ** Videos *)

Definition getVideos : Async (list Video.t) :=
  ensureInitialized ;; SQLiteService.getVideos.

(** [return sqliteService.getVideo(id) || null]. *)
Definition getVideo (id : Z) : Async (Nullish Video.t) :=
  ensureInitialized ;;
  async_return (js_or (Promise (settles_as (SQLiteService.getVideo id)))
                      (Value Null)).

(** [return sqliteService.updateVideo(id, video) || null]. *)
Definition updateVideo (id : Z) (video : PartialVideo.t) : Async (Nullish Video.t) :=
  ensureInitialized ;;
  async_return (js_or (Promise (settles_as (SQLiteService.updateVideo id video)))
                      (Value Null)).

(** [if (x) await filesystemService.deleteFile(x).catch(log)]. *)
Definition delete_if_set (path : option string) : Async unit :=
  match path with
  | Some p =>
      if truthy_string p
      then try_catch (FileSystemService.deleteFile p) (fun _ => ret tt)
      else ret tt
  | None => ret tt
  end.

Definition deleteVideo (id : Z) : Async bool :=
  ensureInitialized ;;
  let* video := SQLiteService.getVideo id in
  match video with
  | Some video =>
      delete_if_set (Video.filePath video) ;;
      delete_if_set (Video.thumbnailPath video)
  | None => ret tt
  end ;;
  SQLiteService.deleteVideo id.

Definition revertVideoUpload (id : Z) : Async (Nullish Video.t) :=
  ensureInitialized ;;
  let* video := SQLiteService.getVideo id in
  match video with
  | None => ret Null
  | Some _ =>
      settles_as
        (SQLiteService.updateVideo id
           {| PartialVideo.id := None;
              PartialVideo.profileId := None;
              PartialVideo.title := None;
              PartialVideo.description := None;
              PartialVideo.filePath := None;
              PartialVideo.fileName := None;
              PartialVideo.fileSize := None;
              PartialVideo.originalFilePath := None;
              PartialVideo.originalFileSize := None;
              PartialVideo.thumbnailPath := None;
              PartialVideo.duration := None;
              PartialVideo.scheduleDate := None;
              PartialVideo.status := Some "pending";
              PartialVideo.uploadedDate := Some None;
              PartialVideo.youtubeLink := Some None;
              PartialVideo.isFileUploaded := None;
              PartialVideo.isPlaceholder := None |})
  end.

(** ** Export and import *)

Definition exportData : Async ExportData.t :=
  ensureInitialized ;;
  let* profiles := SQLiteService.getProfiles in
  let* videos := SQLiteService.getVideos in
  ret (ExportData.mk profiles videos).

(** [const { id, ...profileData } = profile]. *)
Definition profile_without_id (profile : Profile.t) : ProfileData.t :=
  {| ProfileData.name := Profile.name profile;
     ProfileData.channelName := Profile.channelName profile;
     ProfileData.channelLink := Profile.channelLink profile;
     ProfileData.dailyPushCount := Profile.dailyPushCount profile;
     ProfileData.lastPushReset := Profile.lastPushReset profile |}.

(** [const { id, ...videoData } = video]. *)
Definition video_without_id (video : Video.t) : VideoData.t :=
  {| VideoData.profileId := Video.profileId video;
     VideoData.title := Video.title video;
     VideoData.description := Video.description video;
     VideoData.filePath := Video.filePath video;
     VideoData.fileName := Video.fileName video;
     VideoData.fileSize := Video.fileSize video;
     VideoData.originalFilePath := Video.originalFilePath video;
     VideoData.originalFileSize := Video.originalFileSize video;
     VideoData.thumbnailPath := Video.thumbnailPath video;
     VideoData.duration := Video.duration video;
     VideoData.scheduleDate := Video.scheduleDate video;
     VideoData.status := Video.status video;
     VideoData.uploadedDate := Video.uploadedDate video;
     VideoData.youtubeLink := Video.youtubeLink video;
     VideoData.isFileUploaded := Video.isFileUploaded video;
     VideoData.isPlaceholder := Video.isPlaceholder video |}.

Definition importData (data : ImportData.t) : Async bool :=
  ensureInitialized ;;
  try_catch
    (iterate (ImportData.profiles data)
       (fun profile =>
          SQLiteService.createProfile (profile_without_id profile) ;; ret tt) ;;
     iterate (ImportData.videos data)
       (fun video =>
          SQLiteService.createVideo (video_without_id video) ;; ret tt) ;;
     ret true)
    (fun _ => ret false).

Section Dates.
Context `{Dates : DateLib}.

Definition incrementProfilePushCount (profileId : Z) : Async (Nullish Profile.t) :=
  ensureInitialized ;;
  let* result := SQLiteService.incrementProfilePushCount profileId in
  ret (toNullable result).

Definition resetProfilePushCount (profileId : Z) : Async (Nullish Profile.t) :=
  ensureInitialized ;;
  let* result := SQLiteService.resetProfilePushCount profileId in
  ret (toNullable result).

Definition markVideoAsUploaded (id : Z) : Async (Nullish Video.t) :=
  ensureInitialized ;;
  let* video := SQLiteService.getVideo id in
  match video with
  | None => ret Null
  | Some _ =>
      let* now := Date_now in
      settles_as
        (SQLiteService.updateVideo id
           {| PartialVideo.id := None;
              PartialVideo.profileId := None;
              PartialVideo.title := None;
              PartialVideo.description := None;
              PartialVideo.filePath := None;
              PartialVideo.fileName := None;
              PartialVideo.fileSize := None;
              PartialVideo.originalFilePath := None;
              PartialVideo.originalFileSize := None;
              PartialVideo.thumbnailPath := None;
              PartialVideo.duration := None;
              PartialVideo.scheduleDate := None;
              PartialVideo.status := Some "completed";
              PartialVideo.uploadedDate := Some (Some (format now "yyyy-MM-dd"));
              PartialVideo.youtubeLink := None;
              PartialVideo.isFileUploaded := None;
              PartialVideo.isPlaceholder := None |})
  end.

End Dates.


(** ** Filters, creation and file attachment *)

Definition getVideosByProfile (profileId : Z) : Async (list Video.t) :=
  ensureInitialized ;; SQLiteService.getVideosByProfile profileId.

Definition getVideosByStatus (status : string) : Async (list Video.t) :=
  ensureInitialized ;; SQLiteService.getVideosByStatus status.

Definition getVideosByStatusAndProfile (status : string) (profileId : Z)
    : Async (list Video.t) :=
  ensureInitialized ;;
  let* profileVideos := SQLiteService.getVideosByProfile profileId in
  ret (filter (fun video => Video.status video = status) profileVideos).

(** [generateThumbnail]: an empty placeholder under [thumbs/], named
    after the part of the file name before its first dot; any failure
    gives [null]. *)
Definition generateThumbnail (videoPath : string) : Async (option string) :=
  try_catch
    (let fileName :=
       JsString.string_or (JsString.pop (JsString.split "/"%char videoPath)) "video" in
     let thumbnailName :=
       default EmptyString (head (JsString.split "."%char fileName)) +:+ "_thumbnail.jpg" in
     let thumbnailPath := "thumbs/" +:+ thumbnailName in
     let* exists_ := FileSystemService.fileExists thumbnailPath in
     if exists_ : bool then ret (Some thumbnailPath)
     else
       FileSystemService.writeFile thumbnailPath (FileSystemService.Uint8Array [])
         (FileSystemService.mkWriteFileOptions None None (Some true)) ;;
       ret (Some thumbnailPath))
    (fun _ => ret None).

(** [video.thumbnailPath = thumbnailPath]. *)
Definition with_thumbnailPath (video : VideoData.t) (thumbnailPath : option string)
    : VideoData.t :=
  {| VideoData.profileId := VideoData.profileId video;
     VideoData.title := VideoData.title video;
     VideoData.description := VideoData.description video;
     VideoData.filePath := VideoData.filePath video;
     VideoData.fileName := VideoData.fileName video;
     VideoData.fileSize := VideoData.fileSize video;
     VideoData.originalFilePath := VideoData.originalFilePath video;
     VideoData.originalFileSize := VideoData.originalFileSize video;
     VideoData.thumbnailPath := thumbnailPath;
     VideoData.duration := VideoData.duration video;
     VideoData.scheduleDate := VideoData.scheduleDate video;
     VideoData.status := VideoData.status video;
     VideoData.uploadedDate := VideoData.uploadedDate video;
     VideoData.youtubeLink := VideoData.youtubeLink video;
     VideoData.isFileUploaded := VideoData.isFileUploaded video;
     VideoData.isPlaceholder := VideoData.isPlaceholder video |}.

Definition createVideo (video : VideoData.t)
    : Async (SQLiteService.Created VideoData.t) :=
  ensureInitialized ;;
  let* video :=
    match string_or_null (VideoData.filePath video) with
    | Some filePath =>
        try_catch
          (let* thumbnailPath := generateThumbnail filePath in
           match string_or_null thumbnailPath with
           | Some thumbnailPath => ret (with_thumbnailPath video (Some thumbnailPath))
           | None => ret video
           end)
          (fun _ => ret video)
    | None => ret video
    end in
  SQLiteService.createVideo video.

(** [{ filePath, isFileUploaded: true, thumbnailPath }]. *)
Definition file_attached (filePath : string) (thumbnailPath : option string)
    : PartialVideo.t :=
  {| PartialVideo.id := None;
     PartialVideo.profileId := None;
     PartialVideo.title := None;
     PartialVideo.description := None;
     PartialVideo.filePath := Some (Some filePath);
     PartialVideo.fileName := None;
     PartialVideo.fileSize := None;
     PartialVideo.originalFilePath := None;
     PartialVideo.originalFileSize := None;
     PartialVideo.thumbnailPath := Some thumbnailPath;
     PartialVideo.duration := None;
     PartialVideo.scheduleDate := None;
     PartialVideo.status := None;
     PartialVideo.uploadedDate := None;
     PartialVideo.youtubeLink := None;
     PartialVideo.isFileUploaded := Some true;
     PartialVideo.isPlaceholder := None |}.

Definition uploadVideoFile (videoId : Z) (filePath : string) : Async bool :=
  ensureInitialized ;;
  try_catch
    (let* video := SQLiteService.getVideo videoId in
     match video with
     | None => ret false
     | Some video =>
         let* filePath :=
           if negb (JsString.startsWith filePath "videos/") then
             let* now := Date_now in
             let fileName :=
               JsString.string_or (JsString.pop (JsString.split "/"%char filePath))
                         ("video_" +:+ pretty now +:+ ".mp4") in
             let newPath := "videos/" +:+ fileName in
             let* fileData :=
               FileSystemService.readFile filePath FileSystemService.no_read_options in
             FileSystemService.writeFile newPath (FileSystemService.Text fileData)
               FileSystemService.no_write_options ;;
             ret newPath
           else ret filePath in
         let* thumbnailPath :=
           match string_or_null (Video.thumbnailPath video) with
           | Some thumbnailPath => ret (Some thumbnailPath)
           | None => generateThumbnail filePath
           end in
         SQLiteService.updateVideo videoId (file_attached filePath thumbnailPath) ;;
         ret true
     end)
    (fun _ => ret false).

End OfflineApiService.

(* ===================================================================== *)
(** * api-switcher.ts                                                      *)
(* ===================================================================== *)

(** The [@capacitor/preferences] plugin. *)
Module Preferences.

Definition get (key : string) : Async (option string) :=
  fun w =>
    if preferences_available w then (Resolved (preferences w !! key), w)
    else (Rejected (Error "Preferences unavailable"), w).

Definition set (key value : string) : Async unit :=
  fun w =>
    if preferences_available w
    then (Resolved tt, set_preferences (<[key := value]> (preferences w)) w)
    else (Rejected (Error "Preferences unavailable"), w).

End Preferences.

(** What [fetch] hands back: the response with the outcome of reading
    its body as text and as JSON. *)
Record Response (T : Type) : Type := mkResponse {
  ok : bool;
  status : Z;
  statusText : string;
  text : string;
  json : Settled T
}.
Arguments mkResponse {T}.
Arguments ok {T}.
Arguments status {T}.
Arguments statusText {T}.
Arguments text {T}.
Arguments json {T}.

Module ApiSwitcher.

Definition OFFLINE_MODE_KEY : string := "offline_mode_preference".

Definition CAPACITOR_DEV_URL : string := "http://localhost:5000".

Definition isNativeApp : Async bool :=
  try_catch
    (let* info := Device_getInfo in
     ret (String.eqb info "android" || String.eqb info "ios"))
    (fun _ => ret false).

Definition isOfflineMode : Async bool :=
  try_catch
    (let* value := Preferences.get OFFLINE_MODE_KEY in
     if bool_decide (value = Some "forced") then ret true
     else
       let* nativeApp := isNativeApp in
       if negb nativeApp then ret false
       else ret (bool_decide (value = Some "true")))
    (fun _ => ret false).

Definition setOfflineMode (enabled forced : bool) : Async unit :=
  try_catch
    (Preferences.set OFFLINE_MODE_KEY
       (if forced then "forced" else if enabled then "true" else "false"))
    (fun _ => ret tt).

Section Requests.
(** [API_BASE_URL] is [window.location.origin]; the network is
    whatever [fetch] answers for a URL (the request options only
    travel to [fetch]). *)
Variable API_BASE_URL : string.
Variable T : Type.
Variable fetch : string -> Settled (Response T).

Definition getApiBaseUrl : Async string :=
  let* offline := isOfflineMode in
  if offline : bool then ret EmptyString
  else
    let* native := isNativeApp in
    if native : bool then ret CAPACITOR_DEV_URL
    else ret API_BASE_URL.

Definition api_request_failed (r : Response T) : JsError :=
  Error ("API request failed: " +:+ pretty (status r) +:+ " " +:+ statusText r
         +:+ " - " +:+ text r).

Definition apiRequest (endpoint : string) (offlineHandler : option (Async T))
    : Async T :=
  let* offline := isOfflineMode in
  if offline : bool then
    match offlineHandler with
    | None => throw (Error "Offline mode active but no offline handler provided")
    | Some handler => handler
    end
  else
    let* baseUrl := getApiBaseUrl in
    try_catch
      (let* response := (fun w => (fetch (baseUrl +:+ endpoint), w)) in
       if negb (ok response) then throw (api_request_failed response)
       else fun w => (json response, w))
      (fun error =>
         match offlineHandler with
         | Some handler => setOfflineMode true false ;; handler
         | None => throw error
         end).

End Requests.


Definition initializeOfflineCapabilities : Async unit :=
  let* native := isNativeApp in
  if native : bool then OfflineApiService.initialize else ret tt.

End ApiSwitcher.

(* ===================================================================== *)
(** * offline-app.ts                                                       *)
(* ===================================================================== *)

Module OfflineApp.

(** The getter [sqliteService.isInitialized]. *)
Definition isInitialized : Async bool :=
  fun w => (Resolved (_isInitialized w), w).

Definition onAppForeground : Async unit :=
  try_catch
    (let* initialized := isInitialized in
     if negb initialized then SQLiteService.initialize else ret tt)
    (fun _ => ret tt).


Definition APP_VERSION : string := "1.0.0".

Definition DEFAULT_PROFILE_NAME : string := "My YouTube Channel".

(** The profile seeded on the first run. *)
Definition default_profile : ProfileData.t :=
  {| ProfileData.name := DEFAULT_PROFILE_NAME;
     ProfileData.channelName := "@mychannel";
     ProfileData.channelLink := "https://youtube.com/@mychannel";
     ProfileData.dailyPushCount := 0;
     ProfileData.lastPushReset := None |}.

(** [onAppBackground]: the call that would close the connection is
    commented out. *)
Definition onAppBackground : Async unit :=
  try_catch (ret tt) (fun _ => ret tt).

Definition checkFirstRun : Async unit :=
  try_catch
    (let* firstRunCompleted := Preferences.get "first_run_completed" in
     match string_or_null firstRunCompleted with
     | None =>
         let* profiles := SQLiteService.getProfiles in
         (if (length profiles =? 0)%nat
          then SQLiteService.createProfile default_profile ;; ret tt
          else ret tt) ;;
         Preferences.set "first_run_completed" "true" ;;
         Preferences.set "app_version" APP_VERSION
     | Some _ =>
         let* storedVersion := Preferences.get "app_version" in
         if bool_decide (storedVersion = Some APP_VERSION) then ret tt
         else Preferences.set "app_version" APP_VERSION
     end)
    (fun _ => ret tt).

(** [initializeNativeApp].  Registering the [appStateChange] listener
    changes nothing in the world; the listener runs [onAppForeground] or
    [onAppBackground] when the app changes state. *)
Definition initializeNativeApp : Async unit :=
  try_catch
    (ApiSwitcher.setOfflineMode true false ;;
     ApiSwitcher.initializeOfflineCapabilities ;;
     checkFirstRun)
    (fun _ => ret tt).

End OfflineApp.

(* ===================================================================== *)
(** * Vocabulary of the statements                                         *)
(* ===================================================================== *)

(** The profile and the video stored under an id. *)
Definition stored_profile (db : Database) (id : Z) : option Profile.t :=
  (fun r => SQLiteService.mapProfileResult (Sql.select_row id r)) <$> profiles db !! id.

Definition stored_video (db : Database) (id : Z) : option Video.t :=
  (fun r => SQLiteService.mapVideoResult (Sql.select_row id r)) <$> videos db !! id.

(** The record a partial object describes: the supplied value where there
    is one, the previous value otherwise; [id] is never written. *)
Definition patch_profile (partial : PartialProfile.t) (p : Profile.t) : Profile.t :=
  {| Profile.id := Profile.id p;
     Profile.name := default (Profile.name p) (PartialProfile.name partial);
     Profile.channelName :=
       default (Profile.channelName p) (PartialProfile.channelName partial);
     Profile.channelLink :=
       default (Profile.channelLink p) (PartialProfile.channelLink partial);
     Profile.dailyPushCount :=
       default (Profile.dailyPushCount p) (PartialProfile.dailyPushCount partial);
     Profile.lastPushReset :=
       default (Profile.lastPushReset p) (PartialProfile.lastPushReset partial) |}.

(** The world after the UPDATE that [updateProfile] builds. *)
Definition after_updateProfile (id : Z) (partial : PartialProfile.t) (w : World) : World :=
  set_database
    (snd (Sql.update_profile id (SQLiteService.profile_fields partial) (database w))) w.

(** The reset window of a profile is over at time [now]: no reset was
    recorded, the recorded text is empty or is not a date, or at least
    24 hours (86,400,000 ms) lie between the recorded date and [now]. *)
Definition window_over `{Dates : DateLib} (now : Z) (lastPushReset : option string) : Prop :=
  lastPushReset = None
  \/ lastPushReset = Some EmptyString
  \/ (exists text, lastPushReset = Some text /\ newDate text = None)
  \/ (exists text t, lastPushReset = Some text /\ newDate text = Some t
                     /\ 86400000 <= now - t).

(** More than 24 hours lie between the recorded date and [now]. *)
Definition more_than_24_hours `{Dates : DateLib} (now : Z) (lastPushReset : option string)
    : Prop :=
  exists text t, lastPushReset = Some text /\ newDate text = Some t
                 /\ 86400000 < now - t.

(** The key under which [documents] holds the entry that a call of the
    plugin with the path [uriPath] is about. *)
Definition entry_key (uriPath : string) : string :=
  if String.eqb uriPath EmptyString then Filesystem.ROOT
  else Filesystem.clean uriPath.

(** A name without a slash, and a path of a folder and a name in it. *)
Definition is_name (s : string) : Prop :=
  s <> EmptyString /\ JsString.includes s "/" = false.

Definition in_folder (dir name : string) : string := dir +:+ "/" +:+ name.

(** Deleting files changes the Documents directory only. *)
Definition same_store (w w' : World) : Prop :=
  database w' = database w
  /\ connection_open w' = connection_open w
  /\ offline_isInitialized w' = offline_isInitialized w.

(** The network call of [apiRequest] fails: [fetch] throws, the response
    is not ok, or its body is not JSON. *)
Definition request_fails {T} (answer : Settled (Response T)) : Prop :=
  match answer with
  | Rejected _ => True
  | Resolved response => ok response = false \/ exists e, json response = Rejected e
  end.

(** A handler that leaves the device and the preferences alone, as the
    operations of the offline service do. *)
Definition keeps_mode {T} (handler : Async T) : Prop :=
  forall w : World,
    platform (snd (handler w)) = platform w
    /\ preferences (snd (handler w)) = preferences w
    /\ preferences_available (snd (handler w)) = preferences_available w.

Definition native (w : World) : Prop :=
  platform w = Some "android" \/ platform w = Some "ios".

(** The world once ['true'] is stored under the offline-mode key. *)
Definition switched_offline (w : World) : World :=
  set_preferences (<[ApiSwitcher.OFFLINE_MODE_KEY := "true"]> (preferences w)) w.

(* ===================================================================== *)
(** * Sample worlds                                                        *)
(* ===================================================================== *)

Module Samples.

(** An Android device on 2024-05-02 at 12:00:00, before the app ran. *)
Definition device : World :=
  {| clock := 1714651200000;
     platform := Some "android";
     preferences := ∅;
     preferences_available := true;
     documents := ∅;
     database := empty_database;
     connection_open := false;
     _isInitialized := false;
     offline_isInitialized := false;
     jeep_sqlite := false;
     sqlite_faults := no_faults |}.

(** The same clock in a browser. *)
Definition browser : World :=
  {| clock := 1714651200000;
     platform := Some "web";
     preferences := ∅;
     preferences_available := true;
     documents := ∅;
     database := empty_database;
     connection_open := false;
     _isInitialized := false;
     offline_isInitialized := false;
     jeep_sqlite := false;
     sqlite_faults := no_faults |}.

(** After [offlineApiService.initialize()] in the browser. *)
Definition started : World := snd (OfflineApiService.initialize browser).

(** A profile that last reset its count exactly 24 hours ago. *)
Definition chan : ProfileData.t :=
  {| ProfileData.name := "Chan";
     ProfileData.channelName := "@chan";
     ProfileData.channelLink := "https://youtube.com/@chan";
     ProfileData.dailyPushCount := 3;
     ProfileData.lastPushReset := Some "2024-05-01 12:00:00" |}.

Definition chan_stored : Profile.t :=
  {| Profile.id := 1;
     Profile.name := "Chan";
     Profile.channelName := "@chan";
     Profile.channelLink := "https://youtube.com/@chan";
     Profile.dailyPushCount := 3;
     Profile.lastPushReset := Some "2024-05-01 12:00:00" |}.

Definition with_profile : World := snd (SQLiteService.createProfile chan started).

(** The same store one second earlier and one second later: 23h59m59s
    and 24h00m01s after the recorded reset. *)
Definition just_before_24_hours : World := set_clock 1714651199000 with_profile.

Definition just_after_24_hours : World := set_clock 1714651201000 with_profile.

(** A video of that profile with its file and thumbnail on disk. *)
Definition clip : VideoData.t :=
  {| VideoData.profileId := 1;
     VideoData.title := "Clip";
     VideoData.description := "First clip";
     VideoData.filePath := Some "videos/clip.mp4";
     VideoData.fileName := Some "clip.mp4";
     VideoData.fileSize := Some 1024;
     VideoData.originalFilePath := None;
     VideoData.originalFileSize := None;
     VideoData.thumbnailPath := Some "thumbs/clip_thumbnail.jpg";
     VideoData.duration := None;
     VideoData.scheduleDate := "2024-05-03 09:00:00";
     VideoData.status := "pending";
     VideoData.uploadedDate := None;
     VideoData.youtubeLink := None;
     VideoData.isFileUploaded := true;
     VideoData.isPlaceholder := false |}.

Definition clip_stored : Video.t :=
  {| Video.id := 1;
     Video.profileId := 1;
     Video.title := "Clip";
     Video.description := "First clip";
     Video.filePath := Some "videos/clip.mp4";
     Video.fileName := Some "clip.mp4";
     Video.fileSize := Some 1024;
     Video.originalFilePath := None;
     Video.originalFileSize := None;
     Video.thumbnailPath := Some "thumbs/clip_thumbnail.jpg";
     Video.duration := None;
     Video.scheduleDate := "2024-05-03 09:00:00";
     Video.status := "pending";
     Video.uploadedDate := None;
     Video.youtubeLink := None;
     Video.isFileUploaded := true;
     Video.isPlaceholder := false |}.

(** The record alone: its file and thumbnail are not on disk. *)
Definition with_video_record : World :=
  snd (SQLiteService.createVideo clip with_profile).

(** The base64 text of ['video bytes']. *)
Definition clip_data : string := "dmlkZW8gYnl0ZXM=".

Definition with_video : World :=
  let w := with_video_record in
  set_documents
    (<["videos" := Folder]>
       (<["videos/clip.mp4" := File clip_data]>
          (<["thumbs" := Folder]>
             (<["thumbs/clip_thumbnail.jpg" := File EmptyString]> (documents w)))))
    w.

(** A store whose only profile has id 2: two profiles were created and
    the first one deleted before the video was scheduled. *)
Definition alpha : ProfileData.t :=
  {| ProfileData.name := "Alpha";
     ProfileData.channelName := "@alpha";
     ProfileData.channelLink := "https://youtube.com/@alpha";
     ProfileData.dailyPushCount := 0;
     ProfileData.lastPushReset := None |}.

Definition beta : ProfileData.t :=
  {| ProfileData.name := "Beta";
     ProfileData.channelName := "@beta";
     ProfileData.channelLink := "https://youtube.com/@beta";
     ProfileData.dailyPushCount := 0;
     ProfileData.lastPushReset := None |}.

Definition beta_stored : Profile.t :=
  {| Profile.id := 2;
     Profile.name := "Beta";
     Profile.channelName := "@beta";
     Profile.channelLink := "https://youtube.com/@beta";
     Profile.dailyPushCount := 0;
     Profile.lastPushReset := None |}.

Definition talk : VideoData.t :=
  {| VideoData.profileId := 2;
     VideoData.title := "Talk";
     VideoData.description := "A talk";
     VideoData.filePath := None;
     VideoData.fileName := None;
     VideoData.fileSize := None;
     VideoData.originalFilePath := None;
     VideoData.originalFileSize := None;
     VideoData.thumbnailPath := None;
     VideoData.duration := None;
     VideoData.scheduleDate := "2024-05-04 18:30:00";
     VideoData.status := "pending";
     VideoData.uploadedDate := None;
     VideoData.youtubeLink := None;
     VideoData.isFileUploaded := false;
     VideoData.isPlaceholder := false |}.

Definition talk_stored : Video.t :=
  {| Video.id := 1;
     Video.profileId := 2;
     Video.title := "Talk";
     Video.description := "A talk";
     Video.filePath := None;
     Video.fileName := None;
     Video.fileSize := None;
     Video.originalFilePath := None;
     Video.originalFileSize := None;
     Video.thumbnailPath := None;
     Video.duration := None;
     Video.scheduleDate := "2024-05-04 18:30:00";
     Video.status := "pending";
     Video.uploadedDate := None;
     Video.youtubeLink := None;
     Video.isFileUploaded := false;
     Video.isPlaceholder := false |}.

Definition second_profile_only : World :=
  let w1 := snd (OfflineApiService.createProfile alpha started) in
  let w2 := snd (OfflineApiService.createProfile beta w1) in
  let w3 := snd (OfflineApiService.deleteProfile 1 w2) in
  snd (SQLiteService.createVideo talk w3).

(** [{ name: 'Renamed' }]. *)
Definition rename : PartialProfile.t :=
  {| PartialProfile.id := None;
     PartialProfile.name := Some "Renamed";
     PartialProfile.channelName := None;
     PartialProfile.channelLink := None;
     PartialProfile.dailyPushCount := None;
     PartialProfile.lastPushReset := None |}.

(** A network that is down, and an offline handler answering ["X"]. *)
Definition network_down : string -> Settled (Response string) :=
  fun _ => Rejected (TypeError "Failed to fetch").

Definition answer_X : Async string := ret "X".

(** The request of [network_down] answered by [answer_X], on the
    device and in the browser. *)
Definition device_failover : Settled string * World :=
  ApiSwitcher.apiRequest "https://app.example" string network_down
    "/api/profiles" (Some answer_X) device.

Definition browser_failover : Settled string * World :=
  ApiSwitcher.apiRequest "https://app.example" string network_down
    "/api/profiles" (Some answer_X) browser.

(** Deleting the profile that owns the sample video. *)
Definition profile_deleted : Settled bool * World :=
  OfflineApiService.deleteProfile 1 with_video.

(** Deleting the sample video itself. *)
Definition video_deleted : Settled bool * World :=
  OfflineApiService.deleteVideo 1 with_video.

(** An import file with an array of profiles and no [videos] key,
    imported into the empty store. *)
Definition profiles_only : ImportData.t :=
  {| ImportData.profiles := Items [chan_stored];
     ImportData.videos := Missing |}.

Definition profiles_only_imported : Settled bool * World :=
  OfflineApiService.importData profiles_only started.

(** Closing the connection of the started app, then coming back to the
    foreground. *)
Definition closed : World := snd (SQLiteService.closeConnection started).

Definition resumed : World := snd (OfflineApp.onAppForeground closed).

(** The export of a store, handed to [importData]. *)
Definition as_import (data : ExportData.t) : ImportData.t :=
  {| ImportData.profiles := Items (ExportData.profiles data);
     ImportData.videos := Items (ExportData.videos data) |}.

(** What [exportData] gives for [second_profile_only], and its import
    into the empty store. *)
Definition exported : ExportData.t :=
  {| ExportData.profiles := [beta_stored];
     ExportData.videos := [talk_stored] |}.

Definition reimported : Settled bool * World :=
  OfflineApiService.importData (as_import exported) started.

Definition beta_reimported : Profile.t :=
  {| Profile.id := 1;
     Profile.name := "Beta";
     Profile.channelName := "@beta";
     Profile.channelLink := "https://youtube.com/@beta";
     Profile.dailyPushCount := 0;
     Profile.lastPushReset := None |}.

End Samples.

(* ===================================================================== *)
(** * Vocabulary of the further statements                                 *)
(* ===================================================================== *)

(** The record the store holds for the input of [createProfile] under
    the id [id]: an empty [lastPushReset] is stored as null. *)
Definition profile_as_stored (id : Z) (data : ProfileData.t) : Profile.t :=
  {| Profile.id := id;
     Profile.name := ProfileData.name data;
     Profile.channelName := ProfileData.channelName data;
     Profile.channelLink := ProfileData.channelLink data;
     Profile.dailyPushCount := ProfileData.dailyPushCount data;
     Profile.lastPushReset := string_or_null (ProfileData.lastPushReset data) |}.

(** The same for [createVideo]: empty texts and zero sizes of the
    optional fields are stored as null, an empty status as ['pending']. *)
Definition video_as_stored (id : Z) (data : VideoData.t) : Video.t :=
  {| Video.id := id;
     Video.profileId := VideoData.profileId data;
     Video.title := VideoData.title data;
     Video.description := VideoData.description data;
     Video.filePath := string_or_null (VideoData.filePath data);
     Video.fileName := string_or_null (VideoData.fileName data);
     Video.fileSize := number_or_null (VideoData.fileSize data);
     Video.originalFilePath := string_or_null (VideoData.originalFilePath data);
     Video.originalFileSize := number_or_null (VideoData.originalFileSize data);
     Video.thumbnailPath := string_or_null (VideoData.thumbnailPath data);
     Video.duration := string_or_null (VideoData.duration data);
     Video.scheduleDate := VideoData.scheduleDate data;
     Video.status :=
       if truthy_string (VideoData.status data) then VideoData.status data
       else "pending";
     Video.uploadedDate := string_or_null (VideoData.uploadedDate data);
     Video.youtubeLink := string_or_null (VideoData.youtubeLink data);
     Video.isFileUploaded := VideoData.isFileUploaded data;
     Video.isPlaceholder := VideoData.isPlaceholder data |}.

(** The video a partial object describes: the supplied value where there
    is one, the previous value otherwise; [id] is never written. *)
Definition patch_video (partial : PartialVideo.t) (v : Video.t) : Video.t :=
  {| Video.id := Video.id v;
     Video.profileId := default (Video.profileId v) (PartialVideo.profileId partial);
     Video.title := default (Video.title v) (PartialVideo.title partial);
     Video.description := default (Video.description v) (PartialVideo.description partial);
     Video.filePath := default (Video.filePath v) (PartialVideo.filePath partial);
     Video.fileName := default (Video.fileName v) (PartialVideo.fileName partial);
     Video.fileSize := default (Video.fileSize v) (PartialVideo.fileSize partial);
     Video.originalFilePath :=
       default (Video.originalFilePath v) (PartialVideo.originalFilePath partial);
     Video.originalFileSize :=
       default (Video.originalFileSize v) (PartialVideo.originalFileSize partial);
     Video.thumbnailPath :=
       default (Video.thumbnailPath v) (PartialVideo.thumbnailPath partial);
     Video.duration := default (Video.duration v) (PartialVideo.duration partial);
     Video.scheduleDate :=
       default (Video.scheduleDate v) (PartialVideo.scheduleDate partial);
     Video.status := default (Video.status v) (PartialVideo.status partial);
     Video.uploadedDate :=
       default (Video.uploadedDate v) (PartialVideo.uploadedDate partial);
     Video.youtubeLink := default (Video.youtubeLink v) (PartialVideo.youtubeLink partial);
     Video.isFileUploaded :=
       default (Video.isFileUploaded v) (PartialVideo.isFileUploaded partial);
     Video.isPlaceholder :=
       default (Video.isPlaceholder v) (PartialVideo.isPlaceholder partial) |}.

(** The store is consistent: no id exceeds the counter of its table, so
    the next id is always fresh, and every video refers to a stored
    profile. *)
Definition consistent (db : Database) : Prop :=
  map_Forall (fun (k : Z) (_ : Row) => k <= profiles_seq db) (profiles db)
  /\ map_Forall (fun (k : Z) (_ : Row) => k <= videos_seq db) (videos db)
  /\ map_Forall (fun (_ : Z) (r : Row) =>
                   Sql.references_profile db (Sql.column r "profileId") = true)
                (videos db).

(** A computation keeps a property of the world. *)
Definition keeps {A} (P : World -> Prop) (m : Async A) : Prop :=
  forall w : World, P w -> P (snd (m w)).

(** A property of the database file alone. *)
Definition of_store (Q : Database -> Prop) : World -> Prop :=
  fun w => Q (database w).

#[global] Instance consistent_dec (db : Database) : Decision (consistent db).
Proof. unfold consistent. apply _. Defined.

(** The order of the video lists: the later schedule date first. *)
Definition later_first (a b : Video.t) : Prop :=
  String.leb (Video.scheduleDate b) (Video.scheduleDate a) = true.

(** What [writeFile] stores for its data: the text itself, or the base64
    text of the bytes. *)
Definition written (data : FileSystemService.WriteData) : string :=
  match data with
  | FileSystemService.Text text => text
  | FileSystemService.Uint8Array bytes => FileSystemService.arrayBufferToBase64 bytes
  end.

(** A path can be written: it does not name a folder, and the folder it
    lies in, when it lies in one, is not taken by a file. *)
Definition writable (docs : gmap string Entry) (path : string) : bool :=
  match docs !! path with
  | Some Folder => false
  | _ =>
      negb (truthy_string (Filesystem.parent path))
      || match docs !! Filesystem.parent path with
         | Some (File _) => false
         | _ => true
         end
  end.

(** Options that leave the path and the data of the call alone. *)
Definition plain_write (options : FileSystemService.WriteFileOptions) : Prop :=
  FileSystemService.write_path options = None
  /\ FileSystemService.write_data options = None.

(** The file area with a folder, unless the name is taken. *)
Definition with_folder (dirName : string) (docs : gmap string Entry) : gmap string Entry :=
  match docs !! dirName with
  | Some _ => docs
  | None => <[dirName := Folder]> docs
  end.

(** The three areas of the service. *)
Definition areas : list string := ["videos"; "thumbs"; "temp"].

(** The placeholder thumbnail of a video path. *)
Definition thumbnail_of (videoPath : string) : string :=
  "thumbs/"
  +:+ default EmptyString
        (head (JsString.split "."%char
                 (JsString.string_or (JsString.pop (JsString.split "/"%char videoPath))
                                     "video")))
  +:+ "_thumbnail.jpg".

(** A world that differs from [w] in the file area at most. *)
Definition files_only (w : World) : World -> Prop :=
  fun w' => exists docs : gmap string Entry, w' = set_documents docs w.

(** The platform is Android or iOS. *)
Definition native_platform (w : World) : bool :=
  match platform w with
  | Some p => String.eqb p "android" || String.eqb p "ios"
  | None => false
  end.

(** The mode that the stored preference and the platform give. *)
Definition offline_mode (w : World) : bool :=
  preferences_available w
  && (bool_decide (preferences w !! ApiSwitcher.OFFLINE_MODE_KEY = Some "forced")
      || native_platform w
         && bool_decide (preferences w !! ApiSwitcher.OFFLINE_MODE_KEY = Some "true")).

(** The order of the profile list: by name. *)
Definition by_name (a b : Profile.t) : Prop :=
  String.leb (Profile.name a) (Profile.name b) = true.

(** Every video row holds a text in its [status] column, as the
    statements of the service write it. *)
Definition is_text (v : SqlValue) : bool :=
  match v with
  | SqlText _ => true
  | _ => false
  end.

Definition status_is_text (db : Database) : Prop :=
  map_Forall (fun (_ : Z) (r : Row) => is_text (Sql.column r "status") = true)
             (videos db).

(** The first failure the SQLite plugin runs into while the store is
    opened in a browser, [None] when it runs into none.  The web store is
    set up only when the page has no [jeep-sqlite] element yet. *)
Definition web_fault (w : World) : option JsError :=
  match (if jeep_sqlite w then None else initWebStore_fault (sqlite_faults w)) with
  | Some error => Some error
  | None =>
      match createConnection_fault (sqlite_faults w) with
      | Some error => Some error
      | None => open_fault (sqlite_faults w)
      end
  end.

(** A record that is stored as it is given: no optional field holds an
    empty text or a size 0, which the store turns into null, and the
    status is not empty, which the store turns into ['pending']. *)
Definition stored_as_given_profile (p : Profile.t) : Prop :=
  Profile.lastPushReset p <> Some EmptyString.

Definition stored_as_given_video (v : Video.t) : Prop :=
  Video.filePath v <> Some EmptyString
  /\ Video.fileName v <> Some EmptyString
  /\ Video.fileSize v <> Some 0
  /\ Video.originalFilePath v <> Some EmptyString
  /\ Video.originalFileSize v <> Some 0
  /\ Video.thumbnailPath v <> Some EmptyString
  /\ Video.duration v <> Some EmptyString
  /\ Video.status v <> EmptyString
  /\ Video.uploadedDate v <> Some EmptyString
  /\ Video.youtubeLink v <> Some EmptyString.

(* ===================================================================== *)
(** * Further sample values                                                *)
(* ===================================================================== *)

Module Scenes.

(** [{ title: 'New title' }] and [{ profileId: 9 }]. *)
Definition retitle : PartialVideo.t :=
{| PartialVideo.id := None;
   PartialVideo.profileId := None;
   PartialVideo.title := Some "New title";
   PartialVideo.description := None;
   PartialVideo.filePath := None;
   PartialVideo.fileName := None;
   PartialVideo.fileSize := None;
   PartialVideo.originalFilePath := None;
   PartialVideo.originalFileSize := None;
   PartialVideo.thumbnailPath := None;
   PartialVideo.duration := None;
   PartialVideo.scheduleDate := None;
   PartialVideo.status := None;
   PartialVideo.uploadedDate := None;
   PartialVideo.youtubeLink := None;
   PartialVideo.isFileUploaded := None;
   PartialVideo.isPlaceholder := None |}.

Definition move_to_profile_9 : PartialVideo.t :=
{| PartialVideo.id := None;
   PartialVideo.profileId := Some 9;
   PartialVideo.title := None;
   PartialVideo.description := None;
   PartialVideo.filePath := None;
   PartialVideo.fileName := None;
   PartialVideo.fileSize := None;
   PartialVideo.originalFilePath := None;
   PartialVideo.originalFileSize := None;
   PartialVideo.thumbnailPath := None;
   PartialVideo.duration := None;
   PartialVideo.scheduleDate := None;
   PartialVideo.status := None;
   PartialVideo.uploadedDate := None;
   PartialVideo.youtubeLink := None;
   PartialVideo.isFileUploaded := None;
   PartialVideo.isPlaceholder := None |}.

(** The sample store with a downloaded file that is not yet under
  [videos/]; it holds the base64 text of ['raw bytes']. *)
Definition raw_data : string := "cmF3IGJ5dGVz".

Definition with_download : World :=
set_documents
  (<["temp" := Folder]>
     (<["temp/raw.mp4" := File raw_data]> (documents Samples.with_video)))
  Samples.with_video.

(** The started app with an empty [temp] folder. *)
Definition with_temp : World :=
set_documents (<["temp" := Folder]> (documents Samples.started)) Samples.started.

(** The browser once the offline mode was forced. *)
Definition forced_offline : World :=
snd (ApiSwitcher.setOfflineMode true true Samples.browser).

(** A network that answers every request with an empty list. *)
Definition empty_list : Response string :=
{| ok := true; status := 200; statusText := "OK"; text := "[]";
   json := Resolved "[]" |}.

Definition network_up : string -> Settled (Response string) :=
fun _ => Resolved empty_list.

End Scenes.

(* ===================================================================== *)
(** * Reasoning about the store                                            *)
(* ===================================================================== *)

Section StoreFacts.

Lemma set_database_same (w : World) : set_database (database w) w = w.
Proof. by destruct w. Qed.

Lemma run_open {A} (stmt : Database -> Settled A * Database) (w : World) :
  connection_open w = true ->
  Sql.run stmt w = (fst (stmt (database w)), set_database (snd (stmt (database w))) w).
Proof. intros Hopen. unfold Sql.run. rewrite Hopen. by destruct (stmt (database w)). Qed.

Lemma query_open {A} (q : Database -> A) (w : World) :
  connection_open w = true -> Sql.query q w = (Resolved (q (database w)), w).
Proof.
  intros Hopen. unfold Sql.query. rewrite run_open by done. cbn.
  by rewrite set_database_same.
Qed.

Lemma query_closed {A} (q : Database -> A) (w : World) :
  connection_open w = false -> exists e, Sql.query q w = (Rejected e, w).
Proof. intros Hclosed. unfold Sql.query, Sql.run. rewrite Hclosed. eauto. Qed.

Lemma getProfile_open (w : World) (id : Z) :
  connection_open w = true ->
  SQLiteService.getProfile id w = (Resolved (stored_profile (database w) id), w).
Proof.
  intros Hopen. unfold SQLiteService.getProfile, bind.
  rewrite query_open by done. unfold stored_profile, Sql.select_where_id.
  by destruct (profiles (database w) !! id).
Qed.

Lemma getVideo_open (w : World) (id : Z) :
  connection_open w = true ->
  SQLiteService.getVideo id w = (Resolved (stored_video (database w) id), w).
Proof.
  intros Hopen. unfold SQLiteService.getVideo, bind.
  rewrite query_open by done. unfold stored_video, Sql.select_where_id.
  by destruct (videos (database w) !! id).
Qed.

(** A read that resolved went through an open connection. *)
Lemma getProfile_resolved (w : World) (id : Z) (x : option Profile.t) :
  fst (SQLiteService.getProfile id w) = Resolved x ->
  connection_open w = true /\ stored_profile (database w) id = x.
Proof.
  destruct (connection_open w) eqn:Hopen.
  - rewrite getProfile_open by done. cbn. intros [= <-]. done.
  - unfold SQLiteService.getProfile, bind.
    destruct (query_closed (fun db => Sql.select_where_id (profiles db) id) w Hopen)
      as [e ->].
    discriminate.
Qed.

Lemma getVideo_resolved (w : World) (id : Z) (x : option Video.t) :
  fst (SQLiteService.getVideo id w) = Resolved x ->
  connection_open w = true /\ stored_video (database w) id = x.
Proof.
  destruct (connection_open w) eqn:Hopen.
  - rewrite getVideo_open by done. cbn. intros [= <-]. done.
  - unfold SQLiteService.getVideo, bind.
    destruct (query_closed (fun db => Sql.select_where_id (videos db) id) w Hopen)
      as [e ->].
    discriminate.
Qed.

(** Reading a column after the assignments of an UPDATE. *)
Lemma column_insert_eq (r : Row) (c : string) (v : SqlValue) :
  Sql.column (<[c := v]> r) c = v.
Proof. unfold Sql.column. by rewrite lookup_insert_eq. Qed.

Lemma column_insert_ne (r : Row) (c c' : string) (v : SqlValue) :
  c ≠ c' -> Sql.column (<[c := v]> r) c' = Sql.column r c'.
Proof. intros Hne. unfold Sql.column. by rewrite lookup_insert_ne. Qed.

Lemma column_assign_other (fields : list (string * SqlValue)) (r : Row) (c : string) :
  c ∉ fields.*1 -> Sql.column (Sql.assign r fields) c = Sql.column r c.
Proof.
  unfold Sql.assign. revert r.
  induction fields as [|[c' v] fields IH]; intros r Hnot; [done|].
  cbn in Hnot. apply not_elem_of_cons in Hnot as [Hne Hnot].
  cbn. rewrite IH by done. by apply column_insert_ne.
Qed.

Lemma ensureInitialized_done (w : World) :
  offline_isInitialized w = true ->
  OfflineApiService.ensureInitialized w = (Resolved tt, w).
Proof. intros Hinit. unfold OfflineApiService.ensureInitialized. by rewrite Hinit. Qed.

End StoreFacts.

(** Reading columns of a row that was just assigned to. *)
Ltac columns :=
  repeat first
    [ rewrite column_insert_eq
    | rewrite column_insert_ne by discriminate ].

(* ===================================================================== *)
(** * Partial updates of a profile                                         *)
(* ===================================================================== *)

Section ProfileUpdates.

Lemma update_where_id_nil (t : Table) (id : Z) :
  Sql.update_where_id t id [] = t.
Proof.
  unfold Sql.update_where_id, Sql.assign. cbn.
  apply map_eq. intros k. destruct (decide (k = id)) as [->|Hne].
  - rewrite lookup_alter_eq. by destruct (t !! id).
  - by rewrite lookup_alter_ne.
Qed.

Lemma update_profile_nil (db : Database) (id : Z) :
  snd (Sql.update_profile id [] db) = db.
Proof.
  unfold Sql.update_profile. cbn. rewrite update_where_id_nil. by destruct db.
Qed.

Lemma stored_profile_update (db : Database) (id : Z) (fields : list (string * SqlValue)) :
  stored_profile (snd (Sql.update_profile id fields db)) id
  = (fun r => SQLiteService.mapProfileResult (Sql.select_row id (Sql.assign r fields)))
      <$> profiles db !! id.
Proof.
  unfold stored_profile, Sql.update_profile, Sql.update_where_id. cbn.
  rewrite lookup_alter_eq. by destruct (profiles db !! id).
Qed.

Lemma stored_profile_update_other (db : Database) (id other : Z)
    (fields : list (string * SqlValue)) :
  other ≠ id ->
  stored_profile (snd (Sql.update_profile id fields db)) other = stored_profile db other.
Proof.
  intros Hne. unfold stored_profile, Sql.update_profile, Sql.update_where_id. cbn.
  by rewrite lookup_alter_ne.
Qed.

(** On an open connection [updateProfile] runs one UPDATE with the
    pushed fields (none when nothing was pushed) and reads the row
    back. *)
Lemma updateProfile_open (w : World) (id : Z) (partial : PartialProfile.t) :
  connection_open w = true ->
  SQLiteService.updateProfile id partial w
  = (Resolved (stored_profile (database (after_updateProfile id partial w)) id),
     after_updateProfile id partial w).
Proof.
  intros Hopen. unfold SQLiteService.updateProfile, after_updateProfile.
  cbn [database set_database].
  destruct (length (SQLiteService.profile_fields partial) =? 0)%nat eqn:Hlen.
  - apply Nat.eqb_eq, nil_length_inv in Hlen.
    rewrite Hlen, update_profile_nil, set_database_same.
    by apply getProfile_open.
  - unfold bind. rewrite run_open by done. cbn [fst snd Sql.update_profile].
    by rewrite getProfile_open.
Qed.

(** Reading the updated row back gives the patched record. *)
Lemma updateProfile_patches (w : World) (id : Z) (partial : PartialProfile.t)
    (p : Profile.t) :
  fst (SQLiteService.getProfile id w) = Resolved (Some p) ->
  SQLiteService.updateProfile id partial w
  = (Resolved (Some (patch_profile partial p)), after_updateProfile id partial w).
Proof.
  intros Hget. apply getProfile_resolved in Hget as [Hopen Hstored].
  unfold stored_profile in Hstored.
  destruct (profiles (database w) !! id) as [r|] eqn:Hrow; [|done].
  injection Hstored as <-.
  rewrite updateProfile_open by done. f_equal. f_equal.
  unfold after_updateProfile. cbn [database set_database].
  rewrite stored_profile_update, Hrow. cbn [fmap option_fmap option_map]. f_equal.
  destruct partial as [pid [n|] [cn|] [cl|] [cnt|] [[l|]|]].
  all: unfold patch_profile, SQLiteService.mapProfileResult; cbn.
  all: unfold Sql.select_row; columns; reflexivity.
Qed.

Lemma updateProfile_read_back (w : World) (id : Z) (partial : PartialProfile.t)
    (p : Profile.t) :
  fst (SQLiteService.getProfile id w) = Resolved (Some p) ->
  fst (SQLiteService.getProfile id (after_updateProfile id partial w))
  = Resolved (Some (patch_profile partial p)).
Proof.
  intros Hget. pose proof (updateProfile_patches w id partial p Hget) as Hupdate.
  apply getProfile_resolved in Hget as [Hopen _].
  rewrite updateProfile_open in Hupdate by done.
  rewrite getProfile_open by done. cbn [fst]. congruence.
Qed.

Lemma after_updateProfile_empty (w : World) (id : Z) :
  after_updateProfile id PartialProfile.empty w = w.
Proof.
  unfold after_updateProfile.
  change (SQLiteService.profile_fields PartialProfile.empty)
    with (@nil (string * SqlValue)).
  rewrite update_profile_nil. apply set_database_same.
Qed.

End ProfileUpdates.

(** C8.  [updateProfile(id, partial)] on a stored profile changes only the
    fields the partial object supplies: a field that is not supplied
    keeps its stored value, a supplied one takes the supplied value
    ([id] is never written), the other profiles and the videos are
    untouched, and the empty partial object leaves the record and the
    whole store as they were. *)
Theorem updateProfile_changes_only_supplied_fields
    (w : World) (id : Z) (partial : PartialProfile.t) (p : Profile.t) :
  fst (SQLiteService.getProfile id w) = Resolved (Some p) ->
  exists (p' : Profile.t) (w' : World),
    SQLiteService.updateProfile id partial w = (Resolved (Some p'), w')
    /\ fst (SQLiteService.getProfile id w') = Resolved (Some p')
    /\ Profile.id p' = Profile.id p
    /\ (PartialProfile.name partial = None -> Profile.name p' = Profile.name p)
    /\ (PartialProfile.channelName partial = None ->
          Profile.channelName p' = Profile.channelName p)
    /\ (PartialProfile.channelLink partial = None ->
          Profile.channelLink p' = Profile.channelLink p)
    /\ (PartialProfile.dailyPushCount partial = None ->
          Profile.dailyPushCount p' = Profile.dailyPushCount p)
    /\ (PartialProfile.lastPushReset partial = None ->
          Profile.lastPushReset p' = Profile.lastPushReset p)
    /\ (forall x, PartialProfile.name partial = Some x -> Profile.name p' = x)
    /\ (forall x, PartialProfile.channelName partial = Some x -> Profile.channelName p' = x)
    /\ (forall x, PartialProfile.channelLink partial = Some x -> Profile.channelLink p' = x)
    /\ (forall x, PartialProfile.dailyPushCount partial = Some x ->
          Profile.dailyPushCount p' = x)
    /\ (forall x, PartialProfile.lastPushReset partial = Some x ->
          Profile.lastPushReset p' = x)
    /\ (forall other : Z, other ≠ id ->
          fst (SQLiteService.getProfile other w') = fst (SQLiteService.getProfile other w))
    /\ videos (database w') = videos (database w)
    /\ (partial = PartialProfile.empty -> p' = p /\ w' = w).
Proof.
  intros Hget.
  exists (patch_profile partial p), (after_updateProfile id partial w).
  pose proof (updateProfile_patches w id partial p Hget) as Hupdate.
  pose proof Hget as Hopen. apply getProfile_resolved in Hopen as [Hopen Hstored].
  split; [exact Hupdate|].
  split; [by apply updateProfile_read_back|].
  split; [done|].
  do 5 (split; [intros Hnone; cbn; by rewrite Hnone|]).
  do 5 (split; [intros x Hsome; cbn; by rewrite Hsome|]).
  split.
  { intros other Hne. rewrite !getProfile_open by done.
    unfold after_updateProfile. cbn [fst database set_database].
    by rewrite stored_profile_update_other. }
  split; [done|].
  intros ->. split.
  - by destruct p.
  - apply after_updateProfile_empty.
Qed.

(** Renaming the sample profile: the name changes, the channel name and
    the push count stay. *)
Lemma updateProfile_changes_only_supplied_fields_witness :
  fst (SQLiteService.getProfile 1 Samples.with_profile) = Resolved (Some Samples.chan_stored)
  /\ exists (p' : Profile.t) (w' : World),
       SQLiteService.updateProfile 1 Samples.rename Samples.with_profile
       = (Resolved (Some p'), w')
       /\ Profile.name p' = "Renamed"
       /\ Profile.channelName p' = "@chan"
       /\ Profile.dailyPushCount p' = 3.
Proof.
  assert (fst (SQLiteService.getProfile 1 Samples.with_profile)
          = Resolved (Some Samples.chan_stored)) as Hget
    by (vm_compute; reflexivity).
  split; [exact Hget|].
  destruct (updateProfile_changes_only_supplied_fields
              Samples.with_profile 1 Samples.rename Samples.chan_stored Hget)
    as (p' & w' & Hrun & _ & _ & _ & Hcn & _ & Hcount & _ & Hname & _).
  exists p', w'. split; [exact Hrun|].
  split; [exact (Hname "Renamed" eq_refl)|].
  split; [exact (Hcn eq_refl)|exact (Hcount eq_refl)].
Defined.

(* ===================================================================== *)
(** * The daily push window                                                *)
(* ===================================================================== *)

Section PushWindow.
Context `{Dates : DateLib}.

(** The quotient [diffMs / (1000 * 60 * 60)] reaches 24 exactly from
    86,400,000 ms on. *)
Lemma hours_at_least_24 (diffMs : Z) :
  Qle_bool 24 (inject_Z diffMs / inject_Z (1000 * 60 * 60)) = true <-> 86400000 <= diffMs.
Proof.
  change (inject_Z (1000 * 60 * 60)) with (3600000 # 1)%Q.
  rewrite Qle_bool_iff. unfold Qle, Qdiv, Qmult, Qinv, inject_Z.
  cbn [Qnum Qden]. lia.
Qed.

Lemma has24HoursPassed_spec (w : World) (d : option Z) :
  exists b : bool,
    SQLiteService.has24HoursPassed d w = (Resolved b, w)
    /\ (b = true <-> d = None \/ exists t, d = Some t /\ 86400000 <= clock w - t).
Proof.
  destruct d as [t|]; cbn.
  - eexists. split; [reflexivity|]. rewrite hours_at_least_24. split.
    + intros Hle. right. eauto.
    + intros [[=]|(t' & [= <-] & Hle)]. done.
  - exists true. split; [done|]. split; auto.
Qed.

(** The decision [shouldReset] of [incrementProfilePushCount]. *)
Lemma shouldReset_spec (w : World) (lastPushReset : option string) :
  exists b : bool,
    match lastPushReset with
    | Some text =>
        if truthy_string text then SQLiteService.has24HoursPassed (newDate text)
        else ret true
    | None => ret true
    end w = (Resolved b, w)
    /\ (b = true <-> window_over (clock w) lastPushReset).
Proof.
  unfold window_over. destruct lastPushReset as [text|].
  - unfold truthy_string. destruct (String.eqb_spec text EmptyString) as [->|Hne]; cbn.
    + exists true. split; [done|]. split; auto.
    + destruct (has24HoursPassed_spec w (newDate text)) as (b & -> & Hb).
      exists b. split; [done|]. rewrite Hb. split.
      * intros [Hnone|(t & Ht & Hle)]; [right; right; left|right; right; right]; eauto.
      * intros [[=]|[[= ->]|[(text' & [= <-] & Hnone)|(text' & t & [= <-] & Ht & Hle)]]];
          [done|by left|right; eauto].
  - exists true. split; [done|]. split; auto.
Qed.

(** On the whole numbers up to 2^53 in size the sum of two numbers is
    exact. *)
Lemma plus_exact (a b : Z) :
  Z.abs a <= 2 ^ 53 -> Z.abs b <= 2 ^ 53 -> Z.abs (a + b) <= 2 ^ 53 ->
  plus a b = a + b.
Proof.
  intros Ha Hb Hsafe. unfold plus, nearest_double.
  destruct (Z.leb_spec (Z.abs a) (2 ^ 53)); [|lia].
  destruct (Z.leb_spec (Z.abs b) (2 ^ 53)); [|lia].
  by destruct (Z.leb_spec (Z.abs (a + b)) (2 ^ 53)); [|lia].
Qed.

(** C1 (amended).  For a stored profile, [incrementProfilePushCount]
    sets [dailyPushCount] to 1 and [lastPushReset] to the formatted
    current time exactly when the window is over: [lastPushReset] is
    null or empty, is not a date, or at least 24 hours have elapsed
    since it.  Otherwise it sets [dailyPushCount] to the sum of the
    previous count and one as JavaScript computes it, which is the
    previous count plus one for every count from -2^53 to below 2^53,
    and leaves [lastPushReset] unchanged.  The other fields keep their
    values either way. *)
Theorem incrementProfilePushCount_window (w : World) (id : Z) (p : Profile.t) :
  fst (SQLiteService.getProfile id w) = Resolved (Some p) ->
  exists (p' : Profile.t) (w' : World),
    SQLiteService.incrementProfilePushCount id w = (Resolved (Some p'), w')
    /\ fst (SQLiteService.getProfile id w') = Resolved (Some p')
    /\ Profile.id p' = Profile.id p
    /\ Profile.name p' = Profile.name p
    /\ Profile.channelName p' = Profile.channelName p
    /\ Profile.channelLink p' = Profile.channelLink p
    /\ (window_over (clock w) (Profile.lastPushReset p) ->
          Profile.dailyPushCount p' = 1
          /\ Profile.lastPushReset p' = Some (format (clock w) "yyyy-MM-dd HH:mm:ss"))
    /\ (~ window_over (clock w) (Profile.lastPushReset p) ->
          Profile.dailyPushCount p' = plus (Profile.dailyPushCount p) 1
          /\ (- 2 ^ 53 <= Profile.dailyPushCount p < 2 ^ 53 ->
              Profile.dailyPushCount p' = Profile.dailyPushCount p + 1)
          /\ Profile.lastPushReset p' = Profile.lastPushReset p).
Proof.
  intros Hget.
  pose proof Hget as Hopen. apply getProfile_resolved in Hopen as [Hopen _].
  destruct (shouldReset_spec w (Profile.lastPushReset p))
    as (shouldReset & Hrun & Hreset).
  set (reset := {| PartialProfile.id := None;
                   PartialProfile.name := None;
                   PartialProfile.channelName := None;
                   PartialProfile.channelLink := None;
                   PartialProfile.dailyPushCount := Some 1;
                   PartialProfile.lastPushReset :=
                     Some (Some (format (clock w) "yyyy-MM-dd HH:mm:ss")) |}).
  set (increment := {| PartialProfile.id := None;
                       PartialProfile.name := None;
                       PartialProfile.channelName := None;
                       PartialProfile.channelLink := None;
                       PartialProfile.dailyPushCount :=
                         Some (plus (Profile.dailyPushCount p) 1);
                       PartialProfile.lastPushReset := None |}).
  set (partial := if shouldReset then reset else increment).
  exists (patch_profile partial p), (after_updateProfile id partial w).
  split.
  { unfold SQLiteService.incrementProfilePushCount, bind at 1.
    destruct (SQLiteService.getProfile id w) as [got w0] eqn:Hgot.
    cbn in Hget. subst got.
    assert (w0 = w) as ->.
    { rewrite getProfile_open in Hgot by done. by injection Hgot. }
    unfold bind at 1. rewrite Hrun. subst partial.
    destruct shouldReset; [unfold bind, Date_now|];
      by apply updateProfile_patches; rewrite Hgot. }
  split; [by apply updateProfile_read_back|].
  subst partial.
  repeat (split; [by destruct shouldReset|]).
  split.
  - intros Hover. apply Hreset in Hover as ->. done.
  - intros Hnot. destruct shouldReset; [exfalso; apply Hnot, Hreset; done|].
    split; [done|]. split; [|done].
    intros Hsafe. cbn. apply plus_exact; lia.
Qed.

End PushWindow.

(** The sample profile was reset 24 hours ago: this push opens a new
    window. *)
Lemma incrementProfilePushCount_window_witness :
  fst (SQLiteService.getProfile 1 Samples.with_profile) = Resolved (Some Samples.chan_stored)
  /\ exists (p' : Profile.t) (w' : World),
       @SQLiteService.incrementProfilePushCount Calendar.lib 1 Samples.with_profile
       = (Resolved (Some p'), w')
       /\ Profile.name p' = "Chan"
       /\ Profile.dailyPushCount p' = 1
       /\ Profile.lastPushReset p' = Some "2024-05-02 12:00:00".
Proof.
  assert (fst (SQLiteService.getProfile 1 Samples.with_profile)
          = Resolved (Some Samples.chan_stored)) as Hget
    by (vm_compute; reflexivity).
  split; [exact Hget|].
  destruct (@incrementProfilePushCount_window Calendar.lib
              Samples.with_profile 1 Samples.chan_stored Hget)
    as (p' & w' & Hrun & _ & _ & Hname & _ & _ & Hover & _).
  exists p', w'. split; [exact Hrun|]. split; [exact Hname|].
  apply Hover. right. right. right.
  exists "2024-05-01 12:00:00", 1714564800000.
  split; [reflexivity|]. split; [vm_compute; reflexivity|vm_compute; discriminate].
Defined.

(** The two instants of the design document: one second before the 24
    hours are over the count goes from 3 to 4 and the reset time stays;
    one second after, the count is 1 and the reset time is the current
    time. *)
Example increment_at_23h59m59s :
  fst (@SQLiteService.incrementProfilePushCount Calendar.lib 1 Samples.just_before_24_hours)
  = Resolved (Some {| Profile.id := 1;
                      Profile.name := "Chan";
                      Profile.channelName := "@chan";
                      Profile.channelLink := "https://youtube.com/@chan";
                      Profile.dailyPushCount := 4;
                      Profile.lastPushReset := Some "2024-05-01 12:00:00" |}).
Proof. vm_compute. reflexivity. Qed.

Example increment_at_24h00m01s :
  fst (@SQLiteService.incrementProfilePushCount Calendar.lib 1 Samples.just_after_24_hours)
  = Resolved (Some {| Profile.id := 1;
                      Profile.name := "Chan";
                      Profile.channelName := "@chan";
                      Profile.channelLink := "https://youtube.com/@chan";
                      Profile.dailyPushCount := 1;
                      Profile.lastPushReset := Some "2024-05-02 12:00:01" |}).
Proof. vm_compute. reflexivity. Qed.

(** At 2^53 the count no longer advances: the sum 2^53 + 1 is not a
    number of JavaScript, and the nearest one is 2^53 itself. *)
Example increment_stops_at_2_53 : plus (2 ^ 53) 1 = 2 ^ 53.
Proof. vm_compute. reflexivity. Qed.

(** C1 as stated fails at exactly 24 hours.  The sample profile has a
    [lastPushReset] that is not null and lies exactly 86,400,000 ms in the
    past, which is not more than 24 hours; the statement then asks for
    count 3 + 1 and an unchanged [lastPushReset], and the code stores
    count 1 and the current time. *)
Lemma increment_resets_at_exactly_24_hours :
  fst (SQLiteService.getProfile 1 Samples.with_profile)
  = Resolved (Some Samples.chan_stored)
  /\ Profile.lastPushReset Samples.chan_stored = Some "2024-05-01 12:00:00"
  /\ @newDate Calendar.lib "2024-05-01 12:00:00"
     = Some (clock Samples.with_profile - 86400000)
  /\ ~ @more_than_24_hours Calendar.lib (clock Samples.with_profile)
        (Profile.lastPushReset Samples.chan_stored)
  /\ exists p' : Profile.t,
       fst (@SQLiteService.incrementProfilePushCount Calendar.lib 1 Samples.with_profile)
       = Resolved (Some p')
       /\ Profile.dailyPushCount p' = 1
       /\ Profile.dailyPushCount p' <> Profile.dailyPushCount Samples.chan_stored + 1
       /\ Profile.lastPushReset p' = Some "2024-05-02 12:00:00"
       /\ Profile.lastPushReset p' <> Profile.lastPushReset Samples.chan_stored.
Proof.
  split; [vm_compute; reflexivity|]. split; [reflexivity|].
  split; [vm_compute; reflexivity|]. split.
  - intros (text & t & [= <-] & Hdate & Hlt).
    vm_compute in Hdate. injection Hdate as <-. vm_compute in Hlt. discriminate.
  - eexists. split; [vm_compute; reflexivity|].
    split; [reflexivity|]. split; [vm_compute; discriminate|].
    split; [reflexivity|]. vm_compute. discriminate.
Qed.

(* ===================================================================== *)
(** * Updates of a video and the status transitions                        *)
(* ===================================================================== *)

Section VideoUpdates.

Lemma update_video_missing (db : Database) (id : Z) (fields : list (string * SqlValue)) :
  videos db !! id = None -> Sql.update_video id fields db = (Resolved tt, db).
Proof. intros Hnone. unfold Sql.update_video. by rewrite Hnone. Qed.

Lemma stored_video_None (db : Database) (id : Z) :
  stored_video db id = None -> videos db !! id = None.
Proof. unfold stored_video. by destruct (videos db !! id). Qed.

(** An UPDATE of a stored video that respects the foreign key, read
    back. *)
Lemma updateVideo_stored (w : World) (id : Z) (partial : PartialVideo.t) (r : Row) :
  connection_open w = true ->
  videos (database w) !! id = Some r ->
  Sql.foreign_key_ok (database w) (SQLiteService.video_fields partial) = true ->
  exists w' : World,
    SQLiteService.updateVideo id partial w
    = (Resolved (Some (SQLiteService.mapVideoResult
                         (Sql.select_row id
                            (Sql.assign r (SQLiteService.video_fields partial))))), w')
    /\ connection_open w' = true
    /\ offline_isInitialized w' = offline_isInitialized w
    /\ videos (database w') !! id
       = Some (Sql.assign r (SQLiteService.video_fields partial)).
Proof.
  intros Hopen Hrow Hfk. unfold SQLiteService.updateVideo.
  destruct (length (SQLiteService.video_fields partial) =? 0)%nat eqn:Hlen.
  - apply Nat.eqb_eq, nil_length_inv in Hlen. rewrite Hlen.
    exists w. rewrite getVideo_open by done. unfold stored_video. rewrite Hrow.
    done.
  - unfold bind. rewrite run_open by done.
    unfold Sql.update_video. rewrite Hrow, Hfk. cbn [fst snd].
    eexists. rewrite getVideo_open by done.
    unfold stored_video, Sql.update_where_id. cbn [database set_database videos].
    rewrite lookup_alter_eq, Hrow. cbn [fmap option_fmap option_map].
    split; [reflexivity|]. cbn. by rewrite lookup_alter_eq, Hrow.
Qed.

(** An UPDATE of an id that is not stored matches no row. *)
Lemma updateVideo_missing (w : World) (id : Z) (partial : PartialVideo.t) :
  fst (SQLiteService.getVideo id w) = Resolved None ->
  SQLiteService.updateVideo id partial w = (Resolved None, w).
Proof.
  intros Hget. apply getVideo_resolved in Hget as [Hopen Hstored].
  unfold SQLiteService.updateVideo.
  destruct (length (SQLiteService.video_fields partial) =? 0)%nat.
  - rewrite getVideo_open by done. by rewrite Hstored.
  - unfold bind. rewrite run_open by done.
    rewrite update_video_missing by (by apply stored_video_None).
    cbn [fst snd]. rewrite set_database_same.
    rewrite getVideo_open by done. by rewrite Hstored.
Qed.

End VideoUpdates.

Section StatusTransitions.
Context `{Dates : DateLib}.

(** C3.  For a stored video, [markVideoAsUploaded] followed at once by
    [revertVideoUpload] yields a video with status ['pending'], no
    uploaded date and no YouTube link, and with every other field as it
    was before the mark. *)
Theorem mark_then_revert_restores_pending (w : World) (id : Z) (v : Video.t) :
  offline_isInitialized w = true ->
  fst (SQLiteService.getVideo id w) = Resolved (Some v) ->
  exists (marked : Video.t) (w1 : World) (v' : Video.t) (w2 : World),
    OfflineApiService.markVideoAsUploaded id w = (Resolved (Obj marked), w1)
    /\ OfflineApiService.revertVideoUpload id w1 = (Resolved (Obj v'), w2)
    /\ fst (SQLiteService.getVideo id w2) = Resolved (Some v')
    /\ Video.status v' = "pending"
    /\ Video.uploadedDate v' = None
    /\ Video.youtubeLink v' = None
    /\ Video.id v' = Video.id v
    /\ Video.profileId v' = Video.profileId v
    /\ Video.title v' = Video.title v
    /\ Video.description v' = Video.description v
    /\ Video.filePath v' = Video.filePath v
    /\ Video.fileName v' = Video.fileName v
    /\ Video.fileSize v' = Video.fileSize v
    /\ Video.originalFilePath v' = Video.originalFilePath v
    /\ Video.originalFileSize v' = Video.originalFileSize v
    /\ Video.thumbnailPath v' = Video.thumbnailPath v
    /\ Video.duration v' = Video.duration v
    /\ Video.scheduleDate v' = Video.scheduleDate v
    /\ Video.isFileUploaded v' = Video.isFileUploaded v
    /\ Video.isPlaceholder v' = Video.isPlaceholder v.
Proof.
  intros Hinit Hget. apply getVideo_resolved in Hget as [Hopen Hstored].
  unfold stored_video in Hstored.
  destruct (videos (database w) !! id) as [r|] eqn:Hrow; [|done].
  injection Hstored as <-.
  unfold OfflineApiService.markVideoAsUploaded, bind at 1.
  rewrite ensureInitialized_done by done.
  unfold bind at 1. rewrite getVideo_open by done.
  unfold stored_video at 1. rewrite Hrow. cbn [fmap option_fmap option_map].
  unfold bind at 1, Date_now, settles_as, bind at 1.
  match goal with |- context [SQLiteService.updateVideo id ?partial w] =>
    destruct (updateVideo_stored w id partial r Hopen Hrow eq_refl)
      as (w1 & -> & Hopen1 & Hinit1 & Hrow1)
  end.
  eexists _, w1.
  unfold OfflineApiService.revertVideoUpload, bind at 1.
  rewrite ensureInitialized_done by congruence.
  unfold bind at 1. rewrite getVideo_open by done.
  unfold stored_video at 1. rewrite Hrow1. cbn [fmap option_fmap option_map].
  unfold settles_as, bind at 1.
  match goal with |- context [SQLiteService.updateVideo id ?partial w1] =>
    destruct (updateVideo_stored w1 id partial _ Hopen1 Hrow1 eq_refl)
      as (w2 & -> & Hopen2 & Hinit2 & Hrow2)
  end.
  eexists _, w2.
  split; [reflexivity|]. split; [reflexivity|].
  split.
  { rewrite getVideo_open by done. unfold stored_video. by rewrite Hrow2. }
  cbn. unfold Sql.select_row. columns. done.
Qed.

End StatusTransitions.

(** Marking and reverting the sample video. *)
Lemma mark_then_revert_restores_pending_witness :
  offline_isInitialized Samples.with_video = true
  /\ fst (SQLiteService.getVideo 1 Samples.with_video) = Resolved (Some Samples.clip_stored)
  /\ exists (marked : Video.t) (w1 : World) (v' : Video.t) (w2 : World),
       @OfflineApiService.markVideoAsUploaded Calendar.lib 1 Samples.with_video
       = (Resolved (Obj marked), w1)
       /\ OfflineApiService.revertVideoUpload 1 w1 = (Resolved (Obj v'), w2)
       /\ Video.status v' = "pending"
       /\ Video.uploadedDate v' = None
       /\ Video.youtubeLink v' = None
       /\ Video.title v' = "Clip".
Proof.
  assert (fst (SQLiteService.getVideo 1 Samples.with_video)
          = Resolved (Some Samples.clip_stored)) as Hget
    by (vm_compute; reflexivity).
  split; [reflexivity|]. split; [exact Hget|].
  destruct (@mark_then_revert_restores_pending Calendar.lib
              Samples.with_video 1 Samples.clip_stored eq_refl Hget)
    as (marked & w1 & v' & w2 & Hmark & Hrevert & _ & Hstatus & Hdate & Hlink & _ & _
        & Htitle & _).
  exists marked, w1, v', w2. repeat split; assumption.
Defined.

(* ===================================================================== *)
(** * Reading and updating a video that is not stored                      *)
(* ===================================================================== *)

(** C10.  For an id with no stored video, [OfflineApiService.getVideo]
    resolves to [undefined], not to [null]: the fallback [|| null] is
    applied to the promise, which is truthy, so the promise itself is
    returned.  [OfflineApiService.updateVideo] on such an id does the
    same, whatever the partial object. *)
Theorem getVideo_missing_resolves_undefined (w : World) (id : Z) :
  offline_isInitialized w = true ->
  fst (SQLiteService.getVideo id w) = Resolved None ->
  OfflineApiService.getVideo id w = (Resolved Undefined, w)
  /\ (forall partial : PartialVideo.t,
        OfflineApiService.updateVideo id partial w = (Resolved Undefined, w))
  /\ @Undefined Video.t <> Null.
Proof.
  intros Hinit Hget. split; [|split; [|done]].
  - unfold OfflineApiService.getVideo, bind.
    rewrite ensureInitialized_done by done. cbn.
    unfold settles_as, bind.
    destruct (getVideo_resolved _ _ _ Hget) as [Hopen Hstored].
    rewrite getVideo_open by done. by rewrite Hstored.
  - intros partial. unfold OfflineApiService.updateVideo, bind.
    rewrite ensureInitialized_done by done. cbn.
    unfold settles_as, bind. by rewrite updateVideo_missing.
Qed.

(** No video has id 7 in the freshly started app. *)
Lemma getVideo_missing_resolves_undefined_witness :
  offline_isInitialized Samples.started = true
  /\ fst (SQLiteService.getVideo 7 Samples.started) = Resolved None
  /\ OfflineApiService.getVideo 7 Samples.started = (Resolved Undefined, Samples.started)
  /\ OfflineApiService.updateVideo 7 PartialVideo.empty Samples.started
     = (Resolved Undefined, Samples.started).
Proof.
  assert (fst (SQLiteService.getVideo 7 Samples.started) = Resolved None) as Hget
    by (vm_compute; reflexivity).
  split; [reflexivity|]. split; [exact Hget|].
  destruct (getVideo_missing_resolves_undefined Samples.started 7 eq_refl Hget)
    as (Hread & Hupdate & _).
  split; [exact Hread|exact (Hupdate PartialVideo.empty)].
Defined.

(** In contrast, [getProfile] awaits before it applies [||], and a
    missing profile resolves to [null]. *)
Lemma getProfile_missing_resolves_null (w : World) (id : Z) :
  offline_isInitialized w = true ->
  fst (SQLiteService.getProfile id w) = Resolved None ->
  OfflineApiService.getProfile id w = (Resolved Null, w).
Proof.
  intros Hinit Hget. unfold OfflineApiService.getProfile, bind.
  rewrite ensureInitialized_done by done.
  destruct (getProfile_resolved _ _ _ Hget) as [Hopen Hstored].
  rewrite getProfile_open by done. by rewrite Hstored.
Qed.

(* ===================================================================== *)
(** * Paths of the file area                                               *)
(* ===================================================================== *)

Section Paths.

Lemma append_String (c : ascii) (a b : string) :
  String c a +:+ b = String c (a +:+ b).
Proof. reflexivity. Qed.

Lemma append_EmptyString (b : string) : EmptyString +:+ b = b.
Proof. reflexivity. Qed.

Lemma append_associative (a b c : string) : (a +:+ b) +:+ c = a +:+ (b +:+ c).
Proof. induction a as [|x a IH]; [done|]. by rewrite !append_String, IH. Qed.

Lemma append_not_empty (a b : string) : b <> EmptyString -> a +:+ b <> EmptyString.
Proof. by destruct a. Qed.

Lemma length_append (a b : string) :
  String.length (a +:+ b) = (String.length a + String.length b)%nat.
Proof. induction a as [|x a IH]; [done|]. rewrite append_String. cbn. by rewrite IH. Qed.

(** Splitting at a separator that occurs once, after [a]. *)
Lemma split_without (sep : ascii) (s : string) :
  JsString.includes s sep = false -> JsString.split sep s = [s].
Proof.
  induction s as [|c s IH]; [done|]. cbn. intros Hc.
  apply orb_false_elim in Hc as [-> Hs]. by rewrite IH.
Qed.

Lemma split_append (sep : ascii) (a b : string) :
  JsString.includes a sep = false ->
  JsString.split sep (a +:+ String sep b) = a :: JsString.split sep b.
Proof.
  induction a as [|c a IH].
  - intros _. rewrite append_EmptyString. cbn. by rewrite Ascii.eqb_refl.
  - cbn [JsString.includes]. intros Hc. apply orb_false_elim in Hc as [Hc Ha].
    rewrite append_String. cbn [JsString.split]. by rewrite Hc, IH.
Qed.

Lemma split_not_nil (sep : ascii) (s : string) : JsString.split sep s <> [].
Proof.
  induction s as [|c s IH]; [done|]. cbn.
  destruct (Ascii.eqb c sep); [done|]. by destruct (JsString.split sep s).
Qed.

(** The pieces of a split hold no separator. *)
Lemma split_pieces (sep : ascii) (s piece : string) :
  piece ∈ JsString.split sep s -> JsString.includes piece sep = false.
Proof.
  revert piece. induction s as [|c s IH]; intros piece.
  - cbn. intros ->%list_elem_of_singleton. done.
  - cbn [JsString.split]. destruct (Ascii.eqb c sep) eqn:Hc.
    + intros [->|Hin]%elem_of_cons; [done|]. by apply IH.
    + pose proof (split_not_nil sep s) as Hnil.
      destruct (JsString.split sep s) as [|first rest]; [done|].
      intros [->|Hin]%elem_of_cons.
      * cbn. rewrite Hc. cbn. apply IH. left.
      * apply IH. by right.
Qed.

Lemma includes_append (a b : string) (c : ascii) :
  JsString.includes (a +:+ b) c = JsString.includes a c || JsString.includes b c.
Proof.
  induction a as [|x a IH]; [done|]. rewrite append_String. cbn.
  by rewrite IH, orb_assoc.
Qed.

(** A name is its own cleaned form. *)
Lemma without_leading_slashes_plain (c : ascii) (s : string) :
  Ascii.eqb c "/" = false ->
  Filesystem.without_leading_slashes (String c s) = String c s.
Proof. intros Hc. cbn. by rewrite Hc. Qed.

Lemma without_trailing_slashes_name (s : string) :
  JsString.includes s "/" = false -> Filesystem.without_trailing_slashes s = s.
Proof.
  induction s as [|c s IH]; [done|]. cbn. intros Hc.
  apply orb_false_elim in Hc as [Hc Hs]. rewrite IH by done. rewrite Hc.
  by destruct s.
Qed.

Lemma without_trailing_slashes_append (a b : string) :
  Filesystem.without_trailing_slashes b <> EmptyString ->
  Filesystem.without_trailing_slashes (a +:+ b)
  = a +:+ Filesystem.without_trailing_slashes b.
Proof.
  intros Hb. induction a as [|c a IH]; [done|].
  rewrite !append_String. cbn [Filesystem.without_trailing_slashes]. rewrite IH.
  pose proof (append_not_empty a _ Hb) as Hne.
  by destruct (a +:+ Filesystem.without_trailing_slashes b).
Qed.

Lemma without_trailing_slashes_slash (s : string) :
  Filesystem.without_trailing_slashes (s +:+ "/") = Filesystem.without_trailing_slashes s.
Proof.
  induction s as [|c s IH]; [done|].
  rewrite append_String. cbn [Filesystem.without_trailing_slashes]. by rewrite IH.
Qed.

Lemma without_trailing_slashes_idempotent (s : string) :
  Filesystem.without_trailing_slashes (Filesystem.without_trailing_slashes s)
  = Filesystem.without_trailing_slashes s.
Proof.
  induction s as [|c s IH]; [done|]. cbn [Filesystem.without_trailing_slashes].
  destruct (Filesystem.without_trailing_slashes s) as [|d rest] eqn:Hs.
  - destruct (Ascii.eqb c "/") eqn:Hc; [done|]. cbn. by rewrite Hc.
  - cbn [Filesystem.without_trailing_slashes] in *. by rewrite IH.
Qed.

(** What is left of a text without its slashes at the front does not
    start with one, nor does what is left of that without those at the
    end. *)
Definition starts_plain (s : string) : Prop :=
  match s with
  | EmptyString => True
  | String c _ => Ascii.eqb c "/" = false
  end.

Lemma without_leading_slashes_starts_plain (s : string) :
  starts_plain (Filesystem.without_leading_slashes s).
Proof.
  induction s as [|c s IH]; [done|]. cbn.
  by destruct (Ascii.eqb c "/") eqn:Hc.
Qed.

Lemma without_trailing_slashes_starts_plain (s : string) :
  starts_plain s -> starts_plain (Filesystem.without_trailing_slashes s).
Proof.
  destruct s as [|c s]; [done|]. cbn. intros Hc.
  destruct (Filesystem.without_trailing_slashes s); [by rewrite Hc|done].
Qed.

Lemma without_leading_slashes_of_plain (s : string) :
  starts_plain s -> Filesystem.without_leading_slashes s = s.
Proof. destruct s as [|c s]; [done|]. cbn. by intros ->. Qed.

Lemma clean_idempotent (s : string) :
  Filesystem.clean (Filesystem.clean s) = Filesystem.clean s.
Proof.
  unfold Filesystem.clean.
  rewrite (without_leading_slashes_of_plain (Filesystem.without_trailing_slashes _)).
  - apply without_trailing_slashes_idempotent.
  - apply without_trailing_slashes_starts_plain, without_leading_slashes_starts_plain.
Qed.

Lemma is_name_starts_plain (s : string) : is_name s -> starts_plain s.
Proof.
  intros [Hne Hs]. destruct s as [|c s]; [done|]. cbn in *.
  by apply orb_false_elim in Hs as [-> _].
Qed.

Lemma clean_name (s : string) : is_name s -> Filesystem.clean s = s.
Proof.
  intros Hs. unfold Filesystem.clean.
  rewrite without_leading_slashes_of_plain by by apply is_name_starts_plain.
  apply without_trailing_slashes_name, Hs.
Qed.

Lemma clean_in_folder (dir name : string) :
  is_name dir -> is_name name ->
  Filesystem.clean (in_folder dir name) = in_folder dir name.
Proof.
  intros Hdir Hname. unfold Filesystem.clean, in_folder.
  rewrite without_leading_slashes_of_plain.
  - rewrite <- append_associative.
    rewrite without_trailing_slashes_append;
      rewrite without_trailing_slashes_name by apply Hname; [done|apply Hname].
  - destruct Hdir as [Hne Hdir]. destruct dir as [|c dir]; [done|].
    rewrite append_String. cbn in *. by apply orb_false_elim in Hdir as [-> _].
Qed.

(** The entry of a path. *)
Lemma after_prefix_append (p s : string) : JsString.after_prefix p (p +:+ s) = Some s.
Proof.
  induction p as [|c p IH]; [by destruct s|].
  rewrite append_String. cbn. by rewrite Ascii.eqb_refl.
Qed.

Lemma getPath_not_empty (uriPath : string) :
  uriPath <> EmptyString ->
  Filesystem.getPath uriPath = "/DOCUMENTS/" +:+ Filesystem.clean uriPath.
Proof.
  intros Hne. unfold Filesystem.getPath.
  by destruct (String.eqb_spec uriPath EmptyString).
Qed.

Lemma key_below_DOCUMENTS (rest : string) :
  Filesystem.key ("/DOCUMENTS/" +:+ rest)
  = if String.eqb (Filesystem.clean rest) rest then Some rest else None.
Proof.
  unfold Filesystem.key.
  change ("/" +:+ Filesystem.DOCUMENTS +:+ "/") with "/DOCUMENTS/".
  by rewrite after_prefix_append.
Qed.

Lemma key_getPath (uriPath : string) :
  Filesystem.key (Filesystem.getPath uriPath) = Some (entry_key uriPath).
Proof.
  unfold entry_key. destruct (String.eqb_spec uriPath EmptyString) as [->|Hne]; [done|].
  rewrite getPath_not_empty, key_below_DOCUMENTS by done.
  by rewrite clean_idempotent, String.eqb_refl.
Qed.

Lemma get_getPath (uriPath : string) (w : World) :
  Filesystem.get (Filesystem.getPath uriPath) w = documents w !! entry_key uriPath.
Proof. unfold Filesystem.get. by rewrite key_getPath. Qed.

Lemma entry_key_clean (path : string) :
  path <> EmptyString -> Filesystem.clean path = path -> entry_key path = path.
Proof.
  intros Hne Hclean. unfold entry_key.
  by destruct (String.eqb_spec path EmptyString).
Qed.

Lemma entry_key_name (s : string) : is_name s -> entry_key s = s.
Proof. intros Hs. apply entry_key_clean; [apply Hs|by apply clean_name]. Qed.

Lemma in_folder_not_empty (dir name : string) :
  is_name name -> in_folder dir name <> EmptyString.
Proof.
  intros [Hne _]. unfold in_folder. apply append_not_empty.
  by rewrite append_String.
Qed.

Lemma entry_key_in_folder (dir name : string) :
  is_name dir -> is_name name -> entry_key (in_folder dir name) = in_folder dir name.
Proof.
  intros Hdir Hname.
  apply entry_key_clean; [by apply in_folder_not_empty|by apply clean_in_folder].
Qed.

(** The second look of [stat], with a slash at the end, finds nothing. *)
Lemma key_with_slash (path : string) :
  starts_plain path -> Filesystem.without_trailing_slashes path = path ->
  Filesystem.key ("/DOCUMENTS/" +:+ path +:+ "/") = None.
Proof.
  intros Hstart Hend. rewrite key_below_DOCUMENTS.
  destruct (String.eqb_spec (Filesystem.clean (path +:+ "/")) (path +:+ "/"))
    as [Heq|]; [|done].
  exfalso. unfold Filesystem.clean in Heq.
  rewrite without_leading_slashes_of_plain in Heq.
  - rewrite without_trailing_slashes_slash, Hend in Heq.
    apply (f_equal String.length) in Heq. rewrite length_append in Heq. cbn in Heq. lia.
  - destruct path; [done|]. by rewrite append_String.
Qed.

Lemma clean_fixed (path : string) :
  Filesystem.clean path = path ->
  starts_plain path /\ Filesystem.without_trailing_slashes path = path.
Proof.
  intros Hclean.
  assert (starts_plain (Filesystem.clean path)) as Hstart
    by apply without_trailing_slashes_starts_plain, without_leading_slashes_starts_plain.
  assert (Filesystem.without_trailing_slashes (Filesystem.clean path)
          = Filesystem.clean path) as Hend
    by apply without_trailing_slashes_idempotent.
  by rewrite Hclean in Hstart, Hend.
Qed.

Lemma get_with_slash (path : string) (w : World) :
  path <> EmptyString -> Filesystem.clean path = path ->
  Filesystem.get (Filesystem.getPath path +:+ "/") w = None.
Proof.
  intros Hne Hclean. unfold Filesystem.get.
  rewrite getPath_not_empty, Hclean by done.
  destruct (clean_fixed path Hclean) as [Hstart Hend].
  by rewrite append_associative, key_with_slash.
Qed.

(** The folder of a path. *)
Lemma parent_top (name : string) :
  is_name name -> Filesystem.parent ("/DOCUMENTS/" +:+ name) = "/DOCUMENTS".
Proof.
  intros [_ Hname]. unfold Filesystem.parent.
  change ("/DOCUMENTS/" +:+ name) with (EmptyString +:+ String "/" ("DOCUMENTS" +:+ String "/" name)).
  rewrite split_append by done. rewrite split_append by done.
  by rewrite split_without.
Qed.

Lemma depth_top (name : string) :
  is_name name -> Filesystem.depth ("/DOCUMENTS/" +:+ name) = 2%nat.
Proof.
  intros [_ Hname]. unfold Filesystem.depth.
  change ("/DOCUMENTS/" +:+ name) with (EmptyString +:+ String "/" ("DOCUMENTS" +:+ String "/" name)).
  rewrite split_append by done. rewrite split_append by done.
  by rewrite split_without.
Qed.

Lemma parent_in_folder (dir name : string) :
  is_name dir -> is_name name ->
  Filesystem.parent ("/DOCUMENTS/" +:+ in_folder dir name) = "/DOCUMENTS/" +:+ dir.
Proof.
  intros [_ Hdir] [_ Hname]. unfold Filesystem.parent, in_folder.
  change ("/DOCUMENTS/" +:+ (dir +:+ "/" +:+ name))
    with (EmptyString +:+ String "/" ("DOCUMENTS" +:+ String "/" (dir +:+ String "/" name))).
  rewrite !split_append by done. by rewrite split_without.
Qed.

Lemma parent_of_in_folder (dir name : string) :
  is_name dir -> is_name name -> Filesystem.parent (in_folder dir name) = dir.
Proof.
  intros [_ Hdir] [_ Hname]. unfold Filesystem.parent, in_folder.
  change (dir +:+ "/" +:+ name) with (dir +:+ String "/" name).
  rewrite split_append by done. by rewrite split_without.
Qed.

Lemma key_top (name : string) :
  is_name name -> Filesystem.key ("/DOCUMENTS/" +:+ name) = Some name.
Proof.
  intros Hname. rewrite key_below_DOCUMENTS.
  by rewrite clean_name, String.eqb_refl.
Qed.

End Paths.
(* ===================================================================== *)
(** * The calls of the file plugin                                         *)
(* ===================================================================== *)

Section Files.

Lemma set_documents_same (w : World) : set_documents (documents w) w = w.
Proof. by destruct w. Qed.

(** [stat] and [fileExists] on a path that is its own cleaned form. *)
Lemma stat_run (path : string) (w : World) :
  path <> EmptyString -> Filesystem.clean path = path ->
  Filesystem.stat path w
  = match documents w !! path with
    | Some e => (Resolved e, w)
    | None => (Rejected (Error "Entry does not exist."), w)
    end.
Proof.
  intros Hne Hclean. unfold Filesystem.stat.
  rewrite get_getPath, entry_key_clean by done.
  destruct (documents w !! path); [done|].
  by rewrite get_with_slash.
Qed.

Lemma fileExists_run (path : string) (w : World) :
  path <> EmptyString -> Filesystem.clean path = path ->
  FileSystemService.fileExists path w
  = (Resolved (bool_decide (is_Some (documents w !! path))), w).
Proof.
  intros Hne Hclean. unfold FileSystemService.fileExists, try_catch, bind.
  rewrite stat_run by done.
  destruct (documents w !! path) as [e|] eqn:Hentry.
  - by rewrite bool_decide_eq_true_2.
  - rewrite bool_decide_eq_false_2; [done|]. by intros [e He].
Qed.

(** [mkdir] of a folder at the top of the file area. *)
Lemma mkdir_name (dir : string) (recursive : bool) (w : World) :
  is_name dir -> documents w !! dir = None ->
  Filesystem.mkdir dir recursive w
  = (Resolved tt, set_documents (<[dir := Folder]> (documents w)) w).
Proof.
  intros Hdir Hfree. unfold Filesystem.mkdir.
  assert (Filesystem.getPath dir = "/DOCUMENTS/" +:+ dir) as Hpath
    by (rewrite getPath_not_empty, clean_name; [done|done|apply Hdir]).
  destruct (String.length dir) as [|calls];
    unfold Filesystem.mkdir_within; rewrite Hpath, depth_top by done;
    unfold Filesystem.get; rewrite key_top, Hfree by done;
    cbn [Nat.eqb negb andb];
    (rewrite bool_decide_eq_false_2 by (by intros [e He]));
    rewrite !andb_false_r; cbn [andb]; unfold bind, ret, Filesystem.put;
    by rewrite key_top.
Qed.

Lemma createDirectory_name (dir : string) (w : World) :
  is_name dir ->
  FileSystemService.createDirectory dir w
  = (Resolved tt, set_documents (with_folder dir (documents w)) w).
Proof.
  intros Hdir. unfold FileSystemService.createDirectory, try_catch at 1, bind at 1.
  unfold try_catch at 1, bind at 1.
  rewrite stat_run; [|apply Hdir|by apply clean_name].
  unfold with_folder. destruct (documents w !! dir) as [e|] eqn:Hentry.
  - by rewrite set_documents_same.
  - cbn [ret]. by rewrite mkdir_name.
Qed.

(** [writeFile] of the plugin into a folder at the top of the file area
    that is there: the data, without the header of a data URL, must be
    base64 text. *)
Lemma plugin_writeFile_run (dir name data : string) (recursive : bool) (w : World) :
  is_name dir -> is_name name -> is_Some (documents w !! dir) ->
  Filesystem.writeFile (in_folder dir name) data recursive w
  = match documents w !! in_folder dir name with
    | Some Folder => (Rejected (Error "The supplied path is a directory."), w)
    | _ =>
        if Filesystem.isBase64String (Filesystem.without_header data)
        then (Resolved ("/DOCUMENTS/" +:+ in_folder dir name),
              set_documents
                (<[in_folder dir name := File (Filesystem.without_header data)]>
                   (documents w)) w)
        else (Rejected (Error "The supplied data is not valid base64 content."), w)
    end.
Proof.
  intros Hdir Hname [e Hfolder]. unfold Filesystem.writeFile.
  rewrite get_getPath, entry_key_in_folder by done.
  assert (Filesystem.getPath (in_folder dir name) = "/DOCUMENTS/" +:+ in_folder dir name)
    as Hpath.
  { rewrite getPath_not_empty, clean_in_folder; [done|done|done|].
    by apply in_folder_not_empty. }
  rewrite Hpath, parent_in_folder by done.
  assert (Filesystem.get ("/DOCUMENTS/" +:+ dir) w = Some e) as Hparent
    by (unfold Filesystem.get; by rewrite key_top).
  assert (Filesystem.key ("/DOCUMENTS/" +:+ in_folder dir name)
          = Some (in_folder dir name)) as Hkey.
  { rewrite key_below_DOCUMENTS. by rewrite clean_in_folder, String.eqb_refl. }
  destruct (documents w !! in_folder dir name) as [[|previous]|];
    [done| |];
    rewrite Hparent; unfold bind, ret, throw, Filesystem.put;
    rewrite Hkey; by destruct (Filesystem.isBase64String _).
Qed.

(** [readFile] and [deleteFile] of the service on any path. *)
Lemma readFile_run (path : string) (w : World) :
  FileSystemService.readFile path FileSystemService.no_read_options w
  = match documents w !! entry_key path with
    | Some (File data) => (Resolved data, w)
    | Some Folder => (Resolved EmptyString, w)
    | None => (Rejected (Error "File does not exist."), w)
    end.
Proof.
  unfold FileSystemService.readFile, try_catch, bind, Filesystem.readFile.
  cbn [FileSystemService.no_read_options FileSystemService.read_path default].
  rewrite get_getPath. by destruct (documents w !! entry_key path) as [[|data]|].
Qed.

Lemma deleteFile_run (path : string) (w : World) :
  FileSystemService.deleteFile path w
  = match documents w !! entry_key path with
    | None => (Rejected (Error "File does not exist."), w)
    | Some _ =>
        if Filesystem.has_entries (Filesystem.getPath path) w
        then (Rejected (Error "Folder is not empty."), w)
        else (Resolved tt, set_documents (delete (entry_key path) (documents w)) w)
    end.
Proof.
  unfold FileSystemService.deleteFile, try_catch, Filesystem.deleteFile.
  rewrite get_getPath. destruct (documents w !! entry_key path); [|done].
  destruct (Filesystem.has_entries _ w); [done|].
  unfold Filesystem.remove. by rewrite key_getPath.
Qed.

End Files.
(* ===================================================================== *)
(** * Deleting files that are already gone                                 *)
(* ===================================================================== *)

Section FileDeletion.

Lemma deleteFile_absent (w : World) (path : string) :
  documents w !! entry_key path = None ->
  exists error : JsError,
    Filesystem.deleteFile path w = (Rejected error, w)
    /\ FileSystemService.deleteFile path w = (Rejected error, w).
Proof.
  intros Habsent. eexists. split.
  - unfold Filesystem.deleteFile. by rewrite get_getPath, Habsent.
  - by rewrite deleteFile_run, Habsent.
Qed.

(** The guarded deletion of [deleteVideo] always resolves. *)
Lemma delete_if_set_resolves (w : World) (path : option string) :
  exists w' : World,
    OfflineApiService.delete_if_set path w = (Resolved tt, w')
    /\ same_store w w'
    /\ ((forall p, path = Some p -> documents w !! entry_key p = None) -> w' = w).
Proof.
  unfold OfflineApiService.delete_if_set.
  destruct path as [p|]; [|by exists w].
  destruct (truthy_string p); [|by exists w].
  unfold try_catch at 1. rewrite deleteFile_run.
  destruct (documents w !! entry_key p) as [e|] eqn:Hentry; [|by exists w].
  destruct (Filesystem.has_entries (Filesystem.getPath p) w); [by exists w|].
  eexists. split; [reflexivity|]. split; [done|].
  intros Habsent. specialize (Habsent p eq_refl). congruence.
Qed.

Lemma delete_video_stored (db : Database) (id : Z) (r : Row) :
  videos db !! id = Some r ->
  exists db',
    Sql.delete_video id db = (Resolved (Sql.deleted 1), db') /\ videos db' !! id = None.
Proof.
  intros Hrow. unfold Sql.delete_video. rewrite Hrow. eexists. split; [done|].
  cbn. apply lookup_delete_eq.
Qed.

(** C9 (amended).  [FileSystemService.deleteFile] on a path that is
    absent from the file area rejects, with the error of the plugin, and
    changes nothing; it is [OfflineApiService.deleteVideo] that tolerates
    it: for a stored video the deletion never rejects and removes the
    record whatever the state of its files, and when the file and the
    thumbnail are already gone the file area is left as it was.  The
    deletion resolves to [false] even so: the service looks for the
    number of deleted rows in the property [changes] of the plugin's
    result, which holds an object. *)
Theorem deleteVideo_tolerates_absent_files (w : World) (id : Z) (v : Video.t) :
  offline_isInitialized w = true ->
  fst (SQLiteService.getVideo id w) = Resolved (Some v) ->
  (forall path : string,
      documents w !! entry_key path = None ->
      exists error : JsError,
        Filesystem.deleteFile path w = (Rejected error, w)
        /\ FileSystemService.deleteFile path w = (Rejected error, w))
  /\ exists w' : World,
       OfflineApiService.deleteVideo id w = (Resolved false, w')
       /\ fst (SQLiteService.getVideo id w') = Resolved None
       /\ ((forall p, Video.filePath v = Some p \/ Video.thumbnailPath v = Some p ->
                      documents w !! entry_key p = None) ->
           documents w' = documents w).
Proof.
  intros Hinit Hget. split; [intros path; apply deleteFile_absent|].
  apply getVideo_resolved in Hget as [Hopen Hstored].
  pose proof Hstored as Hrow. unfold stored_video in Hrow.
  destruct (videos (database w) !! id) as [r|] eqn:Hr; [|done].
  destruct (delete_if_set_resolves w (Video.filePath v)) as (w1 & Hrun1 & Hsame1 & Hw1).
  destruct (delete_if_set_resolves w1 (Video.thumbnailPath v))
    as (w2 & Hrun2 & Hsame2 & Hw2).
  destruct Hsame1 as (Hdb1 & Hopen1 & Hinit1), Hsame2 as (Hdb2 & Hopen2 & Hinit2).
  assert (connection_open w2 = true) as Hopen' by congruence.
  assert (videos (database w2) !! id = Some r) as Hr2 by congruence.
  destruct (delete_video_stored _ _ _ Hr2) as (db' & Hdel & Hgone).
  exists (set_database db' w2).
  split; [|split].
  - unfold OfflineApiService.deleteVideo, SQLiteService.deleteVideo, bind.
    rewrite ensureInitialized_done by done.
    rewrite getVideo_open by done. rewrite Hstored, Hrun1, Hrun2.
    rewrite run_open by done. by rewrite Hdel.
  - rewrite getVideo_open by done. cbn [fst database set_database].
    unfold stored_video. by rewrite Hgone.
  - intros Habsent. cbn [documents set_database].
    assert (w1 = w) as -> by (apply Hw1; intros p Hp; apply Habsent; auto).
    assert (w2 = w) as -> by (apply Hw2; intros p Hp; apply Habsent; auto).
    done.
Qed.

End FileDeletion.

(** The sample video whose file and thumbnail were never written. *)
Lemma deleteVideo_tolerates_absent_files_witness :
  offline_isInitialized Samples.with_video_record = true
  /\ fst (SQLiteService.getVideo 1 Samples.with_video_record)
     = Resolved (Some Samples.clip_stored)
  /\ documents Samples.with_video_record !! entry_key "videos/clip.mp4" = None
  /\ (exists error : JsError,
        FileSystemService.deleteFile "videos/clip.mp4" Samples.with_video_record
        = (Rejected error, Samples.with_video_record))
  /\ exists w' : World,
       OfflineApiService.deleteVideo 1 Samples.with_video_record = (Resolved false, w')
       /\ fst (SQLiteService.getVideo 1 w') = Resolved None.
Proof.
  assert (fst (SQLiteService.getVideo 1 Samples.with_video_record)
          = Resolved (Some Samples.clip_stored)) as Hget
    by (vm_compute; reflexivity).
  assert (documents Samples.with_video_record !! entry_key "videos/clip.mp4" = None)
    as Habsent by (vm_compute; reflexivity).
  split; [reflexivity|]. split; [exact Hget|]. split; [exact Habsent|].
  destruct (deleteVideo_tolerates_absent_files
              Samples.with_video_record 1 Samples.clip_stored eq_refl Hget)
    as (Hreject & w' & Hrun & Hgone & _).
  split.
  - destruct (Hreject _ Habsent) as (error & _ & Hservice). by exists error.
  - exists w'. split; assumption.
Defined.

(** C9 as stated fails: deleting a path that is absent from the file
    area is not a successful no-op of the File Area Manager, it
    rejects. *)
Lemma deleteFile_of_absent_path_rejects :
  documents Samples.started !! entry_key "videos/gone.mp4" = None
  /\ (exists error : JsError,
        FileSystemService.deleteFile "videos/gone.mp4" Samples.started
        = (Rejected error, Samples.started))
  /\ FileSystemService.deleteFile "videos/gone.mp4" Samples.started
     <> (Resolved tt, Samples.started).
Proof.
  split; [vm_compute; reflexivity|].
  split; [eexists; vm_compute; reflexivity|].
  vm_compute. discriminate.
Qed.

(* ===================================================================== *)
(** * Failing over to the offline handler                                  *)
(* ===================================================================== *)

Section Failover.
Variable API_BASE_URL : string.
Variable T : Type.
Variable fetch : string -> Settled (Response T).

Lemma isNativeApp_run (w : World) :
  ApiSwitcher.isNativeApp w = (Resolved (native_platform w), w).
Proof.
  unfold ApiSwitcher.isNativeApp, try_catch, bind, Device_getInfo, native_platform, ret.
  by destruct (platform w).
Qed.

(** The mode is read off the stored preference and the platform. *)
Lemma isOfflineMode_run (w : World) :
  ApiSwitcher.isOfflineMode w = (Resolved (offline_mode w), w).
Proof.
  unfold ApiSwitcher.isOfflineMode, try_catch, bind at 1, Preferences.get, offline_mode.
  destruct (preferences_available w); [|done]. cbn [andb].
  destruct (bool_decide (preferences w !! ApiSwitcher.OFFLINE_MODE_KEY = Some "forced"));
    [done|].
  unfold bind. rewrite isNativeApp_run. cbn [orb].
  by destruct (native_platform w).
Qed.

Lemma getApiBaseUrl_run (w : World) :
  ApiSwitcher.getApiBaseUrl API_BASE_URL w
  = (Resolved (if offline_mode w then EmptyString
               else if native_platform w then ApiSwitcher.CAPACITOR_DEV_URL
                    else API_BASE_URL), w).
Proof.
  unfold ApiSwitcher.getApiBaseUrl, bind. rewrite isOfflineMode_run.
  destruct (offline_mode w); [done|]. rewrite isNativeApp_run.
  by destruct (native_platform w).
Qed.

(** C4 (amended).  When [apiRequest] runs in online mode with an
    offline handler, the preference store works and the network call it
    makes fails, ['true'] is stored under the offline-mode key and the
    result of [apiRequest] is the result of the handler run after that,
    never the network error.  With a handler that leaves the platform
    and the preferences alone, the stored value is still there
    afterwards, and on a native platform (android or ios) the mode read
    that follows answers offline. *)
Theorem apiRequest_fails_over (endpoint : string) (handler : Async T) (w : World) :
  fst (ApiSwitcher.isOfflineMode w) = Resolved false ->
  preferences_available w = true ->
  request_fails
    (fetch ((if native_platform w then ApiSwitcher.CAPACITOR_DEV_URL else API_BASE_URL)
            +:+ endpoint)) ->
  let result := ApiSwitcher.apiRequest API_BASE_URL T fetch endpoint (Some handler) w in
  result = handler (switched_offline w)
  /\ preferences (switched_offline w) !! ApiSwitcher.OFFLINE_MODE_KEY = Some "true"
  /\ (keeps_mode handler ->
        preferences (snd result) !! ApiSwitcher.OFFLINE_MODE_KEY = Some "true"
        /\ (native_platform w = true ->
              ApiSwitcher.isOfflineMode (snd result) = (Resolved true, snd result))).
Proof.
  intros Honline Havailable Hfails result.
  assert (offline_mode w = false) as Hmode
    by (rewrite isOfflineMode_run in Honline; by injection Honline).
  assert (result = handler (switched_offline w)) as Hrun.
  { subst result. unfold ApiSwitcher.apiRequest, bind at 1.
    rewrite isOfflineMode_run, Hmode. unfold bind at 1.
    rewrite getApiBaseUrl_run, Hmode.
    unfold try_catch at 1, bind at 1.
    unfold bind, ApiSwitcher.setOfflineMode, try_catch, Preferences.set.
    destruct (fetch _) as [response|e].
    - destruct Hfails as [Hnotok|(e & Hjson)].
      + rewrite Hnotok. cbn. by rewrite Havailable.
      + destruct (ok response); cbn; rewrite ?Hjson, Havailable; done.
    - by rewrite Havailable. }
  split; [exact Hrun|]. split; [apply lookup_insert_eq|].
  intros Hkeeps.
  destruct (Hkeeps (switched_offline w)) as (Hplatform & Hprefs & Havail).
  assert (preferences (snd result) !! ApiSwitcher.OFFLINE_MODE_KEY = Some "true")
    as Hstored.
  { rewrite Hrun, Hprefs. apply lookup_insert_eq. }
  split; [exact Hstored|].
  intros Hnative. rewrite isOfflineMode_run. do 2 f_equal.
  unfold offline_mode, native_platform in *. rewrite Hstored.
  rewrite Hrun, Havail, Hplatform. cbn [switched_offline platform set_preferences
    preferences_available]. rewrite Havailable, Hnative.
  rewrite (bool_decide_eq_true_2 (Some "true" = Some "true")) by done.
  by rewrite orb_true_r.
Qed.

End Failover.

(** On the Android device with the network down the handler's answer is
    returned and the mode reads offline afterwards. *)
Lemma apiRequest_fails_over_witness :
  fst (ApiSwitcher.isOfflineMode Samples.device) = Resolved false
  /\ preferences_available Samples.device = true
  /\ request_fails (Samples.network_down ("http://localhost:5000" +:+ "/api/profiles"))
  /\ keeps_mode Samples.answer_X
  /\ native_platform Samples.device = true
  /\ fst Samples.device_failover = Resolved "X"
  /\ preferences (snd Samples.device_failover) !! ApiSwitcher.OFFLINE_MODE_KEY
     = Some "true"
  /\ fst (ApiSwitcher.isOfflineMode (snd Samples.device_failover)) = Resolved true.
Proof.
  assert (fst (ApiSwitcher.isOfflineMode Samples.device) = Resolved false) as Honline
    by (vm_compute; reflexivity).
  assert (request_fails (Samples.network_down ("http://localhost:5000" +:+ "/api/profiles")))
    as Hdown by exact I.
  assert (keeps_mode Samples.answer_X) as Hkeeps by (intros w; repeat split).
  destruct (apiRequest_fails_over "https://app.example" string Samples.network_down
              "/api/profiles" Samples.answer_X Samples.device
              Honline eq_refl Hdown)
    as (Hrun & _ & Hlater).
  destruct (Hlater Hkeeps) as (Hstored & Hmode).
  fold Samples.device_failover in Hrun, Hstored, Hmode.
  split; [exact Honline|]. split; [reflexivity|]. split; [exact Hdown|].
  split; [exact Hkeeps|]. split; [reflexivity|]. split; [|split].
  - rewrite Hrun. reflexivity.
  - exact Hstored.
  - rewrite Hmode; reflexivity.
Defined.

(** C4 as stated fails in a browser.  The mode is online, the network
    call throws and the handler answers ["X"]: [apiRequest] returns ["X"]
    and stores ['true'], but the next mode read still answers online,
    because [isOfflineMode] answers online on every platform that is not
    native unless the preference is ['forced']. *)
Lemma failover_in_browser_stays_online :
  fst (ApiSwitcher.isOfflineMode Samples.browser) = Resolved false
  /\ fst Samples.browser_failover = Resolved "X"
  /\ preferences (snd Samples.browser_failover) !! ApiSwitcher.OFFLINE_MODE_KEY
     = Some "true"
  /\ fst (ApiSwitcher.isOfflineMode (snd Samples.browser_failover)) = Resolved false
  /\ fst (ApiSwitcher.isOfflineMode (snd Samples.browser_failover)) <> Resolved true.
Proof.
  repeat split; try (vm_compute; reflexivity).
  vm_compute. discriminate.
Qed.

(* ===================================================================== *)
(** * Deleting a profile                                                   *)
(* ===================================================================== *)

Section ProfileDeletion.

(** The cascade of the store: once a stored profile is deleted no row
    of the videos table refers to it.  The file area is not touched.
    The call resolves to [false] even so: the number of deleted rows is
    not where the service looks for it in the plugin's result. *)
Lemma deleteProfile_cascades_in_the_store_only (w : World) (id : Z) (p : Profile.t) :
  offline_isInitialized w = true ->
  fst (SQLiteService.getProfile id w) = Resolved (Some p) ->
  exists w' : World,
    OfflineApiService.deleteProfile id w = (Resolved false, w')
    /\ fst (SQLiteService.getProfile id w') = Resolved None
    /\ (forall (k : Z) (r : Row),
          videos (database w') !! k = Some r ->
          Sql.column r "profileId" ≠ SqlInteger id)
    /\ documents w' = documents w.
Proof.
  intros Hinit Hget. apply getProfile_resolved in Hget as [Hopen Hstored].
  unfold stored_profile in Hstored.
  destruct (profiles (database w) !! id) as [r|] eqn:Hrow; [|done].
  unfold OfflineApiService.deleteProfile, SQLiteService.deleteProfile, bind.
  rewrite ensureInitialized_done by done. rewrite run_open by done.
  unfold Sql.delete_profile. rewrite Hrow. cbn [fst snd].
  eexists. split; [reflexivity|]. split; [|split; [|done]].
  - rewrite getProfile_open by done. cbn [fst database set_database].
    unfold stored_profile. cbn. by rewrite lookup_delete_eq.
  - intros k row. cbn [database set_database videos].
    intros Hkept. apply map_lookup_filter_Some in Hkept as [_ Hkept]. exact Hkept.
Qed.

End ProfileDeletion.

(** C2 at a profile whose video has a file and a thumbnail on disk:
    [deleteProfile] resolves, to [false], and the video record is gone,
    but neither file was deleted, the file area is exactly as before. *)
Theorem deleteProfile_leaves_video_files :
  fst (SQLiteService.getVideosByProfile 1 Samples.with_video)
  = Resolved [Samples.clip_stored]
  /\ documents Samples.with_video !! "videos/clip.mp4" = Some (File Samples.clip_data)
  /\ documents Samples.with_video !! "thumbs/clip_thumbnail.jpg" = Some (File EmptyString)
  /\ fst Samples.profile_deleted = Resolved false
  /\ fst (SQLiteService.getVideos (snd Samples.profile_deleted)) = Resolved []
  /\ documents (snd Samples.profile_deleted) !! "videos/clip.mp4"
     = Some (File Samples.clip_data)
  /\ documents (snd Samples.profile_deleted) !! "thumbs/clip_thumbnail.jpg"
     = Some (File EmptyString)
  /\ documents (snd Samples.profile_deleted) = documents Samples.with_video.
Proof. repeat split; vm_compute; reflexivity. Qed.

(** The sibling path: [deleteVideo] on the same video does delete both
    files. *)
Lemma deleteVideo_deletes_video_files :
  fst Samples.video_deleted = Resolved false
  /\ documents (snd Samples.video_deleted) !! "videos/clip.mp4" = None
  /\ documents (snd Samples.video_deleted) !! "thumbs/clip_thumbnail.jpg" = None.
Proof. repeat split; vm_compute; reflexivity. Qed.

(* ===================================================================== *)
(** * Import and export                                                    *)
(* ===================================================================== *)

(** C5 at an import object with an array of profiles and no [videos]
    key: [importData] does not check the shape first.  It inserts the
    profile, fails only when it comes to iterate the missing [videos],
    and resolves to [false] with the profile left in the store. *)
Theorem importData_inserts_before_failing :
  fst (SQLiteService.getProfiles Samples.started) = Resolved []
  /\ fst Samples.profiles_only_imported = Resolved false
  /\ fst (SQLiteService.getProfiles (snd Samples.profiles_only_imported))
     = Resolved [Samples.chan_stored].
Proof. repeat split; vm_compute; reflexivity. Qed.

(** C6 as stated fails at a store whose only profile has id 2 and owns
    one video.  The export holds that profile and that video.  Imported
    into an empty store the profile gets id 1, the video still refers to
    profile 2, its INSERT violates the foreign key, and [importData]
    resolves to [false] with the profile stored and the video lost. *)
Lemma import_of_export_loses_videos :
  fst (OfflineApiService.exportData Samples.second_profile_only)
  = Resolved Samples.exported
  /\ fst (OfflineApiService.exportData Samples.started)
     = Resolved {| ExportData.profiles := []; ExportData.videos := [] |}
  /\ fst Samples.reimported = Resolved false
  /\ fst (OfflineApiService.exportData (snd Samples.reimported))
     = Resolved {| ExportData.profiles := [Samples.beta_reimported];
                   ExportData.videos := [] |}.
Proof. repeat split; vm_compute; reflexivity. Qed.

(* ===================================================================== *)
(** * Closing the connection and coming back to the foreground             *)
(* ===================================================================== *)

Section Lifecycle.

(** [closeConnection] closes the connection but cannot clear the flag:
    the assignment to the getter-only [isInitialized] throws inside the
    [try] and the error is only logged. *)
Lemma closeConnection_keeps_flag (w : World) :
  connection_open w = true ->
  SQLiteService.closeConnection w = (Resolved tt, set_connection_open false w).
Proof.
  intros Hopen.
  unfold SQLiteService.closeConnection, try_catch, bind,
    SQLiteService.sqlite_closeConnection, SQLiteService.assign_isInitialized, throw, ret.
  by rewrite Hopen.
Qed.

(** With the flag set the foreground handler does nothing. *)
Lemma onAppForeground_skips_initialized (w : World) :
  _isInitialized w = true -> OfflineApp.onAppForeground w = (Resolved tt, w).
Proof.
  intros Hflag.
  unfold OfflineApp.onAppForeground, try_catch, bind, OfflineApp.isInitialized.
  by rewrite Hflag.
Qed.

Lemma foreground_after_close_stays_closed (w : World) :
  connection_open w = true -> _isInitialized w = true ->
  let w' := snd (OfflineApp.onAppForeground (snd (SQLiteService.closeConnection w))) in
  connection_open w' = false /\ _isInitialized w' = true.
Proof.
  intros Hopen Hflag. rewrite closeConnection_keeps_flag by done.
  cbn [snd]. rewrite onAppForeground_skips_initialized by done. done.
Qed.

End Lifecycle.

(** C7 at the started app: after [closeConnection] and the next
    foreground transition the connection is still closed, although
    [isInitialized] answers [true], and a query rejects. *)
Theorem foreground_does_not_reopen_closed_connection :
  connection_open Samples.started = true
  /\ connection_open Samples.closed = false
  /\ fst (OfflineApp.isInitialized Samples.closed) = Resolved true
  /\ connection_open Samples.resumed = false
  /\ fst (OfflineApp.isInitialized Samples.resumed) = Resolved true
  /\ fst (SQLiteService.getProfiles Samples.resumed)
     = Rejected (Error "Database youtube_planner.db not opened").
Proof. repeat split; vm_compute; reflexivity. Qed.

(* ===================================================================== *)
(** * Further properties of the store                                      *)
(* ===================================================================== *)

Section MissingProfile.

Lemma update_where_id_missing (t : Table) (id : Z) (fields : list (string * SqlValue)) :
  t !! id = None -> Sql.update_where_id t id fields = t.
Proof.
  intros Hnone. unfold Sql.update_where_id. apply map_eq. intros k.
  destruct (decide (k = id)) as [->|Hne].
  - by rewrite lookup_alter_eq, Hnone.
  - by rewrite lookup_alter_ne.
Qed.

Lemma stored_profile_None (db : Database) (id : Z) :
  stored_profile db id = None -> profiles db !! id = None.
Proof. unfold stored_profile. by destruct (profiles db !! id). Qed.

Lemma after_updateProfile_missing (w : World) (id : Z) (partial : PartialProfile.t) :
  profiles (database w) !! id = None -> after_updateProfile id partial w = w.
Proof.
  intros Hnone. unfold after_updateProfile, Sql.update_profile. cbn [snd].
  rewrite update_where_id_missing by done.
  destruct w as [c pl pr pa d [ps pseq vs vseq] o i oi]. reflexivity.
Qed.

Lemma updateProfile_missing (w : World) (id : Z) (partial : PartialProfile.t) :
  fst (SQLiteService.getProfile id w) = Resolved None ->
  SQLiteService.updateProfile id partial w = (Resolved None, w).
Proof.
  intros Hget. apply getProfile_resolved in Hget as [Hopen Hstored].
  rewrite updateProfile_open by done.
  rewrite after_updateProfile_missing by (by apply stored_profile_None).
  by rewrite Hstored.
Qed.

End MissingProfile.

Section MissingProfileOperations.
Context `{Dates : DateLib}.

(** X1.  On an id that names no stored profile, [updateProfile] (with
    any partial object), [incrementProfilePushCount] and
    [resetProfilePushCount] resolve to [undefined], [deleteProfile]
    resolves to [false], and none of them changes anything. *)
Theorem profile_operations_on_missing_id (w : World) (id : Z) :
  fst (SQLiteService.getProfile id w) = Resolved None ->
  (forall partial : PartialProfile.t,
      SQLiteService.updateProfile id partial w = (Resolved None, w))
  /\ SQLiteService.incrementProfilePushCount id w = (Resolved None, w)
  /\ SQLiteService.resetProfilePushCount id w = (Resolved None, w)
  /\ SQLiteService.deleteProfile id w = (Resolved false, w).
Proof.
  intros Hget. pose proof Hget as Hopen.
  apply getProfile_resolved in Hopen as [Hopen Hstored].
  split; [intros partial; by apply updateProfile_missing|].
  split; [|split].
  - unfold SQLiteService.incrementProfilePushCount, bind.
    rewrite getProfile_open by done. by rewrite Hstored.
  - unfold SQLiteService.resetProfilePushCount, bind, Date_now.
    by apply updateProfile_missing.
  - unfold SQLiteService.deleteProfile, bind. rewrite run_open by done.
    unfold Sql.delete_profile. rewrite (stored_profile_None _ _ Hstored).
    cbn. by rewrite set_database_same.
Qed.

(** X2.  [resetProfilePushCount] on a stored profile sets the count to 0
    and [lastPushReset] to the formatted current time, whatever they
    were, and keeps the other fields, the other profiles, the videos
    and the file area. *)
Theorem resetProfilePushCount_clears_the_count (w : World) (id : Z) (p : Profile.t) :
  fst (SQLiteService.getProfile id w) = Resolved (Some p) ->
  exists (p' : Profile.t) (w' : World),
    SQLiteService.resetProfilePushCount id w = (Resolved (Some p'), w')
    /\ fst (SQLiteService.getProfile id w') = Resolved (Some p')
    /\ Profile.dailyPushCount p' = 0
    /\ Profile.lastPushReset p' = Some (format (clock w) "yyyy-MM-dd HH:mm:ss")
    /\ Profile.id p' = Profile.id p
    /\ Profile.name p' = Profile.name p
    /\ Profile.channelName p' = Profile.channelName p
    /\ Profile.channelLink p' = Profile.channelLink p
    /\ (forall other : Z, other ≠ id ->
          fst (SQLiteService.getProfile other w') = fst (SQLiteService.getProfile other w))
    /\ videos (database w') = videos (database w)
    /\ documents w' = documents w.
Proof.
  intros Hget. pose proof Hget as Hopen.
  apply getProfile_resolved in Hopen as [Hopen _].
  unfold SQLiteService.resetProfilePushCount, bind, Date_now.
  eexists _, _. split; [by apply updateProfile_patches|].
  split; [by apply updateProfile_read_back|].
  repeat (split; [done|]).
  split; [|done].
  intros other Hne. rewrite !getProfile_open by done.
  unfold after_updateProfile. cbn [fst database set_database].
  by rewrite stored_profile_update_other.
Qed.

End MissingProfileOperations.

Section Creation.

Lemma nullable_text_of_text (x : option string) :
  Sql.nullable_text (Sql.of_text x) = x.
Proof. by destruct x. Qed.

Lemma nullable_integer_of_integer (x : option Z) :
  Sql.nullable_integer (Sql.of_integer x) = x.
Proof. by destruct x. Qed.

Lemma Boolean_of_flag (b : bool) : Sql.Boolean (Sql.of_flag b) = b.
Proof. by destruct b. Qed.

(** The INSERT of a profile. *)
Lemma createProfile_inserts (w : World) (data : ProfileData.t) :
  connection_open w = true ->
  exists db' : Database,
    SQLiteService.createProfile data w
    = (Resolved (SQLiteService.mkCreated JsUndefined data), set_database db' w)
    /\ stored_profile db' (profiles_seq (database w) + 1)
       = Some (profile_as_stored (profiles_seq (database w) + 1) data)
    /\ profiles_seq db' = profiles_seq (database w) + 1
    /\ (forall other : Z, other ≠ profiles_seq (database w) + 1 ->
          stored_profile db' other = stored_profile (database w) other)
    /\ videos db' = videos (database w)
    /\ videos_seq db' = videos_seq (database w).
Proof.
  intros Hopen. unfold SQLiteService.createProfile, bind.
  rewrite run_open by done. unfold Sql.insert_profile. cbn [fst snd].
  eexists. split; [reflexivity|].
  split.
  { unfold stored_profile. cbn [profiles]. rewrite lookup_insert_eq.
    cbn [fmap option_fmap option_map]. f_equal.
    unfold SQLiteService.mapProfileResult, profile_as_stored, Sql.select_row, Sql.assign.
    cbn [foldl fst snd]. columns. cbn [Sql.integer Sql.text].
    rewrite nullable_text_of_text. f_equal.
    unfold truthy_number. by destruct (Z.eqb_spec (ProfileData.dailyPushCount data) 0) as [->|]. }
  split; [done|]. split; [|done].
  intros other Hne. unfold stored_profile. cbn [profiles].
  by rewrite lookup_insert_ne.
Qed.

(** X3.  On an open connection [createProfile] always resolves.  The
    store then holds its input under the id after the largest one ever
    handed out, with an empty [lastPushReset] turned into null, and
    every other profile, all videos and the file area are as before.
    What the call returns is its input with an [id] that is
    [undefined]: the service reads the new id off the property
    [lastId] of the plugin's result, which has none. *)
Theorem createProfile_stores_its_input (w : World) (data : ProfileData.t) :
  connection_open w = true ->
  let id := profiles_seq (database w) + 1 in
  exists w' : World,
    SQLiteService.createProfile data w
    = (Resolved (SQLiteService.mkCreated JsUndefined data), w')
    /\ fst (SQLiteService.getProfile id w') = Resolved (Some (profile_as_stored id data))
    /\ profiles_seq (database w') = id
    /\ (forall other : Z, other ≠ id ->
          fst (SQLiteService.getProfile other w') = fst (SQLiteService.getProfile other w))
    /\ videos (database w') = videos (database w)
    /\ documents w' = documents w.
Proof.
  intros Hopen id. subst id.
  destruct (createProfile_inserts w data Hopen)
    as (db' & Hrun & Hnew & Hseq & Hothers & Hvideos & _).
  exists (set_database db' w). split; [exact Hrun|].
  split; [rewrite getProfile_open by done; cbn [fst database set_database];
          by rewrite Hnew|].
  split; [done|]. split; [|done].
  intros other Hne. rewrite !getProfile_open by done.
  cbn [fst database set_database]. by rewrite Hothers.
Qed.

(** The INSERT of a video whose profile is stored. *)
Lemma createVideo_inserts (w : World) (data : VideoData.t) :
  connection_open w = true ->
  is_Some (profiles (database w) !! VideoData.profileId data) ->
  exists db' : Database,
    SQLiteService.createVideo data w
    = (Resolved (SQLiteService.mkCreated JsUndefined data), set_database db' w)
    /\ stored_video db' (videos_seq (database w) + 1)
       = Some (video_as_stored (videos_seq (database w) + 1) data)
    /\ (forall other : Z, other ≠ videos_seq (database w) + 1 ->
          stored_video db' other = stored_video (database w) other)
    /\ profiles db' = profiles (database w).
Proof.
  intros Hopen Hsome.
  unfold SQLiteService.createVideo, bind. rewrite run_open by done.
  unfold Sql.insert_video, Sql.foreign_key_ok. cbn [forallb fst snd].
  cbn. unfold Sql.references_profile. rewrite bool_decide_eq_true_2 by done.
  cbn [fst snd andb]. eexists. split; [reflexivity|].
  split.
  { unfold stored_video. cbn [videos]. rewrite lookup_insert_eq.
    cbn [fmap option_fmap option_map]. f_equal.
    unfold SQLiteService.mapVideoResult, video_as_stored, Sql.select_row, Sql.assign.
    cbn [foldl fst snd]. columns. cbn [Sql.integer Sql.text].
    rewrite !nullable_text_of_text, !nullable_integer_of_integer, !Boolean_of_flag.
    reflexivity. }
  split; [|done].
  intros other Hne. unfold stored_video. cbn [videos].
  by rewrite lookup_insert_ne.
Qed.

(** X4.  [createVideo] checks the owning profile.  When [profileId]
    names no stored profile the INSERT violates the foreign key: the
    call rejects and the store is unchanged.  When it names one, the
    store holds the input under the next id, with empty optional texts
    and zero sizes turned into null and an empty status turned into
    ['pending'], and the call returns its input with an [id] that is
    [undefined]. *)
Theorem createVideo_checks_the_profile (w : World) (data : VideoData.t) :
  connection_open w = true ->
  let id := videos_seq (database w) + 1 in
  (fst (SQLiteService.getProfile (VideoData.profileId data) w) = Resolved None ->
     exists error : JsError, SQLiteService.createVideo data w = (Rejected error, w))
  /\ (forall p : Profile.t,
        fst (SQLiteService.getProfile (VideoData.profileId data) w) = Resolved (Some p) ->
        exists w' : World,
          SQLiteService.createVideo data w
          = (Resolved (SQLiteService.mkCreated JsUndefined data), w')
          /\ fst (SQLiteService.getVideo id w') = Resolved (Some (video_as_stored id data))
          /\ (forall other : Z, other ≠ id ->
                fst (SQLiteService.getVideo other w') = fst (SQLiteService.getVideo other w))
          /\ profiles (database w') = profiles (database w)
          /\ documents w' = documents w).
Proof.
  intros Hopen id. subst id. split.
  - intros Hget. apply getProfile_resolved in Hget as [_ Hstored].
    apply stored_profile_None in Hstored.
    unfold SQLiteService.createVideo, bind. rewrite run_open by done.
    unfold Sql.insert_video, Sql.foreign_key_ok. cbn [forallb fst snd String.eqb Ascii.eqb Bool.eqb].
    cbn. unfold Sql.references_profile. rewrite Hstored.
    rewrite bool_decide_eq_false_2 by (by intros [? ?]).
    cbn. rewrite set_database_same. by eauto.
  - intros p Hget. apply getProfile_resolved in Hget as [_ Hstored].
    assert (is_Some (profiles (database w) !! VideoData.profileId data)) as Hsome.
    { unfold stored_profile in Hstored.
      destruct (profiles (database w) !! VideoData.profileId data); [by eauto|done]. }
    destruct (createVideo_inserts w data Hopen Hsome)
      as (db' & Hrun & Hnew & Hothers & Hprofiles).
    exists (set_database db' w). split; [exact Hrun|].
    split; [rewrite getVideo_open by done; cbn [fst database set_database];
            by rewrite Hnew|].
    split; [|done].
    intros other Hne. rewrite !getVideo_open by done.
    cbn [fst database set_database]. by rewrite Hothers.
Qed.

End Creation.

Section VideoPatches.

Lemma assign_app (r : Row) (l1 l2 : list (string * SqlValue)) :
  Sql.assign r (l1 ++ l2) = Sql.assign (Sql.assign r l1) l2.
Proof. unfold Sql.assign. apply foldl_app. Qed.

Lemma column_push_field_ne {A} (r : Row) (x : option A) (c c' : string)
    (f : A -> SqlValue) :
  c' ≠ c ->
  Sql.column (Sql.assign r (SQLiteService.push_field x c' f)) c = Sql.column r c.
Proof. intros Hne. destruct x; [|done]. cbn. by apply column_insert_ne. Qed.

Lemma column_push_field_eq {A} (r : Row) (x : option A) (c : string)
    (f : A -> SqlValue) :
  Sql.column (Sql.assign r (SQLiteService.push_field x c f)) c
  = match x with Some v => f v | None => Sql.column r c end.
Proof. destruct x; [|done]. cbn. apply column_insert_eq. Qed.

Lemma forallb_push_field_other {A} (db : Database) (x : option A) (c : string)
    (f : A -> SqlValue) :
  c ≠ "profileId" -> Sql.foreign_key_ok db (SQLiteService.push_field x c f) = true.
Proof.
  intros Hne. destruct x; [|done]. unfold Sql.foreign_key_ok. cbn.
  apply String.eqb_neq in Hne. by rewrite Hne.
Qed.

Lemma foreign_key_ok_app (db : Database) (l1 l2 : list (string * SqlValue)) :
  Sql.foreign_key_ok db (l1 ++ l2)
  = Sql.foreign_key_ok db l1 && Sql.foreign_key_ok db l2.
Proof. unfold Sql.foreign_key_ok. apply forallb_app. Qed.

(** The foreign key is checked exactly when a [profileId] is supplied. *)
Lemma foreign_key_ok_video_fields (db : Database) (partial : PartialVideo.t) :
  Sql.foreign_key_ok db (SQLiteService.video_fields partial)
  = match PartialVideo.profileId partial with
    | Some pid => bool_decide (is_Some (profiles db !! pid))
    | None => true
    end.
Proof.
  unfold SQLiteService.video_fields. rewrite foreign_key_ok_app.
  match goal with |- _ && ?rest = _ => assert (rest = true) as -> end.
  { repeat (rewrite foreign_key_ok_app;
            rewrite forallb_push_field_other by discriminate; cbn [andb]).
    by apply forallb_push_field_other. }
  rewrite andb_true_r.
  destruct (PartialVideo.profileId partial); [|done].
  unfold Sql.foreign_key_ok. cbn. by rewrite andb_true_r.
Qed.

Lemma mapVideoResult_video_fields (id : Z) (r : Row) (partial : PartialVideo.t) :
  SQLiteService.mapVideoResult
    (Sql.select_row id (Sql.assign r (SQLiteService.video_fields partial)))
  = patch_video partial (SQLiteService.mapVideoResult (Sql.select_row id r)).
Proof.
  unfold SQLiteService.video_fields. rewrite !assign_app.
  unfold SQLiteService.mapVideoResult, patch_video, Sql.select_row.
  cbn [Video.id Video.profileId Video.title Video.description Video.filePath
       Video.fileName Video.fileSize Video.originalFilePath Video.originalFileSize
       Video.thumbnailPath Video.duration Video.scheduleDate Video.status
       Video.uploadedDate Video.youtubeLink Video.isFileUploaded Video.isPlaceholder].
  f_equal.
  all: rewrite ?column_insert_eq, ?column_insert_ne by discriminate.
  all: repeat first [ rewrite column_push_field_ne by discriminate
                    | rewrite column_push_field_eq ].
  all: try reflexivity.
  all: match goal with |- context [match ?x with _ => _ end] => destruct x end.
  all: cbn [default]; rewrite ?nullable_text_of_text, ?nullable_integer_of_integer,
         ?Boolean_of_flag; reflexivity.
Qed.

End VideoPatches.

Section VideoUpdateTheorem.

Lemma stored_profile_is_Some (db : Database) (id : Z) (p : Profile.t) :
  stored_profile db id = Some p -> is_Some (profiles db !! id).
Proof. unfold stored_profile. destruct (profiles db !! id); [by eauto|done]. Qed.

(** What an UPDATE that respects the foreign key does to a stored
    video. *)
Lemma updateVideo_patches (w : World) (id : Z) (partial : PartialVideo.t) (r : Row) :
  connection_open w = true ->
  videos (database w) !! id = Some r ->
  Sql.foreign_key_ok (database w) (SQLiteService.video_fields partial) = true ->
  exists db' : Database,
    SQLiteService.updateVideo id partial w
    = (Resolved (Some (patch_video partial
                         (SQLiteService.mapVideoResult (Sql.select_row id r)))),
       set_database db' w)
    /\ (forall k : Z,
          stored_video db' k
          = if decide (k = id)
            then Some (patch_video partial
                         (SQLiteService.mapVideoResult (Sql.select_row id r)))
            else stored_video (database w) k)
    /\ profiles db' = profiles (database w).
Proof.
  intros Hopen Hrow Hfk. unfold SQLiteService.updateVideo.
  destruct (length (SQLiteService.video_fields partial) =? 0)%nat eqn:Hlen.
  - apply Nat.eqb_eq, nil_length_inv in Hlen.
    assert (patch_video partial (SQLiteService.mapVideoResult (Sql.select_row id r))
            = SQLiteService.mapVideoResult (Sql.select_row id r)) as Hsame.
    { rewrite <- mapVideoResult_video_fields, Hlen. done. }
    exists (database w). rewrite set_database_same, getVideo_open by done.
    unfold stored_video at 1. rewrite Hrow. cbn [fmap option_fmap option_map].
    rewrite Hsame. split; [done|]. split; [|done].
    intros k. destruct (decide (k = id)) as [->|Hne]; [|done].
    unfold stored_video. by rewrite Hrow.
  - unfold bind. rewrite run_open by done.
    unfold Sql.update_video. rewrite Hrow, Hfk. cbn [fst snd].
    assert (forall k : Z,
              stored_video
                {| profiles := profiles (database w);
                   profiles_seq := profiles_seq (database w);
                   videos :=
                     Sql.update_where_id (videos (database w)) id
                       (SQLiteService.video_fields partial);
                   videos_seq := videos_seq (database w) |} k
              = if decide (k = id)
                then Some (patch_video partial
                             (SQLiteService.mapVideoResult (Sql.select_row id r)))
                else stored_video (database w) k) as Hread.
    { intros k. unfold stored_video, Sql.update_where_id. cbn [videos].
      destruct (decide (k = id)) as [->|Hne].
      - rewrite lookup_alter_eq, Hrow. cbn [fmap option_fmap option_map].
        by rewrite mapVideoResult_video_fields.
      - by rewrite lookup_alter_ne. }
    eexists. split; [|split; [exact Hread|done]].
    rewrite getVideo_open by done. cbn [database set_database].
    rewrite Hread. by rewrite decide_True.
Qed.

(** X5.  [updateVideo(id, partial)] on a stored video.  When the partial
    object supplies a [profileId] that names no stored profile, the
    UPDATE violates the foreign key: the call rejects and nothing
    changes.  Otherwise every field of the stored video is the supplied
    value where one is supplied and its previous value where none is
    ([id] is never written), and the other videos, the profiles and
    the file area are untouched. *)
Theorem updateVideo_changes_only_supplied_fields
    (w : World) (id : Z) (partial : PartialVideo.t) (v : Video.t) :
  fst (SQLiteService.getVideo id w) = Resolved (Some v) ->
  (forall pid : Z,
      PartialVideo.profileId partial = Some pid ->
      fst (SQLiteService.getProfile pid w) = Resolved None ->
      exists error : JsError,
        SQLiteService.updateVideo id partial w = (Rejected error, w))
  /\ ((forall pid : Z,
         PartialVideo.profileId partial = Some pid ->
         exists p : Profile.t,
           fst (SQLiteService.getProfile pid w) = Resolved (Some p)) ->
      exists w' : World,
        SQLiteService.updateVideo id partial w
        = (Resolved (Some (patch_video partial v)), w')
        /\ fst (SQLiteService.getVideo id w') = Resolved (Some (patch_video partial v))
        /\ (forall other : Z, other ≠ id ->
              fst (SQLiteService.getVideo other w') = fst (SQLiteService.getVideo other w))
        /\ profiles (database w') = profiles (database w)
        /\ documents w' = documents w).
Proof.
  intros Hget. apply getVideo_resolved in Hget as [Hopen Hstored].
  unfold stored_video in Hstored.
  destruct (videos (database w) !! id) as [r|] eqn:Hrow; [|done].
  injection Hstored as <-.
  split.
  - intros pid Hpid Hnone. apply getProfile_resolved in Hnone as [_ Hnone].
    apply stored_profile_None in Hnone.
    unfold SQLiteService.updateVideo.
    assert (SQLiteService.video_fields partial ≠ []) as Hfields.
    { unfold SQLiteService.video_fields. rewrite Hpid. done. }
    destruct (SQLiteService.video_fields partial) as [|field fields] eqn:Hf; [done|].
    cbn [length Nat.eqb]. unfold bind. rewrite run_open by done.
    unfold Sql.update_video. rewrite Hrow, <- Hf, foreign_key_ok_video_fields, Hpid.
    rewrite bool_decide_eq_false_2 by (rewrite Hnone; by intros [? ?]).
    cbn. rewrite set_database_same. by eauto.
  - intros Hprofile.
    assert (Sql.foreign_key_ok (database w) (SQLiteService.video_fields partial) = true)
      as Hfk.
    { rewrite foreign_key_ok_video_fields.
      destruct (PartialVideo.profileId partial) as [pid|] eqn:Hpid; [|done].
      destruct (Hprofile pid eq_refl) as (p & Hp).
      apply getProfile_resolved in Hp as [_ Hp].
      apply bool_decide_eq_true_2. by eapply stored_profile_is_Some. }
    destruct (updateVideo_patches w id partial r Hopen Hrow Hfk)
      as (db' & Hrun & Hread & Hprofiles).
    exists (set_database db' w). split; [exact Hrun|].
    split.
    { rewrite getVideo_open by done. cbn [fst database set_database].
      rewrite Hread. by rewrite decide_True. }
    split; [|done].
    intros other Hne. rewrite !getVideo_open by done. cbn [fst database set_database].
    rewrite Hread. by rewrite decide_False.
Qed.

End VideoUpdateTheorem.

(* ===================================================================== *)
(** * What the operations keep                                             *)
(* ===================================================================== *)

Section Keeping.
Context {P : World -> Prop}.

Lemma keeps_ret {A} (a : A) : keeps P (ret a).
Proof. by intros w. Qed.

Lemma keeps_throw {A} (e : JsError) : keeps P (@throw A e).
Proof. by intros w. Qed.

Lemma keeps_bind {A B} (m : Async A) (k : A -> Async B) :
  keeps P m -> (forall a, keeps P (k a)) -> keeps P (bind m k).
Proof.
  intros Hm Hk w Hw. unfold bind. specialize (Hm w Hw).
  destruct (m w) as [[a|e] w1]; [by apply Hk|done].
Qed.

Lemma keeps_try_catch {A} (m : Async A) (handler : JsError -> Async A) :
  keeps P m -> (forall e, keeps P (handler e)) -> keeps P (try_catch m handler).
Proof.
  intros Hm Hh w Hw. unfold try_catch. specialize (Hm w Hw).
  destruct (m w) as [[a|e] w1]; [done|by apply Hh].
Qed.

Lemma keeps_for_of {A} (xs : list A) (body : A -> Async unit) :
  (forall x, keeps P (body x)) -> keeps P (for_of xs body).
Proof.
  intros Hbody. induction xs as [|x xs IH]; [apply keeps_ret|].
  cbn. apply keeps_bind; [apply Hbody|]. intros _. exact IH.
Qed.

End Keeping.

(** The calls of the file plugin change the file area at most. *)
Section FilePlugin.

Lemma files_only_refl (w : World) : files_only w w.
Proof. exists (documents w). by rewrite set_documents_same. Qed.

Lemma files_only_set (w0 w : World) (docs : gmap string Entry) :
  files_only w0 w -> files_only w0 (set_documents docs w).
Proof. intros (d & ->). by exists docs. Qed.

Lemma files_only_trans (w0 w1 w2 : World) :
  files_only w0 w1 -> files_only w1 w2 -> files_only w0 w2.
Proof. intros (d1 & ->) (d2 & ->). by exists d2. Qed.

Lemma files_only_same_store (w w' : World) : files_only w w' -> same_store w w'.
Proof. by intros (docs & ->). Qed.

Lemma files_only_bind {A B} (m : Async A) (k : A -> Async B) :
  (forall w, files_only w (snd (m w))) ->
  (forall a w, files_only w (snd (k a w))) ->
  forall w, files_only w (snd (bind m k w)).
Proof.
  intros Hm Hk w. unfold bind. specialize (Hm w).
  destruct (m w) as [[a|e] w1]; [|done].
  eapply files_only_trans; [exact Hm|apply Hk].
Qed.

Lemma stat_files_only (path : string) (w : World) :
  files_only w (snd (Filesystem.stat path w)).
Proof.
  unfold Filesystem.stat.
  destruct (Filesystem.get _ w); [apply files_only_refl|].
  destruct (Filesystem.get _ w); apply files_only_refl.
Qed.

Lemma put_files_only (path : string) (e : Entry) (w : World) :
  files_only w (snd (Filesystem.put path e w)).
Proof.
  unfold Filesystem.put.
  destruct (Filesystem.key path); [|apply files_only_refl].
  apply files_only_set, files_only_refl.
Qed.

Lemma mkdir_within_files_only (calls : nat) (path : string) (recursive : bool)
    (w : World) :
  files_only w (snd (Filesystem.mkdir_within calls path recursive w)).
Proof.
  revert path w.
  induction calls as [|calls IH]; intros path w; cbn [Filesystem.mkdir_within];
    (destruct (_ =? 1)%nat; [apply files_only_refl|]);
    (destruct (bool_decide (is_Some _)); [apply files_only_refl|]);
    (destruct (negb recursive && _ && _); [apply files_only_refl|]);
    apply files_only_bind; intros; try apply put_files_only;
    destruct (recursive && _ && _); try apply files_only_refl.
  apply IH.
Qed.

Lemma mkdir_files_only (path : string) (recursive : bool) (w : World) :
  files_only w (snd (Filesystem.mkdir path recursive w)).
Proof. apply mkdir_within_files_only. Qed.

Lemma plugin_writeFile_files_only (path data : string) (recursive : bool) (w : World) :
  files_only w (snd (Filesystem.writeFile path data recursive w)).
Proof.
  unfold Filesystem.writeFile.
  assert (forall w0 : World,
            files_only w0
              (snd (match Filesystem.get (Filesystem.parent (Filesystem.getPath path)) w with
                    | Some _ => ret tt
                    | None =>
                        match JsString.from_char_after_first "/"
                                (Filesystem.parent (Filesystem.getPath path)) with
                        | Some parentArgPath => Filesystem.mkdir parentArgPath recursive
                        | None => ret tt
                        end
                    end w0))) as Hparent.
  { intros w0. destruct (Filesystem.get _ w); [apply files_only_refl|].
    destruct (JsString.from_char_after_first _ _);
      [apply mkdir_files_only|apply files_only_refl]. }
  assert (forall w0 : World,
            files_only w0
              (snd ((if negb (Filesystem.isBase64String (Filesystem.without_header data))
                     then throw (Error "The supplied data is not valid base64 content.")
                     else bind (Filesystem.put (Filesystem.getPath path)
                                  (File (Filesystem.without_header data)))
                               (fun _ => ret (Filesystem.getPath path))) w0))) as Hput.
  { intros w0. destruct (negb _); [apply files_only_refl|].
    apply files_only_bind; intros; [apply put_files_only|apply files_only_refl]. }
  destruct (Filesystem.get (Filesystem.getPath path) w) as [[|previous]|];
    [apply files_only_refl|..];
    apply files_only_bind; intros; auto.
Qed.

Lemma plugin_readFile_files_only (path : string) (w : World) :
  files_only w (snd (Filesystem.readFile path w)).
Proof.
  unfold Filesystem.readFile.
  destruct (Filesystem.get _ w) as [[|data]|]; apply files_only_refl.
Qed.

Lemma plugin_deleteFile_files_only (path : string) (w : World) :
  files_only w (snd (Filesystem.deleteFile path w)).
Proof.
  unfold Filesystem.deleteFile.
  destruct (Filesystem.get _ w); [|apply files_only_refl].
  destruct (Filesystem.has_entries _ w); [apply files_only_refl|].
  unfold Filesystem.remove. destruct (Filesystem.key _); [|apply files_only_refl].
  apply files_only_set, files_only_refl.
Qed.

End FilePlugin.

(** Everything outside the database file leaves a property of the
    database file alone. *)
Section KeepingTheStore.
Variable Q : Database -> Prop.

Lemma keeps_same_database {A} (m : Async A) :
  (forall w, database (snd (m w)) = database w) -> keeps (of_store Q) m.
Proof. intros Hsame w Hw. unfold of_store. by rewrite Hsame. Qed.

Lemma keeps_files_only {A} (m : Async A) :
  (forall w, files_only w (snd (m w))) -> keeps (of_store Q) m.
Proof.
  intros Hfiles. apply keeps_same_database. intros w.
  by destruct (Hfiles w) as (docs & ->).
Qed.

Lemma keeps_query {A} (q : Database -> A) : keeps (of_store Q) (Sql.query q).
Proof.
  apply keeps_same_database. intros w. unfold Sql.query, Sql.run.
  by destruct (connection_open w).
Qed.

Lemma keeps_run {A} (stmt : Database -> Settled A * Database) :
  (forall db, Q db -> Q (snd (stmt db))) -> keeps (of_store Q) (Sql.run stmt).
Proof.
  intros Hstmt w Hw. unfold Sql.run, of_store in *.
  destruct (connection_open w); [|done].
  specialize (Hstmt (database w) Hw). by destruct (stmt (database w)).
Qed.

Lemma keeps_Date_now : keeps (of_store Q) Date_now.
Proof. by apply keeps_same_database. Qed.

Lemma keeps_Device_getInfo : keeps (of_store Q) Device_getInfo.
Proof.
  apply keeps_same_database. intros w. unfold Device_getInfo.
  by destruct (platform w).
Qed.

Lemma keeps_stat (path : string) : keeps (of_store Q) (Filesystem.stat path).
Proof. apply keeps_files_only, stat_files_only. Qed.

Lemma keeps_mkdir (path : string) (recursive : bool) :
  keeps (of_store Q) (Filesystem.mkdir path recursive).
Proof. apply keeps_files_only, mkdir_files_only. Qed.

Lemma keeps_plugin_deleteFile (path : string) :
  keeps (of_store Q) (Filesystem.deleteFile path).
Proof. apply keeps_files_only, plugin_deleteFile_files_only. Qed.

Lemma keeps_plugin_writeFile (path data : string) (recursive : bool) :
  keeps (of_store Q) (Filesystem.writeFile path data recursive).
Proof. apply keeps_files_only, plugin_writeFile_files_only. Qed.

Lemma keeps_plugin_readFile (path : string) :
  keeps (of_store Q) (Filesystem.readFile path).
Proof. apply keeps_files_only, plugin_readFile_files_only. Qed.

Lemma keeps_Preferences_get (key : string) : keeps (of_store Q) (Preferences.get key).
Proof.
  apply keeps_same_database. intros w. unfold Preferences.get.
  by destruct (preferences_available w).
Qed.

Lemma keeps_Preferences_set (key value : string) :
  keeps (of_store Q) (Preferences.set key value).
Proof.
  apply keeps_same_database. intros w. unfold Preferences.set.
  by destruct (preferences_available w).
Qed.

End KeepingTheStore.

Create HintDb keeps discriminated.

#[global] Hint Resolve keeps_ret keeps_throw keeps_query keeps_Date_now
  keeps_Device_getInfo keeps_stat keeps_mkdir keeps_plugin_deleteFile
  keeps_plugin_writeFile keeps_plugin_readFile keeps_Preferences_get
  keeps_Preferences_set : keeps.

(** Walks through the binds, handlers and branches of an asynchronous
    function and closes the leaves with the hints. *)
Ltac keeps_step :=
  match goal with
  | |- keeps _ (bind _ _) => apply keeps_bind; [|intros ?]
  | |- keeps _ (try_catch _ _) => apply keeps_try_catch; [|intros ?]
  | |- keeps _ (for_of _ _) => apply keeps_for_of; intros ?
  | |- keeps _ (match ?x with _ => _ end) => destruct x
  | |- keeps _ _ => solve [eauto with keeps]
  end.

Ltac keeps_walk := repeat keeps_step.

Section ConsistentStatements.

Lemma references_profile_insert (db : Database) (id : Z) (row : Row) (v : SqlValue) :
  Sql.references_profile db v = true ->
  Sql.references_profile
    {| profiles := <[id := row]> (profiles db);
       profiles_seq := id;
       videos := videos db;
       videos_seq := videos_seq db |} v = true.
Proof.
  unfold Sql.references_profile. destruct v as [|pid|]; [done| |done].
  cbn [profiles]. intros Hsome%bool_decide_eq_true. apply bool_decide_eq_true.
  destruct (decide (id = pid)) as [->|Hne].
  - rewrite lookup_insert_eq. by eauto.
  - by rewrite lookup_insert_ne.
Qed.

Lemma consistent_insert_profile (db : Database) (values : list (string * SqlValue)) :
  consistent db -> consistent (snd (Sql.insert_profile values db)).
Proof.
  intros (Hp & Hv & Hfk). unfold Sql.insert_profile. cbn [snd].
  split; [|split]; cbn [profiles profiles_seq videos videos_seq].
  - apply map_Forall_insert_2; [lia|].
    intros k r Hk. specialize (Hp k r Hk). cbn in Hp. lia.
  - exact Hv.
  - intros k r Hk. apply references_profile_insert. by apply (Hfk k r).
Qed.

Lemma consistent_update_profile (db : Database) (id : Z)
    (fields : list (string * SqlValue)) :
  consistent db -> consistent (snd (Sql.update_profile id fields db)).
Proof.
  intros (Hp & Hv & Hfk). unfold Sql.update_profile, Sql.update_where_id. cbn [snd].
  split; [|split]; cbn [profiles profiles_seq videos videos_seq].
  - intros k r Hk. apply lookup_alter_Some in Hk as [(Heq & r0 & Hr0 & _)|[_ Hk]].
    + subst k. by apply (Hp id r0).
    + by apply (Hp k r).
  - exact Hv.
  - intros k r Hk. specialize (Hfk k r Hk). cbn in Hfk.
    unfold Sql.references_profile in *.
    destruct (Sql.column r "profileId") as [|pid|]; [done| |done].
    cbn [profiles]. apply bool_decide_eq_true in Hfk. apply bool_decide_eq_true.
    destruct (decide (pid = id)) as [->|Hne].
    + rewrite lookup_alter_eq. destruct Hfk as [r0 ->]. by eauto.
    + by rewrite lookup_alter_ne.
Qed.

Lemma consistent_delete_profile (db : Database) (id : Z) :
  consistent db -> consistent (snd (Sql.delete_profile id db)).
Proof.
  intros (Hp & Hv & Hfk). unfold Sql.delete_profile.
  destruct (profiles db !! id) as [r0|] eqn:Hrow; [|done]. cbn [snd].
  split; [|split]; cbn [profiles profiles_seq videos videos_seq].
  - intros k r Hk. apply lookup_delete_Some in Hk as [_ Hk]. by apply (Hp k r).
  - intros k r Hk. apply map_lookup_filter_Some in Hk as [Hk _]. by apply (Hv k r).
  - intros k r Hk. apply map_lookup_filter_Some in Hk as [Hk Hkeep].
    specialize (Hfk k r Hk). cbn in Hfk, Hkeep.
    unfold Sql.references_profile in *.
    destruct (Sql.column r "profileId") as [|pid|]; [done| |done].
    cbn [profiles]. apply bool_decide_eq_true in Hfk. apply bool_decide_eq_true.
    rewrite lookup_delete_ne; [done|]. intros ->. by apply Hkeep.
Qed.

Lemma consistent_delete_video (db : Database) (id : Z) :
  consistent db -> consistent (snd (Sql.delete_video id db)).
Proof.
  intros (Hp & Hv & Hfk). unfold Sql.delete_video.
  destruct (videos db !! id) as [r0|] eqn:Hrow; [|done]. cbn [snd].
  split; [|split]; cbn [profiles profiles_seq videos videos_seq].
  - exact Hp.
  - intros k r Hk. apply lookup_delete_Some in Hk as [_ Hk]. by apply (Hv k r).
  - intros k r Hk. apply lookup_delete_Some in Hk as [_ Hk]. by apply (Hfk k r).
Qed.

(** An inserted or updated row refers to the profile that passed the
    foreign-key check. *)
Lemma consistent_insert_video (db : Database) (pid : Z)
    (rest : list (string * SqlValue)) :
  "profileId" ∉ rest.*1 ->
  consistent db ->
  consistent (snd (Sql.insert_video (("profileId", SqlInteger pid) :: rest) db)).
Proof.
  intros Hrest (Hp & Hv & Hfk). unfold Sql.insert_video.
  destruct (Sql.foreign_key_ok db _) eqn:Hok; [|done]. cbn [snd].
  unfold Sql.foreign_key_ok in Hok. cbn in Hok. apply andb_true_iff in Hok as [Hpid _].
  split; [|split]; cbn [profiles profiles_seq videos videos_seq].
  - exact Hp.
  - apply map_Forall_insert_2; [lia|].
    intros k r Hk. specialize (Hv k r Hk). cbn in Hv. lia.
  - apply map_Forall_insert_2.
    + cbn [Sql.assign foldl fst snd].
      fold (Sql.assign (<["profileId" := SqlInteger pid]> ∅) rest).
      rewrite column_assign_other by done. by rewrite column_insert_eq.
    + intros k r Hk. by apply (Hfk k r).
Qed.

Lemma column_profileId_video_fields (r : Row) (partial : PartialVideo.t) :
  Sql.column (Sql.assign r (SQLiteService.video_fields partial)) "profileId"
  = match PartialVideo.profileId partial with
    | Some pid => SqlInteger pid
    | None => Sql.column r "profileId"
    end.
Proof.
  unfold SQLiteService.video_fields. rewrite !assign_app.
  repeat first [ rewrite column_push_field_ne by discriminate
               | rewrite column_push_field_eq ].
  reflexivity.
Qed.

Lemma consistent_update_video (db : Database) (id : Z) (partial : PartialVideo.t) :
  consistent db ->
  consistent (snd (Sql.update_video id (SQLiteService.video_fields partial) db)).
Proof.
  intros (Hp & Hv & Hfk). unfold Sql.update_video.
  destruct (videos db !! id) as [r0|] eqn:Hrow; [|done].
  destruct (Sql.foreign_key_ok db _) eqn:Hok; [|done]. cbn [snd].
  rewrite foreign_key_ok_video_fields in Hok.
  unfold Sql.update_where_id.
  split; [|split]; cbn [profiles profiles_seq videos videos_seq].
  - exact Hp.
  - intros k r Hk. apply lookup_alter_Some in Hk as [(Heq & r1 & Hr1 & _)|[_ Hk]].
    + subst k. by apply (Hv id r1).
    + by apply (Hv k r).
  - intros k r Hk. apply lookup_alter_Some in Hk as [(Heq & r1 & Hr1 & ->)|[_ Hk]].
    + subst k. rewrite column_profileId_video_fields.
      destruct (PartialVideo.profileId partial) as [pid|].
      * exact Hok.
      * by apply (Hfk id r1).
    + by apply (Hfk k r).
Qed.

End ConsistentStatements.

Section ConsistentOperations.
Context `{Dates : DateLib}.

Local Abbreviation kept := (keeps (of_store consistent)).

Lemma kept_sqlite_initialize : kept SQLiteService.initialize.
Proof.
  apply keeps_same_database. intros w.
  unfold SQLiteService.initialize, try_catch, bind, Device_getInfo, throw,
    SQLiteService.initializeNative, SQLiteService.initializeWeb,
    SQLiteService.createTables, try_catch, bind, SQLiteService.sqlite_isDatabase,
    SQLiteService.sqlite_initWebStore, SQLiteService.sqlite_createConnection,
    SQLiteService.db_open, Sql.run, throw.
  destruct w as [now [info|] stored available docs db opened [|] started [|]
                 [[e1|] [e2|] [e3|]]];
    cbn; try done; by destruct (negb (info =? "web")%string).
Qed.

Lemma kept_createDirectory (dirName : string) :
  kept (FileSystemService.createDirectory dirName).
Proof. unfold FileSystemService.createDirectory. keeps_walk. Qed.

Lemma kept_filesystem_initialize : kept FileSystemService.initialize.
Proof.
  unfold FileSystemService.initialize.
  pose proof kept_createDirectory. keeps_walk.
Qed.

Lemma kept_offline_initialize : kept OfflineApiService.initialize.
Proof.
  intros w Hw. unfold OfflineApiService.initialize.
  destruct (offline_isInitialized w); [done|].
  revert w Hw.
  change (kept (bind SQLiteService.initialize (fun _ =>
                bind FileSystemService.initialize (fun _ =>
                fun w' => (Resolved tt, set_offline_isInitialized true w'))))).
  apply keeps_bind; [apply kept_sqlite_initialize|intros _].
  apply keeps_bind; [apply kept_filesystem_initialize|intros _].
  by apply keeps_same_database.
Qed.

Lemma kept_ensureInitialized : kept OfflineApiService.ensureInitialized.
Proof.
  intros w Hw. unfold OfflineApiService.ensureInitialized.
  destruct (negb (offline_isInitialized w)); [by apply kept_offline_initialize|done].
Qed.

Lemma kept_run_insert_profile (values : list (string * SqlValue)) :
  kept (Sql.run (Sql.insert_profile values)).
Proof. apply keeps_run. intros db. apply consistent_insert_profile. Qed.

Lemma kept_run_update_profile (id : Z) (fields : list (string * SqlValue)) :
  kept (Sql.run (Sql.update_profile id fields)).
Proof. apply keeps_run. intros db. apply consistent_update_profile. Qed.

Lemma kept_run_delete_profile (id : Z) : kept (Sql.run (Sql.delete_profile id)).
Proof. apply keeps_run. intros db. apply consistent_delete_profile. Qed.

Lemma kept_run_delete_video (id : Z) : kept (Sql.run (Sql.delete_video id)).
Proof. apply keeps_run. intros db. apply consistent_delete_video. Qed.

Lemma kept_run_update_video (id : Z) (partial : PartialVideo.t) :
  kept (Sql.run (Sql.update_video id (SQLiteService.video_fields partial))).
Proof. apply keeps_run. intros db. apply consistent_update_video. Qed.

Lemma kept_getProfile (id : Z) : kept (SQLiteService.getProfile id).
Proof. unfold SQLiteService.getProfile. keeps_walk. Qed.

Lemma kept_getVideo (id : Z) : kept (SQLiteService.getVideo id).
Proof. unfold SQLiteService.getVideo. keeps_walk. Qed.

Lemma kept_sqlite_createProfile (data : ProfileData.t) :
  kept (SQLiteService.createProfile data).
Proof.
  unfold SQLiteService.createProfile.
  pose proof kept_run_insert_profile. keeps_walk.
Qed.

Lemma kept_sqlite_updateProfile (id : Z) (partial : PartialProfile.t) :
  kept (SQLiteService.updateProfile id partial).
Proof.
  unfold SQLiteService.updateProfile.
  pose proof kept_run_update_profile. pose proof kept_getProfile. keeps_walk.
Qed.

Lemma kept_sqlite_createVideo (data : VideoData.t) :
  kept (SQLiteService.createVideo data).
Proof.
  unfold SQLiteService.createVideo.
  apply keeps_bind; [|intros; apply keeps_ret].
  apply keeps_run. intros db. apply consistent_insert_video.
  cbn. rewrite !not_elem_of_cons. repeat split; try discriminate.
  apply not_elem_of_nil.
Qed.

Lemma kept_sqlite_updateVideo (id : Z) (partial : PartialVideo.t) :
  kept (SQLiteService.updateVideo id partial).
Proof.
  unfold SQLiteService.updateVideo.
  pose proof kept_run_update_video. pose proof kept_getVideo. keeps_walk.
Qed.

End ConsistentOperations.

Section ConsistentService.
Context `{Dates : DateLib}.

Local Abbreviation kept := (keeps (of_store consistent)).

#[local] Hint Resolve kept_ensureInitialized kept_getProfile kept_getVideo
  kept_sqlite_createProfile kept_sqlite_updateProfile kept_sqlite_createVideo
  kept_sqlite_updateVideo kept_run_delete_profile kept_run_delete_video
  kept_createDirectory : keeps.

Lemma kept_has24HoursPassed (d : option Z) : kept (SQLiteService.has24HoursPassed d).
Proof. unfold SQLiteService.has24HoursPassed. keeps_walk. Qed.

Lemma kept_sqlite_increment (id : Z) : kept (SQLiteService.incrementProfilePushCount id).
Proof.
  unfold SQLiteService.incrementProfilePushCount.
  pose proof kept_has24HoursPassed. keeps_walk.
Qed.

Lemma kept_sqlite_reset (id : Z) : kept (SQLiteService.resetProfilePushCount id).
Proof. unfold SQLiteService.resetProfilePushCount. keeps_walk. Qed.

Lemma kept_service_deleteFile (path : string) : kept (FileSystemService.deleteFile path).
Proof. unfold FileSystemService.deleteFile. keeps_walk. Qed.

Lemma kept_service_writeFile (path : string) (data : FileSystemService.WriteData)
    (options : FileSystemService.WriteFileOptions) :
  kept (FileSystemService.writeFile path data options).
Proof. unfold FileSystemService.writeFile. keeps_walk. Qed.

Lemma kept_service_readFile (path : string) (options : FileSystemService.ReadFileOptions) :
  kept (FileSystemService.readFile path options).
Proof. unfold FileSystemService.readFile. keeps_walk. Qed.

Lemma kept_fileExists (path : string) : kept (FileSystemService.fileExists path).
Proof. unfold FileSystemService.fileExists. keeps_walk. Qed.

Lemma kept_generateThumbnail (videoPath : string) :
  kept (OfflineApiService.generateThumbnail videoPath).
Proof.
  unfold OfflineApiService.generateThumbnail.
  pose proof kept_fileExists. pose proof kept_service_writeFile. keeps_walk.
Qed.

Lemma kept_delete_if_set (path : option string) :
  kept (OfflineApiService.delete_if_set path).
Proof.
  unfold OfflineApiService.delete_if_set.
  pose proof kept_service_deleteFile. keeps_walk.
Qed.

Lemma kept_createProfile (data : ProfileData.t) :
  kept (OfflineApiService.createProfile data).
Proof. unfold OfflineApiService.createProfile. keeps_walk. Qed.

Lemma kept_updateProfile (id : Z) (partial : PartialProfile.t) :
  kept (OfflineApiService.updateProfile id partial).
Proof. unfold OfflineApiService.updateProfile. keeps_walk. Qed.

Lemma kept_deleteProfile (id : Z) : kept (OfflineApiService.deleteProfile id).
Proof.
  unfold OfflineApiService.deleteProfile, SQLiteService.deleteProfile. keeps_walk.
Qed.

Lemma kept_increment (id : Z) : kept (OfflineApiService.incrementProfilePushCount id).
Proof.
  unfold OfflineApiService.incrementProfilePushCount.
  pose proof kept_sqlite_increment. keeps_walk.
Qed.

Lemma kept_reset (id : Z) : kept (OfflineApiService.resetProfilePushCount id).
Proof.
  unfold OfflineApiService.resetProfilePushCount.
  pose proof kept_sqlite_reset. keeps_walk.
Qed.

Lemma kept_createVideo (data : VideoData.t) : kept (OfflineApiService.createVideo data).
Proof.
  unfold OfflineApiService.createVideo.
  pose proof kept_generateThumbnail. keeps_walk.
Qed.

Lemma kept_updateVideo (id : Z) (partial : PartialVideo.t) :
  kept (OfflineApiService.updateVideo id partial).
Proof.
  unfold OfflineApiService.updateVideo, js_or, truthy, async_return, settles_as.
  keeps_walk.
Qed.

Lemma kept_deleteVideo (id : Z) : kept (OfflineApiService.deleteVideo id).
Proof.
  unfold OfflineApiService.deleteVideo, SQLiteService.deleteVideo.
  pose proof kept_delete_if_set. keeps_walk.
Qed.

Lemma kept_markVideoAsUploaded (id : Z) : kept (OfflineApiService.markVideoAsUploaded id).
Proof. unfold OfflineApiService.markVideoAsUploaded, settles_as. keeps_walk. Qed.

Lemma kept_revertVideoUpload (id : Z) : kept (OfflineApiService.revertVideoUpload id).
Proof. unfold OfflineApiService.revertVideoUpload, settles_as. keeps_walk. Qed.

Lemma kept_uploadVideoFile (id : Z) (filePath : string) :
  kept (OfflineApiService.uploadVideoFile id filePath).
Proof.
  unfold OfflineApiService.uploadVideoFile.
  pose proof kept_generateThumbnail. pose proof kept_service_readFile.
  pose proof kept_service_writeFile. keeps_walk.
Qed.

Lemma kept_importData (data : ImportData.t) : kept (OfflineApiService.importData data).
Proof. unfold OfflineApiService.importData, iterate. keeps_walk. Qed.

(** X6.  Every operation of the offline service that writes keeps the
    store consistent, whether it resolves or rejects: afterwards the
    next id of each table is still unused and every video still refers
    to a stored profile. *)
Theorem offline_service_keeps_the_store_consistent (w : World) :
  consistent (database w) ->
  (forall data, consistent (database (snd (OfflineApiService.createProfile data w))))
  /\ (forall id partial,
        consistent (database (snd (OfflineApiService.updateProfile id partial w))))
  /\ (forall id, consistent (database (snd (OfflineApiService.deleteProfile id w))))
  /\ (forall id,
        consistent (database (snd (OfflineApiService.incrementProfilePushCount id w))))
  /\ (forall id,
        consistent (database (snd (OfflineApiService.resetProfilePushCount id w))))
  /\ (forall data, consistent (database (snd (OfflineApiService.createVideo data w))))
  /\ (forall id partial,
        consistent (database (snd (OfflineApiService.updateVideo id partial w))))
  /\ (forall id, consistent (database (snd (OfflineApiService.deleteVideo id w))))
  /\ (forall id,
        consistent (database (snd (OfflineApiService.markVideoAsUploaded id w))))
  /\ (forall id, consistent (database (snd (OfflineApiService.revertVideoUpload id w))))
  /\ (forall id path,
        consistent (database (snd (OfflineApiService.uploadVideoFile id path w))))
  /\ (forall data, consistent (database (snd (OfflineApiService.importData data w)))).
Proof.
  intros Hw. repeat match goal with |- _ /\ _ => split end; intros.
  - exact (kept_createProfile _ w Hw).
  - exact (kept_updateProfile _ _ w Hw).
  - exact (kept_deleteProfile _ w Hw).
  - exact (kept_increment _ w Hw).
  - exact (kept_reset _ w Hw).
  - exact (kept_createVideo _ w Hw).
  - exact (kept_updateVideo _ _ w Hw).
  - exact (kept_deleteVideo _ w Hw).
  - exact (kept_markVideoAsUploaded _ w Hw).
  - exact (kept_revertVideoUpload _ w Hw).
  - exact (kept_uploadVideoFile _ _ w Hw).
  - exact (kept_importData _ w Hw).
Qed.

End ConsistentService.

(* ===================================================================== *)
(** * The list queries                                                     *)
(* ===================================================================== *)

Section Sorting.
Context {A : Type} (le : A -> A -> bool).

Lemma insert_sorted_Permutation (x : A) (l : list A) :
  Sql.insert_sorted le x l ≡ₚ x :: l.
Proof.
  induction l as [|y l IH]; [done|]. cbn. destruct (le x y); [done|].
  rewrite IH. apply Permutation_swap.
Qed.

Lemma sort_by_Permutation (l : list A) : Sql.sort_by le l ≡ₚ l.
Proof.
  unfold Sql.sort_by. induction l as [|x l IH]; [done|]. cbn.
  rewrite insert_sorted_Permutation. by rewrite IH.
Qed.

Hypothesis le_total : forall a b, le a b = true \/ le b a = true.

Lemma insert_sorted_Sorted (x : A) (l : list A) :
  Sorted (fun a b => le a b = true) l ->
  Sorted (fun a b => le a b = true) (Sql.insert_sorted le x l).
Proof.
  induction l as [|y l IH]; intros Hsorted; cbn.
  - by repeat constructor.
  - destruct (le x y) eqn:Hxy.
    + constructor; [done|]. by constructor.
    + apply Sorted_inv in Hsorted as [Hl Hhd]. constructor; [by apply IH|].
      destruct l as [|z l]; cbn.
      * constructor. destruct (le_total x y) as [H|H]; [congruence|done].
      * destruct (le x z).
        -- constructor. destruct (le_total x y) as [H|H]; [congruence|done].
        -- constructor. by apply HdRel_inv in Hhd.
Qed.

Lemma sort_by_Sorted (l : list A) : Sorted (fun a b => le a b = true) (Sql.sort_by le l).
Proof.
  unfold Sql.sort_by. induction l as [|x l IH]; cbn; [constructor|].
  by apply insert_sorted_Sorted.
Qed.

End Sorting.

Section Scans.

Lemma column_select_row (k : Z) (r : Row) (c : string) :
  c ≠ "id" -> Sql.column (Sql.select_row k r) c = Sql.column r c.
Proof. intros Hne. unfold Sql.select_row. by apply column_insert_ne. Qed.

(** A scan yields the rows of the table, each once. *)
Lemma scan_Permutation (t : Table) :
  Sql.scan t ≡ₚ (fun kr : Z * Row => Sql.select_row kr.1 kr.2) <$> map_to_list t.
Proof. unfold Sql.scan. by rewrite sort_by_Permutation. Qed.

Lemma elem_of_scan (t : Table) (row : Row) :
  row ∈ Sql.scan t <-> exists (k : Z) (r : Row), t !! k = Some r /\ row = Sql.select_row k r.
Proof.
  rewrite scan_Permutation. rewrite list_elem_of_fmap. split.
  - intros ([k r] & -> & Hin). apply elem_of_map_to_list in Hin. by eauto.
  - intros (k & r & Hin & ->). exists (k, r). split; [done|].
    by apply elem_of_map_to_list.
Qed.

Lemma length_scan (t : Table) : length (Sql.scan t) = size t.
Proof.
  rewrite scan_Permutation, length_fmap. by rewrite length_map_to_list.
Qed.

Lemma order_by_desc_scheduleDate_Sorted (rows : list Row) :
  Sorted later_first
    (SQLiteService.mapVideoResults (Sql.order_by_desc "scheduleDate" rows)).
Proof.
  unfold SQLiteService.mapVideoResults, Sql.order_by_desc.
  apply (Sorted_fmap SQLiteService.mapVideoResult
           (fun a b : Row =>
              String.leb (Sql.text (Sql.column b "scheduleDate"))
                         (Sql.text (Sql.column a "scheduleDate")) = true)
           later_first).
  - intros a b Hle. exact Hle.
  - apply (sort_by_Sorted (fun a b : Row =>
             String.leb (Sql.text (Sql.column b "scheduleDate"))
                        (Sql.text (Sql.column a "scheduleDate")))).
    intros a b. apply String.leb_total.
Qed.

End Scans.

Section ListQueries.

Lemma elem_of_stored_videos (db : Database) (v : Video.t) :
  (exists k : Z, stored_video db k = Some v)
  <-> exists (k : Z) (r : Row),
        videos db !! k = Some r
        /\ v = SQLiteService.mapVideoResult (Sql.select_row k r).
Proof.
  unfold stored_video. split.
  - intros (k & Hk). destruct (videos db !! k) as [r|] eqn:Hr; [|done].
    injection Hk as <-. by eauto.
  - intros (k & r & Hr & ->). exists k. by rewrite Hr.
Qed.

(** X7.  [getVideos] returns every stored video and nothing else, as
    many entries as the table has rows, the later schedule date
    first. *)
Theorem getVideos_lists_every_video (w : World) :
  connection_open w = true ->
  exists vs : list Video.t,
    SQLiteService.getVideos w = (Resolved vs, w)
    /\ (forall v : Video.t, v ∈ vs <-> exists k : Z, stored_video (database w) k = Some v)
    /\ length vs = size (videos (database w))
    /\ Sorted later_first vs.
Proof.
  intros Hopen. unfold SQLiteService.getVideos, bind. rewrite query_open by done.
  eexists. split; [reflexivity|]. split; [|split].
  - intros v. rewrite elem_of_stored_videos.
    unfold SQLiteService.mapVideoResults, Sql.order_by_desc.
    rewrite sort_by_Permutation, list_elem_of_fmap. split.
    + intros (row & -> & Hrow). apply elem_of_scan in Hrow as (k & r & Hr & ->).
      by eauto.
    + intros (k & r & Hr & ->). eexists. split; [reflexivity|].
      apply elem_of_scan. by eauto.
  - unfold SQLiteService.mapVideoResults, Sql.order_by_desc.
    rewrite length_fmap, sort_by_Permutation. apply length_scan.
  - apply order_by_desc_scheduleDate_Sorted.
Qed.

Lemma profileId_of_consistent_row (db : Database) (k : Z) (r : Row) (pid : Z) :
  consistent db -> videos db !! k = Some r ->
  (Sql.column r "profileId" = SqlInteger pid
   <-> Video.profileId (SQLiteService.mapVideoResult (Sql.select_row k r)) = pid).
Proof.
  intros (_ & _ & Hfk) Hr. specialize (Hfk k r Hr). cbn in Hfk.
  cbn [SQLiteService.mapVideoResult Video.profileId].
  rewrite column_select_row by discriminate.
  unfold Sql.references_profile in Hfk.
  destruct (Sql.column r "profileId") as [|n|]; [done| |done].
  cbn. split; [by intros [= ->]|by intros ->].
Qed.

Lemma elem_of_getVideosByProfile (w : World) (pid : Z) (v : Video.t) :
  consistent (database w) ->
  v ∈ SQLiteService.mapVideoResults
        (Sql.order_by_desc "scheduleDate"
           (filter (fun r : Row => Sql.column r "profileId" = SqlInteger pid)
                   (Sql.scan (videos (database w)))))
  <-> (exists k : Z, stored_video (database w) k = Some v) /\ Video.profileId v = pid.
Proof.
  intros Hw. rewrite elem_of_stored_videos.
  unfold SQLiteService.mapVideoResults, Sql.order_by_desc.
  rewrite sort_by_Permutation, list_elem_of_fmap. split.
  - intros (row & -> & Hrow). apply list_elem_of_filter in Hrow as [Hpid Hrow].
    apply elem_of_scan in Hrow as (k & r & Hr & ->).
    rewrite column_select_row in Hpid by discriminate.
    split; [by eauto|]. by apply (profileId_of_consistent_row _ k r pid Hw Hr).
  - intros [(k & r & Hr & ->) Hpid]. eexists. split; [reflexivity|].
    apply list_elem_of_filter. split.
    + rewrite column_select_row by discriminate.
      by apply (profileId_of_consistent_row _ k r pid Hw Hr).
    + apply elem_of_scan. by eauto.
Qed.

(** X8.  In a consistent store, [getVideosByProfile(profileId)] returns
    exactly the stored videos of that profile, the later schedule date
    first, and [getVideosByStatusAndProfile(status, profileId)] returns
    exactly those of them that have the status. *)
Theorem video_filters_are_exact (w : World) (status : string) (pid : Z) :
  offline_isInitialized w = true ->
  connection_open w = true ->
  consistent (database w) ->
  exists byProfile byBoth : list Video.t,
    OfflineApiService.getVideosByProfile pid w = (Resolved byProfile, w)
    /\ OfflineApiService.getVideosByStatusAndProfile status pid w = (Resolved byBoth, w)
    /\ (forall v : Video.t,
          v ∈ byProfile
          <-> (exists k : Z, stored_video (database w) k = Some v)
              /\ Video.profileId v = pid)
    /\ Sorted later_first byProfile
    /\ (forall v : Video.t,
          v ∈ byBoth
          <-> (exists k : Z, stored_video (database w) k = Some v)
              /\ Video.profileId v = pid /\ Video.status v = status).
Proof.
  intros Hinit Hopen Hw.
  unfold OfflineApiService.getVideosByProfile,
    OfflineApiService.getVideosByStatusAndProfile,
    SQLiteService.getVideosByProfile, bind.
  rewrite ensureInitialized_done by done. rewrite query_open by done.
  eexists _, _. split; [reflexivity|]. split; [reflexivity|].
  split; [intros v; by apply elem_of_getVideosByProfile|].
  split; [apply order_by_desc_scheduleDate_Sorted|].
  intros v. rewrite list_elem_of_filter, elem_of_getVideosByProfile by done.
  tauto.
Qed.

End ListQueries.

(** The sample store has one video. *)
Lemma getVideos_lists_every_video_witness :
  connection_open Samples.with_video = true
  /\ exists vs : list Video.t,
       SQLiteService.getVideos Samples.with_video = (Resolved vs, Samples.with_video)
       /\ Samples.clip_stored ∈ vs
       /\ length vs = 1%nat.
Proof.
  split; [reflexivity|].
  destruct (getVideos_lists_every_video Samples.with_video eq_refl)
    as (vs & Hrun & Hin & Hlen & _).
  exists vs. split; [exact Hrun|]. split.
  - apply Hin. exists 1. vm_compute. reflexivity.
  - rewrite Hlen. vm_compute. reflexivity.
Defined.

(** The pending videos of profile 1 in the sample store. *)
Lemma video_filters_are_exact_witness :
  offline_isInitialized Samples.with_video = true
  /\ connection_open Samples.with_video = true
  /\ consistent (database Samples.with_video)
  /\ exists byProfile byBoth : list Video.t,
       OfflineApiService.getVideosByProfile 1 Samples.with_video
       = (Resolved byProfile, Samples.with_video)
       /\ OfflineApiService.getVideosByStatusAndProfile "pending" 1 Samples.with_video
          = (Resolved byBoth, Samples.with_video)
       /\ Samples.clip_stored ∈ byBoth.
Proof.
  assert (consistent (database Samples.with_video)) as Hw
    by (apply (bool_decide_unpack (consistent _)); vm_compute; exact I).
  split; [reflexivity|]. split; [reflexivity|]. split; [exact Hw|].
  destruct (video_filters_are_exact Samples.with_video "pending" 1 eq_refl eq_refl Hw)
    as (byProfile & byBoth & Hrun1 & Hrun2 & _ & _ & Hin).
  exists byProfile, byBoth. split; [exact Hrun1|]. split; [exact Hrun2|].
  apply Hin. split; [exists 1; vm_compute; reflexivity|]. split; reflexivity.
Defined.
Section Base64Text.

(** The characters of a base64 text: none of them is a comma, so a
    base64 text is taken as it is, not as a data URL. *)
Lemma alphabet_has_no_comma (n : nat) (c : ascii) :
  String.get n Base64.alphabet = Some c -> Ascii.eqb c "," = false.
Proof.
  unfold Base64.alphabet.
  do 64 (destruct n as [|n]; [by intros [= <-]|]). done.
Qed.

Lemma sextet_is_no_comma (n : Z) : Ascii.eqb (Base64.sextet n) "," = false.
Proof.
  unfold Base64.sextet.
  destruct (String.get (Z.to_nat n) Base64.alphabet) as [c|] eqn:Hc; [|done].
  by apply alphabet_has_no_comma in Hc.
Qed.

Lemma encode_has_no_comma (bytes : list Z) :
  Forall (fun c => Ascii.eqb c "," = false) (Base64.encode bytes).
Proof.
  assert (forall (n : nat) (l : list Z),
            (length l <= n)%nat ->
            Forall (fun c => Ascii.eqb c "," = false) (Base64.encode l)) as Hall.
  { induction n as [n IH] using (well_founded_induction lt_wf).
    intros l Hl. destruct l as [|a [|b [|c rest]]].
    - constructor.
    - cbn [Base64.encode].
      repeat (constructor; [first [apply sextet_is_no_comma|reflexivity]|]).
      constructor.
    - cbn [Base64.encode].
      repeat (constructor; [first [apply sextet_is_no_comma|reflexivity]|]).
      constructor.
    - change (Base64.encode (a :: b :: c :: rest))
        with (Base64.sextet (a / 4) :: Base64.sextet ((a mod 4) * 16 + b / 16)
                :: Base64.sextet ((b mod 16) * 4 + c / 64) :: Base64.sextet (c mod 64)
                :: Base64.encode rest).
      repeat (constructor; [apply sextet_is_no_comma|]).
      apply (IH (length rest)); cbn in Hl; lia. }
  by apply (Hall (length bytes)).
Qed.

Lemma includes_text_of (cs : list ascii) (c : ascii) :
  Forall (fun x => Ascii.eqb x c = false) cs ->
  JsString.includes (Base64.text_of cs) c = false.
Proof.
  unfold Base64.text_of. induction 1 as [|x cs Hx _ IH]; [done|].
  cbn. by rewrite Hx, IH.
Qed.

Lemma btoa_has_no_comma (binary : string) :
  JsString.includes (Base64.btoa binary) "," = false.
Proof. apply includes_text_of, encode_has_no_comma. Qed.

Lemma without_header_base64 (data : string) :
  Filesystem.isBase64String data = true -> Filesystem.without_header data = data.
Proof.
  unfold Filesystem.isBase64String, Filesystem.without_header.
  destruct (Base64.atob data) as [binary|]; [|done].
  intros Heq%String.eqb_eq. rewrite <- Heq. by rewrite btoa_has_no_comma.
Qed.

(** ** [atob] after [btoa] *)

Local Ltac by_division := Z.to_euclidean_division_equations; lia.

Lemma sextet_value (n : Z) :
  0 <= n < 64 ->
  Base64.value_of (Base64.sextet n) = Some n
  /\ Ascii.eqb (Base64.sextet n) "=" = false
  /\ Base64.is_white_space (Base64.sextet n) = false.
Proof.
  intros Hn.
  assert (exists k : nat, (k < 64)%nat /\ n = Z.of_nat k) as (k & Hk & ->).
  { exists (Z.to_nat n). lia. }
  do 64 (destruct k as [|k]; [vm_compute; done|]). lia.
Qed.

Lemma without_padding_sextet (n : Z) (cs : list ascii) :
  0 <= n < 64 ->
  Base64.without_padding (Base64.sextet n :: cs)
  = Base64.sextet n :: Base64.without_padding cs.
Proof.
  intros Hn. cbn [Base64.without_padding].
  destruct (sextet_value n Hn) as (_ & -> & _). done.
Qed.

Lemma values_of_sextet (n : Z) (cs : list ascii) :
  0 <= n < 64 ->
  Base64.values_of (Base64.sextet n :: cs)
  = match Base64.values_of cs with
    | Some vs => Some (n :: vs)
    | None => None
    end.
Proof.
  intros Hn. cbn [Base64.values_of].
  destruct (sextet_value n Hn) as (-> & _ & _). done.
Qed.

Lemma encode_decodes (n : nat) (bytes : list Z) :
  (length bytes <= n)%nat ->
  Forall (fun n => 0 <= n < 256) bytes ->
  exists sextets : list Z,
    Base64.values_of (Base64.without_padding (Base64.encode bytes)) = Some sextets
    /\ Base64.decode sextets = bytes
    /\ (length (Base64.without_padding (Base64.encode bytes)) mod 4 <> 1)%nat
    /\ (length (Base64.encode bytes) mod 4 = 0)%nat
    /\ Forall (fun c => Base64.is_white_space c = false) (Base64.encode bytes).
Proof.
  revert bytes. induction n as [n IH] using (well_founded_induction lt_wf).
  intros bytes Hlen Hbytes.
  destruct bytes as [|a [|b [|c rest]]].
  - exists []. repeat split; done.
  - apply Forall_cons in Hbytes as [Ha _].
    cbn [Base64.encode].
    rewrite !without_padding_sextet by by_division.
    change (Base64.without_padding ["="%char; "="%char]) with (@nil ascii).
    rewrite !values_of_sextet by by_division. cbn [Base64.values_of].
    eexists. split; [done|]. cbn [Base64.decode length].
    split; [f_equal; by_division|]. split; [done|]. split; [done|].
    repeat (constructor; [first [apply sextet_value; by_division|done]|]). constructor.
  - apply Forall_cons in Hbytes as [Ha Hbytes]. apply Forall_cons in Hbytes as [Hb _].
    cbn [Base64.encode].
    rewrite !without_padding_sextet by by_division.
    change (Base64.without_padding ["="%char]) with (@nil ascii).
    rewrite !values_of_sextet by by_division. cbn [Base64.values_of].
    eexists. split; [done|]. cbn [Base64.decode length].
    split; [f_equal; [by_division|f_equal; by_division]|].
    split; [done|]. split; [done|].
    repeat (constructor; [first [apply sextet_value; by_division|done]|]). constructor.
  - apply Forall_cons in Hbytes as [Ha Hbytes]. apply Forall_cons in Hbytes as [Hb Hbytes].
    apply Forall_cons in Hbytes as [Hc Hrest].
    destruct (IH (length rest)) with (bytes := rest) as (sx & Hsx & Hdec & Hmod & Hfour & Hws);
      [cbn in Hlen; lia|done|done|].
    change (Base64.encode (a :: b :: c :: rest))
      with (Base64.sextet (a / 4) :: Base64.sextet ((a mod 4) * 16 + b / 16)
              :: Base64.sextet ((b mod 16) * 4 + c / 64) :: Base64.sextet (c mod 64)
              :: Base64.encode rest).
    rewrite !without_padding_sextet by by_division.
    rewrite !values_of_sextet by by_division. rewrite Hsx.
    eexists. split; [done|].
    split.
    { change (Base64.decode (?x :: ?y :: ?z :: ?t :: sx))
        with (x * 4 + y / 16 :: (y mod 16) * 16 + z / 4 :: (z mod 4) * 64 + t
                :: Base64.decode sx).
      rewrite Hdec. f_equal; [by_division|]. f_equal; [by_division|]. f_equal. by_division. }
    split.
    { cbn [length]. 
      replace (S (S (S (S (length (Base64.without_padding (Base64.encode rest)))))))
        with (length (Base64.without_padding (Base64.encode rest)) + 1 * 4)%nat by lia.
      by rewrite Nat.Div0.mod_add. }
    split.
    { cbn [length].
      replace (S (S (S (S (length (Base64.encode rest))))))
        with (length (Base64.encode rest) + 1 * 4)%nat by lia.
      by rewrite Nat.Div0.mod_add. }
    repeat (constructor; [apply sextet_value; by_division|]). done.
Qed.

Lemma filter_all {A} (f : A -> bool) (l : list A) :
  Forall (fun x => f x = true) l -> List.filter f l = l.
Proof. induction 1 as [|x l Hx _ IH]; [done|]. cbn. by rewrite Hx, IH. Qed.

(** [atob] undoes [btoa]: a text that [btoa] made is base64 text. *)
Lemma atob_btoa (binary : string) : Base64.atob (Base64.btoa binary) = Some binary.
Proof.
  unfold Base64.atob, Base64.btoa, Base64.text_of.
  rewrite list_ascii_of_string_of_list_ascii.
  set (bytes := (fun c => Z.of_nat (nat_of_ascii c)) <$> list_ascii_of_string binary).
  destruct (encode_decodes (length bytes) bytes)
    as (sextets & Hvalues & Hdecode & Hrest & Hfour & Hplain); [done| |].
  { subst bytes. apply Forall_fmap, Forall_forall. intros c _. cbn.
    pose proof (nat_ascii_bounded c). lia. }
  rewrite filter_all; [|eapply Forall_impl; [exact Hplain|]; cbn; by intros c ->].
  rewrite Hfour. cbn [Nat.eqb].
  apply Nat.eqb_neq in Hrest. rewrite Hrest, Hvalues, Hdecode.
  f_equal. subst bytes.
  rewrite <- (string_of_list_ascii_of_string binary) at 2. f_equal.
  clear. induction (list_ascii_of_string binary) as [|c cs IH]; [done|].
  cbn. rewrite Nat2Z.id, ascii_nat_embedding. by f_equal.
Qed.

Lemma btoa_is_base64 (binary : string) :
  Filesystem.isBase64String (Base64.btoa binary) = true.
Proof.
  unfold Filesystem.isBase64String. rewrite atob_btoa. apply String.eqb_refl.
Qed.

(** The bytes handed to [writeFile] are written as base64 text. *)
Lemma bytes_are_base64 (bytes : list Byte.byte) :
  Filesystem.isBase64String
    (Filesystem.without_header (written (FileSystemService.Uint8Array bytes))) = true.
Proof.
  cbn [written]. unfold FileSystemService.arrayBufferToBase64.
  rewrite without_header_base64; apply btoa_is_base64.
Qed.

End Base64Text.


(* ===================================================================== *)
(** * The file area                                                        *)
(* ===================================================================== *)

Section FileArea.

Lemma set_documents_twice (d d' : gmap string Entry) (w : World) :
  set_documents d' (set_documents d w) = set_documents d' w.
Proof. done. Qed.

Lemma in_folder_not_the_folder (dir name : string) : in_folder dir name ≠ dir.
Proof.
  intros Heq. apply (f_equal String.length) in Heq.
  unfold in_folder in Heq. rewrite !length_append in Heq. cbn in Heq. lia.
Qed.

Lemma with_folder_there (dirName : string) (docs : gmap string Entry) :
  with_folder dirName docs !! dirName = Some (default Folder (docs !! dirName)).
Proof.
  unfold with_folder. destruct (docs !! dirName) as [e|] eqn:Hentry; [done|].
  apply lookup_insert_eq.
Qed.

Lemma with_folder_other (dirName q : string) (docs : gmap string Entry) :
  q ≠ dirName -> with_folder dirName docs !! q = docs !! q.
Proof.
  intros Hq. unfold with_folder. destruct (docs !! dirName); [done|].
  by apply lookup_insert_ne.
Qed.

(** A write of the service into a folder at the top of the file area.
    The service makes the folder first; then the plugin takes the data
    only if it is base64 text.  The [recursive] option plays no part,
    because the folder is there when the plugin is called. *)
Lemma writeFile_run (w : World) (dir name : string) (data : FileSystemService.WriteData)
    (options : FileSystemService.WriteFileOptions) :
  is_name dir -> is_name name -> plain_write options ->
  FileSystemService.writeFile (in_folder dir name) data options w
  = match documents w !! in_folder dir name with
    | Some Folder =>
        (Rejected (Error "The supplied path is a directory."),
         set_documents (with_folder dir (documents w)) w)
    | _ =>
        if Filesystem.isBase64String (Filesystem.without_header (written data))
        then (Resolved ("/DOCUMENTS/" +:+ in_folder dir name),
              set_documents
                (<[in_folder dir name := File (Filesystem.without_header (written data))]>
                   (with_folder dir (documents w))) w)
        else (Rejected (Error "The supplied data is not valid base64 content."),
              set_documents (with_folder dir (documents w)) w)
    end.
Proof.
  intros Hdir Hname [Hpath Hdata].
  unfold FileSystemService.writeFile, try_catch, bind at 1.
  rewrite Hpath, Hdata. cbn [default].
  fold (Filesystem.parent (in_folder dir name)). fold (written data).
  rewrite parent_of_in_folder by done.
  assert (truthy_string dir = true) as ->.
  { destruct Hdir as [Hne _]. by destruct dir. }
  rewrite createDirectory_name by done. unfold bind.
  rewrite plugin_writeFile_run; [|done|done|].
  - cbn [documents set_documents].
    rewrite with_folder_other by apply in_folder_not_the_folder.
    destruct (documents w !! in_folder dir name) as [[|previous]|]; [done|..];
      by destruct (Filesystem.isBase64String _).
  - cbn [documents set_documents]. rewrite with_folder_there. by eexists.
Qed.

Lemma readFile_file (w : World) (path data : string) :
  documents w !! entry_key path = Some (File data) ->
  FileSystemService.readFile path FileSystemService.no_read_options w
  = (Resolved data, w).
Proof. intros Hfile. by rewrite readFile_run, Hfile. Qed.

Lemma fileExists_name (w : World) (dir : string) :
  is_name dir ->
  FileSystemService.fileExists dir w
  = (Resolved (bool_decide (is_Some (documents w !! dir))), w).
Proof. intros Hdir. apply fileExists_run; [apply Hdir|by apply clean_name]. Qed.

Lemma fileExists_in_folder (w : World) (dir name : string) :
  is_name dir -> is_name name ->
  FileSystemService.fileExists (in_folder dir name) w
  = (Resolved (bool_decide (is_Some (documents w !! in_folder dir name))), w).
Proof.
  intros Hdir Hname.
  apply fileExists_run; [by apply in_folder_not_empty|by apply clean_in_folder].
Qed.

(** X9.  Writing a file into a folder at the top of the file area.
    When the path names a folder the call rejects.  Otherwise the data
    (the text, or the base64 text of the bytes; of a data URL the part
    after the comma) must be base64 text, which the text of bytes
    always is: if it is, the call resolves
    to the path of the entry, afterwards the file exists and reading
    it gives that data, and if it is not, the call rejects and no file
    is written.  In every case the folder exists afterwards: it is
    made when nothing was stored under its name, and what was stored
    there stays, be it a file.  No other path changes, nor does the
    database, and the [recursive] option makes no difference. *)
Theorem writeFile_then_readFile (w : World) (dir name : string)
    (data : FileSystemService.WriteData) (options : FileSystemService.WriteFileOptions) :
  is_name dir -> is_name name -> plain_write options ->
  let path := in_folder dir name in
  let stored := Filesystem.without_header (written data) in
  (forall bytes : list Byte.byte,
      data = FileSystemService.Uint8Array bytes ->
      Filesystem.isBase64String stored = true)
  /\ exists (result : Settled string) (w' : World),
    FileSystemService.writeFile path data options w = (result, w')
    /\ (documents w !! path = Some Folder ->
          (exists error : JsError, result = Rejected error)
          /\ documents w' !! path = Some Folder)
    /\ (documents w !! path ≠ Some Folder ->
        Filesystem.isBase64String stored = true ->
          result = Resolved ("/DOCUMENTS/" +:+ path)
          /\ FileSystemService.readFile path FileSystemService.no_read_options w'
             = (Resolved stored, w')
          /\ FileSystemService.fileExists path w' = (Resolved true, w'))
    /\ (documents w !! path ≠ Some Folder ->
        Filesystem.isBase64String stored = false ->
          (exists error : JsError, result = Rejected error)
          /\ documents w' !! path = documents w !! path)
    /\ documents w' !! dir = Some (default Folder (documents w !! dir))
    /\ FileSystemService.fileExists dir w' = (Resolved true, w')
    /\ (forall q : string, q ≠ path -> q ≠ dir -> documents w' !! q = documents w !! q)
    /\ database w' = database w.
Proof.
  intros Hdir Hname Hplain path stored. subst path stored.
  split; [intros bytes ->; apply bytes_are_base64|].
  pose proof (in_folder_not_the_folder dir name) as Hother.
  rewrite writeFile_run by done.
  destruct (documents w !! in_folder dir name) as [[|previous]|] eqn:Hentry.
  - eexists _, _. split; [reflexivity|]. cbn [documents set_documents database].
    rewrite (fileExists_name _ dir) by done. cbn [documents set_documents].
    rewrite with_folder_there, with_folder_other by done.
    split; [by eauto|].
    split; [intros Hne; by destruct Hne|]. split; [intros Hne; by destruct Hne|].
    split; [done|].
    split; [by rewrite bool_decide_eq_true_2 by eauto|].
    split; [|done]. intros q _ Hq. by apply with_folder_other.
  - destruct (Filesystem.isBase64String _) eqn:Hbase64;
      (eexists _, _; split; [reflexivity|]);
      cbn [documents set_documents database];
      rewrite (fileExists_name _ dir) by done; cbn [documents set_documents].
    + split; [done|]. split.
      { intros _ _. split; [done|]. split.
        - apply readFile_file. rewrite entry_key_in_folder by done.
          cbn [documents set_documents]. apply lookup_insert_eq.
        - rewrite fileExists_in_folder by done. cbn [documents set_documents].
          rewrite lookup_insert_eq. by rewrite bool_decide_eq_true_2 by eauto. }
      split; [done|].
      rewrite (lookup_insert_ne _ (in_folder dir name) dir) by done.
      rewrite with_folder_there.
      split; [done|]. split; [by rewrite bool_decide_eq_true_2 by eauto|].
      split; [|done]. intros q Hq Hq'.
      rewrite lookup_insert_ne by done. by apply with_folder_other.
    + rewrite with_folder_there, with_folder_other by done.
      split; [done|]. split; [done|]. split; [by eauto|]. split; [done|].
      split; [by rewrite bool_decide_eq_true_2 by eauto|].
      split; [|done]. intros q _ Hq. by apply with_folder_other.
  - destruct (Filesystem.isBase64String _) eqn:Hbase64;
      (eexists _, _; split; [reflexivity|]);
      cbn [documents set_documents database];
      rewrite (fileExists_name _ dir) by done; cbn [documents set_documents].
    + split; [done|]. split.
      { intros _ _. split; [done|]. split.
        - apply readFile_file. rewrite entry_key_in_folder by done.
          cbn [documents set_documents]. apply lookup_insert_eq.
        - rewrite fileExists_in_folder by done. cbn [documents set_documents].
          rewrite lookup_insert_eq. by rewrite bool_decide_eq_true_2 by eauto. }
      split; [done|].
      rewrite (lookup_insert_ne _ (in_folder dir name) dir) by done.
      rewrite with_folder_there.
      split; [done|]. split; [by rewrite bool_decide_eq_true_2 by eauto|].
      split; [|done]. intros q Hq Hq'.
      rewrite lookup_insert_ne by done. by apply with_folder_other.
    + rewrite with_folder_there, with_folder_other by done.
      split; [done|]. split; [done|]. split; [by eauto|]. split; [done|].
      split; [by rewrite bool_decide_eq_true_2 by eauto|].
      split; [|done]. intros q _ Hq. by apply with_folder_other.
Qed.

End FileArea.

Section FileAreaOnly.

Variable w0 : World.

Lemma keeps_files {A} (m : Async A) :
  (forall w, files_only w (snd (m w))) -> keeps (files_only w0) m.
Proof. intros Hm w Hw. eapply files_only_trans; [exact Hw|apply Hm]. Qed.

Lemma keeps_files_stat (path : string) : keeps (files_only w0) (Filesystem.stat path).
Proof. apply keeps_files, stat_files_only. Qed.

Lemma keeps_files_mkdir (path : string) (recursive : bool) :
  keeps (files_only w0) (Filesystem.mkdir path recursive).
Proof. apply keeps_files, mkdir_files_only. Qed.

Lemma keeps_files_deleteFile (path : string) :
  keeps (files_only w0) (Filesystem.deleteFile path).
Proof. apply keeps_files, plugin_deleteFile_files_only. Qed.

Lemma keeps_files_writeFile (path data : string) (recursive : bool) :
  keeps (files_only w0) (Filesystem.writeFile path data recursive).
Proof. apply keeps_files, plugin_writeFile_files_only. Qed.

Lemma keeps_files_readFile (path : string) :
  keeps (files_only w0) (Filesystem.readFile path).
Proof. apply keeps_files, plugin_readFile_files_only. Qed.

Lemma keeps_files_createDirectory (dirName : string) :
  keeps (files_only w0) (FileSystemService.createDirectory dirName).
Proof.
  unfold FileSystemService.createDirectory.
  pose proof keeps_files_stat. pose proof keeps_files_mkdir.
  keeps_walk.
Qed.

Lemma keeps_files_service_writeFile (path : string) (data : FileSystemService.WriteData)
    (options : FileSystemService.WriteFileOptions) :
  keeps (files_only w0) (FileSystemService.writeFile path data options).
Proof.
  unfold FileSystemService.writeFile.
  pose proof keeps_files_createDirectory. pose proof keeps_files_writeFile.
  keeps_walk.
Qed.

Lemma keeps_files_fileExists (path : string) :
  keeps (files_only w0) (FileSystemService.fileExists path).
Proof.
  unfold FileSystemService.fileExists. pose proof keeps_files_stat. keeps_walk.
Qed.

Lemma keeps_files_generateThumbnail (videoPath : string) :
  keeps (files_only w0) (OfflineApiService.generateThumbnail videoPath).
Proof.
  unfold OfflineApiService.generateThumbnail.
  pose proof keeps_files_fileExists. pose proof keeps_files_service_writeFile.
  keeps_walk.
Qed.

End FileAreaOnly.

Section FileAreaTheorems.

(** X10.  [copyFile] from any path to a path in a folder at the top of
    the file area.  When the plugin fails to read the source, the call
    rejects with the error of the plugin and writes nothing.  When the
    source is a file that holds base64 text, as every file written
    through the service does, and the destination is no folder, the
    call resolves to the path of the destination's entry, the
    destination then reads as the source did, the source still reads
    the same, and the database is untouched. *)
Theorem copyFile_copies (w : World) (source dir name : string) :
  is_name dir -> is_name name ->
  let destination := in_folder dir name in
  (forall error : JsError,
      Filesystem.readFile source w = (Rejected error, w) ->
      FileSystemService.copyFile source destination w = (Rejected error, w))
  /\ (forall data : string,
        documents w !! entry_key source = Some (File data) ->
        Filesystem.isBase64String data = true ->
        documents w !! destination ≠ Some Folder ->
        exists w' : World,
          FileSystemService.copyFile source destination w
          = (Resolved ("/DOCUMENTS/" +:+ destination), w')
          /\ FileSystemService.readFile destination FileSystemService.no_read_options w'
             = (Resolved data, w')
          /\ FileSystemService.readFile source FileSystemService.no_read_options w'
             = (Resolved data, w')
          /\ database w' = database w).
Proof.
  intros Hdir Hname destination. subst destination. split.
  - intros error Hread.
    unfold FileSystemService.copyFile, FileSystemService.readFile, try_catch, bind,
      throw.
    cbn [default FileSystemService.read_path FileSystemService.no_read_options].
    by rewrite Hread.
  - intros data Hsource Hbase64 Hfile.
    pose proof (in_folder_not_the_folder dir name) as Hother.
    unfold FileSystemService.copyFile. unfold bind at 1. unfold try_catch at 1.
    unfold bind at 1.
    rewrite (readFile_file w source data Hsource). unfold ret at 1.
    rewrite writeFile_run by done. cbn [written].
    rewrite without_header_base64, Hbase64 by done.
    assert ((<[in_folder dir name := File data]> (with_folder dir (documents w)))
              !! entry_key source = Some (File data)) as Hkept.
    { destruct (decide (entry_key source = in_folder dir name)) as [->|Hne];
        [apply lookup_insert_eq|].
      rewrite lookup_insert_ne by done.
      destruct (decide (entry_key source = dir)) as [Heq|Hne'].
      - rewrite Heq in Hsource |- *. by rewrite with_folder_there, Hsource.
      - by rewrite with_folder_other. }
    destruct (documents w !! in_folder dir name) as [[|previous]|] eqn:Hentry;
      [done|..];
      (eexists; split; [reflexivity|]);
      (split; [apply readFile_file; rewrite entry_key_in_folder by done;
               apply lookup_insert_eq|]);
      (split; [by apply readFile_file|done]).
Qed.

Lemma with_folder_again (dirName : string) (docs : gmap string Entry) :
  is_Some (docs !! dirName) -> with_folder dirName docs = docs.
Proof. intros [e He]. unfold with_folder. by rewrite He. Qed.

Lemma initialize_native (w : World) :
  native w ->
  FileSystemService.initialize w
  = (Resolved tt,
     set_documents
       (with_folder "temp" (with_folder "thumbs" (with_folder "videos" (documents w)))) w).
Proof.
  intros Hnative.
  unfold FileSystemService.initialize, bind at 1, Device_getInfo.
  assert (exists p, platform w = Some p /\ FileSystemService.is_native_platform p = true)
    as (p & -> & ->) by (destruct Hnative as [-> | ->]; by eauto).
  unfold try_catch, bind. by rewrite !createDirectory_name.
Qed.

(** X11.  [FileSystemService.initialize] on a native platform always
    resolves; afterwards the three areas [videos], [thumbs] and [temp]
    exist: each is made as a folder when nothing was stored under its
    name, and what was stored there stays as it was.  No other path
    changes, the database is untouched, and a second run changes
    nothing.  On any other platform nothing is touched. *)
Theorem filesystem_initialize_creates_the_areas (w : World) :
  (native w ->
     exists w' : World,
       FileSystemService.initialize w = (Resolved tt, w')
       /\ (forall area : string,
             area ∈ areas ->
             documents w' !! area = Some (default Folder (documents w !! area))
             /\ FileSystemService.fileExists area w' = (Resolved true, w'))
       /\ (forall q : string, q ∉ areas -> documents w' !! q = documents w !! q)
       /\ database w' = database w
       /\ FileSystemService.initialize w' = (Resolved tt, w'))
  /\ (forall p : string,
        platform w = Some p -> p ≠ "android" -> p ≠ "ios" ->
        FileSystemService.initialize w = (Resolved tt, w)).
Proof.
  split.
  - intros Hnative. rewrite initialize_native by done. eexists. split; [reflexivity|].
    cbn [documents set_documents database].
    assert (forall area : string,
              area ∈ areas ->
              with_folder "temp"
                (with_folder "thumbs" (with_folder "videos" (documents w))) !! area
              = Some (default Folder (documents w !! area))) as Hareas.
    { intros area Harea. unfold areas in Harea.
      apply elem_of_cons in Harea as [->|Harea].
      { rewrite !with_folder_other by discriminate. apply with_folder_there. }
      apply elem_of_cons in Harea as [->|Harea].
      { rewrite with_folder_other by discriminate.
        rewrite with_folder_there. by rewrite with_folder_other by discriminate. }
      apply list_elem_of_singleton in Harea as ->.
      rewrite with_folder_there. by rewrite !with_folder_other by discriminate. }
    split; [|split; [|split; [done|]]].
    + intros area Harea. split; [by apply Hareas|].
      rewrite fileExists_name.
      * cbn [documents set_documents]. rewrite Hareas by done.
        by rewrite bool_decide_eq_true_2 by eauto.
      * unfold areas in Harea.
        repeat (apply elem_of_cons in Harea as [->|Harea]; [done|]).
        by apply elem_of_nil in Harea.
    + intros q Hq. unfold areas in Hq.
      rewrite !with_folder_other; [done|..]; intros ->; apply Hq;
        repeat constructor.
    + rewrite initialize_native by done. cbn [documents set_documents].
      f_equal.
      rewrite (with_folder_again "videos")
        by (rewrite Hareas; [by eauto|unfold areas; repeat constructor]).
      rewrite (with_folder_again "thumbs")
        by (rewrite Hareas; [by eauto|unfold areas; repeat constructor]).
      rewrite (with_folder_again "temp")
        by (rewrite Hareas; [by eauto|unfold areas; repeat constructor]).
      done.
  - intros p Hp Handroid Hios.
    unfold FileSystemService.initialize, bind, Device_getInfo. rewrite Hp.
    unfold FileSystemService.is_native_platform.
    apply String.eqb_neq in Handroid, Hios. by rewrite Handroid, Hios.
Qed.

(** The name of the placeholder of a video path holds no slash: it is
    made of a piece of the last piece between the slashes of the
    path. *)
Lemma includes_split (sep c : ascii) (s piece : string) :
  JsString.includes s c = false ->
  piece ∈ JsString.split sep s -> JsString.includes piece c = false.
Proof.
  revert piece. induction s as [|x s IH]; intros piece Hs.
  - cbn. by intros ->%list_elem_of_singleton.
  - cbn in Hs. apply orb_false_elim in Hs as [Hx Hs].
    cbn [JsString.split]. destruct (Ascii.eqb x sep).
    + intros [->|Hin]%elem_of_cons; [done|]. by apply IH.
    + pose proof (split_not_nil sep s) as Hnil.
      destruct (JsString.split sep s) as [|first rest]; [done|].
      intros [->|Hin]%elem_of_cons.
      * cbn. rewrite Hx. apply IH; [done|left].
      * apply IH; [done|by right].
Qed.

Lemma placeholder_is_name (videoPath : string) :
  exists name : string,
    is_name name /\ thumbnail_of videoPath = in_folder "thumbs" name.
Proof.
  set (fileName :=
         JsString.string_or (JsString.pop (JsString.split "/" videoPath)) "video").
  exists (default EmptyString (head (JsString.split "." fileName)) +:+ "_thumbnail.jpg").
  split; [|reflexivity]. split; [by apply append_not_empty|].
  rewrite includes_append. apply orb_false_intro; [|reflexivity].
  assert (JsString.includes fileName "/" = false) as Hfile.
  { subst fileName. unfold JsString.string_or, JsString.pop.
    destruct (last (JsString.split "/" videoPath)) as [piece|] eqn:Hlast; [|done].
    destruct (truthy_string piece); [|done].
    apply (split_pieces "/" videoPath). by apply last_Some_elem_of. }
  pose proof (split_not_nil "." fileName) as Hnil.
  destruct (JsString.split "." fileName) as [|first rest] eqn:Hsplit; [done|].
  cbn. apply (includes_split "." "/" fileName); [done|]. rewrite Hsplit. left.
Qed.

(** [generateThumbnail] always resolves to the path of the
    placeholder: it is there already, or it is written, an empty file
    being base64 text. *)
Lemma generateThumbnail_run (w : World) (videoPath : string) :
  OfflineApiService.generateThumbnail videoPath w
  = (Resolved (Some (thumbnail_of videoPath)),
     match documents w !! thumbnail_of videoPath with
     | Some _ => w
     | None =>
         set_documents
           (<[thumbnail_of videoPath := File EmptyString]>
              (with_folder "thumbs" (documents w))) w
     end).
Proof.
  destruct (placeholder_is_name videoPath) as (name & Hname & Hpath).
  unfold OfflineApiService.generateThumbnail, try_catch, bind at 1.
  fold (thumbnail_of videoPath). rewrite Hpath.
  rewrite fileExists_in_folder by done.
  destruct (documents w !! in_folder "thumbs" name) as [e|] eqn:Hentry.
  - by rewrite bool_decide_eq_true_2 by eauto.
  - rewrite bool_decide_eq_false_2 by (by intros [? ?]).
    unfold bind. rewrite writeFile_run; [|done|done|done]. by rewrite Hentry.
Qed.

(** X12.  [generateThumbnail] never rejects and touches nothing but the
    file area.  When a placeholder for the video path is already
    there, it is returned and nothing changes; when it is not and its
    path can be written, an empty file is written there and its path
    returned. *)
Theorem generateThumbnail_makes_a_placeholder (w : World) (videoPath : string) :
  (exists (result : option string) (w' : World),
      OfflineApiService.generateThumbnail videoPath w = (Resolved result, w')
      /\ files_only w w')
  /\ (is_Some (documents w !! thumbnail_of videoPath) ->
      OfflineApiService.generateThumbnail videoPath w
      = (Resolved (Some (thumbnail_of videoPath)), w))
  /\ (documents w !! thumbnail_of videoPath = None ->
      writable (documents w) (thumbnail_of videoPath) = true ->
      exists w' : World,
        OfflineApiService.generateThumbnail videoPath w
        = (Resolved (Some (thumbnail_of videoPath)), w')
        /\ documents w' !! thumbnail_of videoPath = Some (File EmptyString)).
Proof.
  rewrite generateThumbnail_run. split; [|split].
  - eexists _, _. split; [reflexivity|].
    destruct (documents w !! thumbnail_of videoPath);
      [apply files_only_refl|apply files_only_set, files_only_refl].
  - by intros [e ->].
  - intros -> _. eexists. split; [reflexivity|]. apply lookup_insert_eq.
Qed.

End FileAreaTheorems.

(* ===================================================================== *)
(** * Videos and their files                                               *)
(* ===================================================================== *)

Section VideoFiles.

Lemma stored_video_row (db : Database) (id : Z) (v : Video.t) :
  stored_video db id = Some v ->
  exists r : Row,
    videos db !! id = Some r /\ v = SQLiteService.mapVideoResult (Sql.select_row id r).
Proof.
  unfold stored_video. destruct (videos db !! id) as [r|]; [|done].
  intros [= <-]. by eauto.
Qed.

Lemma truthy_thumbnail_of (videoPath : string) :
  truthy_string (thumbnail_of videoPath) = true.
Proof. reflexivity. Qed.

(** X13.  The facade's [createVideo] for a stored profile.  Without a
    file path it is the store's [createVideo].  With one, the
    placeholder thumbnail of the path is written unless it is there,
    and the record is stored with the placeholder as its
    [thumbnailPath], whatever thumbnail path the caller supplied; the
    profiles are as before.  The call returns that input with an [id]
    that is [undefined]. *)
Theorem createVideo_attaches_the_thumbnail (w : World) (video : VideoData.t) :
  offline_isInitialized w = true ->
  connection_open w = true ->
  is_Some (profiles (database w) !! VideoData.profileId video) ->
  (string_or_null (VideoData.filePath video) = None ->
     OfflineApiService.createVideo video w = SQLiteService.createVideo video w)
  /\ (forall filePath : string,
        string_or_null (VideoData.filePath video) = Some filePath ->
        let attached :=
          OfflineApiService.with_thumbnailPath video (Some (thumbnail_of filePath)) in
        exists w' : World,
          OfflineApiService.createVideo video w
          = (Resolved (SQLiteService.mkCreated JsUndefined attached), w')
          /\ stored_video (database w') (videos_seq (database w) + 1)
             = Some (video_as_stored (videos_seq (database w) + 1) attached)
          /\ documents w' !! thumbnail_of filePath
             = Some (default (File EmptyString) (documents w !! thumbnail_of filePath))
          /\ profiles (database w') = profiles (database w)).
Proof.
  intros Hinit Hopen Hprofile. split.
  - intros Hnone. unfold OfflineApiService.createVideo, bind at 1.
    rewrite ensureInitialized_done by done. unfold bind at 1. by rewrite Hnone.
  - intros filePath Hpath attached. subst attached.
    pose proof (generateThumbnail_run w filePath) as Hrun.
    set (w1 := match documents w !! thumbnail_of filePath with
               | Some _ => w
               | None =>
                   set_documents
                     (<[thumbnail_of filePath := File EmptyString]>
                        (with_folder "thumbs" (documents w))) w
               end) in Hrun.
    assert (database w1 = database w /\ connection_open w1 = true) as [Hdb Hopen1]
      by (subst w1; by destruct (documents w !! thumbnail_of filePath)).
    assert (documents w1 !! thumbnail_of filePath
            = Some (default (File EmptyString) (documents w !! thumbnail_of filePath)))
      as Hthere.
    { subst w1. destruct (documents w !! thumbnail_of filePath) as [e|] eqn:Hentry;
        [done|apply lookup_insert_eq]. }
    destruct (createVideo_inserts w1
                (OfflineApiService.with_thumbnailPath video (Some (thumbnail_of filePath))))
      as (db' & Hinsert & Hnew & _ & Hprofiles); [done|by rewrite Hdb|].
    rewrite Hdb in Hnew, Hprofiles.
    exists (set_database db' w1).
    split; [|split; [exact Hnew|split; [exact Hthere|exact Hprofiles]]].
    unfold OfflineApiService.createVideo, bind at 1.
    rewrite ensureInitialized_done by done. unfold bind at 1. rewrite Hpath.
    unfold try_catch, bind at 1. rewrite Hrun.
    cbn [string_or_null]. rewrite truthy_thumbnail_of. unfold ret at 1.
    exact Hinsert.
Qed.

(** Taking entries away leaves no folder with more in it. *)
Lemma has_entries_fewer (path : string) (docs docs' : gmap string Entry) (w : World) :
  (forall q : string, docs' !! q = None \/ docs' !! q = docs !! q) ->
  Filesystem.has_entries path (set_documents docs w) = false ->
  Filesystem.has_entries path (set_documents docs' w) = false.
Proof.
  intros Hfewer. unfold Filesystem.has_entries. cbn [documents set_documents].
  intros Hnone%negb_false_iff%bool_decide_eq_true_1.
  apply negb_false_iff, bool_decide_eq_true_2.
  intros k e Hentry. apply (Hnone k e).
  destruct (Hfewer k) as [Hgone|Hsame]; congruence.
Qed.

(** What the guarded deletion does to the file area. *)
Lemma delete_if_set_run (w : World) (path : option string) :
  exists docs' : gmap string Entry,
    OfflineApiService.delete_if_set path w = (Resolved tt, set_documents docs' w)
    /\ (forall q : string,
          (forall p, path = Some p -> entry_key p ≠ q) -> docs' !! q = documents w !! q)
    /\ (forall q : string, docs' !! q = None \/ docs' !! q = documents w !! q)
    /\ (forall p : string,
          path = Some p -> truthy_string p = true ->
          Filesystem.has_entries (Filesystem.getPath p) w = false ->
          docs' !! entry_key p = None).
Proof.
  assert (forall P : Prop,
            P ->
            exists docs' : gmap string Entry,
              (Resolved tt, w) = (Resolved tt, set_documents docs' w)
              /\ (forall q : string,
                    (forall p, path = Some p -> entry_key p ≠ q) ->
                    docs' !! q = documents w !! q)
              /\ (forall q : string, docs' !! q = None \/ docs' !! q = documents w !! q)
              /\ docs' = documents w) as Hnothing.
  { intros P _. exists (documents w). rewrite set_documents_same.
    split; [done|]. split; [done|]. split; [by right|done]. }
  unfold OfflineApiService.delete_if_set.
  destruct path as [p|].
  2:{ destruct (Hnothing True I) as (docs' & Hrun & Hother & Hless & _).
      exists docs'. by repeat split. }
  destruct (truthy_string p) eqn:Htruthy.
  2:{ destruct (Hnothing True I) as (docs' & Hrun & Hother & Hless & _).
      exists docs'. repeat split; try done. intros p' [= <-]. congruence. }
  unfold try_catch at 1. rewrite deleteFile_run.
  destruct (documents w !! entry_key p) as [e|] eqn:Hentry.
  - destruct (Filesystem.has_entries (Filesystem.getPath p) w) eqn:Hentries.
    + destruct (Hnothing True I) as (docs' & Hrun & Hother & Hless & _).
      exists docs'. repeat split; try done. intros p' [= <-]. congruence.
    + exists (delete (entry_key p) (documents w)). split; [done|]. split; [|split].
      * intros q Hq. apply lookup_delete_ne. by apply Hq.
      * intros q. destruct (decide (entry_key p = q)) as [<-|Hne].
        -- left. apply lookup_delete_eq.
        -- right. by apply lookup_delete_ne.
      * intros p' [= <-] _ _. apply lookup_delete_eq.
  - destruct (Hnothing True I) as (docs' & Hrun & Hother & Hless & Hsame).
    exists docs'. repeat split; try done. intros p' [= <-] _ _. by rewrite Hsame.
Qed.

(** X14.  The facade's [deleteVideo] on a stored video removes the
    record and resolves to [false]: the number of deleted rows is not
    where the service looks for it in the plugin's result.  The entry
    of the video's file and the entry of its thumbnail are deleted
    from the file area, each unless an entry lies in it; nothing is
    added to the file area, no other path changes, and the other
    videos and all profiles stay as they were. *)
Theorem deleteVideo_removes_the_files (w : World) (id : Z) (v : Video.t) :
  offline_isInitialized w = true ->
  connection_open w = true ->
  stored_video (database w) id = Some v ->
  exists w' : World,
    OfflineApiService.deleteVideo id w = (Resolved false, w')
    /\ stored_video (database w') id = None
    /\ (forall p : string,
          Video.filePath v = Some p \/ Video.thumbnailPath v = Some p ->
          truthy_string p = true ->
          Filesystem.has_entries (Filesystem.getPath p) w = false ->
          documents w' !! entry_key p = None)
    /\ (forall q : string,
          documents w' !! q = None \/ documents w' !! q = documents w !! q)
    /\ (forall q : string,
          (forall p : string,
              Video.filePath v = Some p \/ Video.thumbnailPath v = Some p ->
              entry_key p ≠ q) ->
          documents w' !! q = documents w !! q)
    /\ (forall other : Z, other ≠ id ->
          stored_video (database w') other = stored_video (database w) other)
    /\ profiles (database w') = profiles (database w).
Proof.
  intros Hinit Hopen Hstored.
  destruct (stored_video_row _ _ _ Hstored) as (r & Hrow & _).
  destruct (delete_if_set_run w (Video.filePath v))
    as (docs1 & Hrun1 & Hother1 & Hless1 & Hgone1).
  destruct (delete_if_set_run (set_documents docs1 w) (Video.thumbnailPath v))
    as (docs2 & Hrun2 & Hother2 & Hless2 & Hgone2).
  cbn [documents set_documents] in Hother2, Hless2, Hgone2.
  rewrite set_documents_twice in Hrun2.
  exists (set_database
            {| profiles := profiles (database w);
               profiles_seq := profiles_seq (database w);
               videos := delete id (videos (database w));
               videos_seq := videos_seq (database w) |}
            (set_documents docs2 w)).
  split.
  { unfold OfflineApiService.deleteVideo, SQLiteService.deleteVideo, bind.
    rewrite ensureInitialized_done by done.
    rewrite getVideo_open by done. rewrite Hstored, Hrun1, Hrun2.
    rewrite run_open by done. unfold Sql.delete_video.
    cbn [database set_documents]. rewrite Hrow. reflexivity. }
  cbn [database documents set_database set_documents videos profiles].
  split; [unfold stored_video; cbn [videos]; by rewrite lookup_delete_eq|].
  split; [|split; [|split; [|split; [|done]]]].
  - intros p Hp Htruthy Hentries.
    destruct (decide (Video.filePath v = Some p)) as [Hfirst|Hnot].
    + pose proof (Hgone1 p Hfirst Htruthy Hentries) as Hnone.
      destruct (Hless2 (entry_key p)) as [Hdone|Hsame]; [done|congruence].
    + destruct Hp as [Hp|Hp]; [done|].
      apply (Hgone2 p Hp Htruthy).
      apply (has_entries_fewer _ (documents w)); [done|].
      by rewrite set_documents_same.
  - intros q. destruct (Hless2 q) as [Hnone|Hsame]; [by left|].
    rewrite Hsame. apply Hless1.
  - intros q Hq. rewrite Hother2, Hother1; [done|..]; intros p Hp; apply Hq; auto.
  - intros other Hne. unfold stored_video. cbn [videos].
    by rewrite lookup_delete_ne.
Qed.

Lemma foreign_key_ok_file_attached (db : Database) (filePath : string)
    (thumbnailPath : option string) :
  Sql.foreign_key_ok db
    (SQLiteService.video_fields (OfflineApiService.file_attached filePath thumbnailPath))
  = true.
Proof. by rewrite foreign_key_ok_video_fields. Qed.

(** X15.  [uploadVideoFile] never rejects.  For an id that names no
    stored video it resolves to [false] and changes nothing.  For a
    stored video that has a thumbnail: a path under [videos/] is
    attached as it is and no file is touched; any other path whose
    last piece is a name is copied to [videos/] under that name
    first, and the copy is what gets attached.  The copy needs a
    source that holds base64 text, as every file written through the
    service does: when there is nothing to copy the call resolves to
    [false] and changes nothing, and when the source holds other text
    the call resolves to [false] with nothing attached.  Attaching
    sets [filePath] and [isFileUploaded] and leaves the other
    fields. *)
Theorem uploadVideoFile_attaches_the_file (w : World) (videoId : Z) (filePath : string) :
  offline_isInitialized w = true ->
  connection_open w = true ->
  (exists (attached : bool) (w' : World),
      OfflineApiService.uploadVideoFile videoId filePath w = (Resolved attached, w'))
  /\ (stored_video (database w) videoId = None ->
      OfflineApiService.uploadVideoFile videoId filePath w = (Resolved false, w))
  /\ (forall (v : Video.t) (thumbnailPath : string),
        stored_video (database w) videoId = Some v ->
        string_or_null (Video.thumbnailPath v) = Some thumbnailPath ->
        (JsString.startsWith filePath "videos/" = true ->
         exists w' : World,
           OfflineApiService.uploadVideoFile videoId filePath w = (Resolved true, w')
           /\ stored_video (database w') videoId
              = Some (patch_video
                        (OfflineApiService.file_attached filePath (Some thumbnailPath)) v)
           /\ documents w' = documents w)
        /\ (JsString.startsWith filePath "videos/" = false ->
            documents w !! entry_key filePath = None ->
            OfflineApiService.uploadVideoFile videoId filePath w = (Resolved false, w))
        /\ (forall name data : string,
              JsString.startsWith filePath "videos/" = false ->
              JsString.pop (JsString.split "/" filePath) = Some name ->
              name <> EmptyString ->
              documents w !! entry_key filePath = Some (File data) ->
              documents w !! in_folder "videos" name ≠ Some Folder ->
              (Filesystem.isBase64String data = true ->
               exists w' : World,
                 OfflineApiService.uploadVideoFile videoId filePath w
                 = (Resolved true, w')
                 /\ stored_video (database w') videoId
                    = Some (patch_video
                              (OfflineApiService.file_attached
                                 (in_folder "videos" name) (Some thumbnailPath))
                              v)
                 /\ documents w' !! in_folder "videos" name = Some (File data)
                 /\ documents w' !! "videos"
                    = Some (default Folder (documents w !! "videos"))
                 /\ (forall q : string,
                       q ≠ in_folder "videos" name -> q ≠ "videos" ->
                       documents w' !! q = documents w !! q))
              /\ (Filesystem.isBase64String (Filesystem.without_header data) = false ->
                  exists w' : World,
                    OfflineApiService.uploadVideoFile videoId filePath w
                    = (Resolved false, w')
                    /\ database w' = database w
                    /\ documents w' = with_folder "videos" (documents w)))).
Proof.
  intros Hinit Hopen. split; [|split].
  - unfold OfflineApiService.uploadVideoFile, bind at 1.
    rewrite ensureInitialized_done by done. unfold try_catch.
    match goal with |- context [match ?m with _ => _ end] => destruct m as [[r|e] w1] end;
      by eauto.
  - intros Hnone. unfold OfflineApiService.uploadVideoFile, bind at 1.
    rewrite ensureInitialized_done by done. unfold try_catch, bind at 1.
    rewrite getVideo_open by done. by rewrite Hnone.
  - intros v thumbnailPath Hstored Hthumb.
    destruct (stored_video_row _ _ _ Hstored) as (r & Hrow & Hv).
    split; [|split].
    + intros Hunder.
      destruct (updateVideo_patches w videoId
                  (OfflineApiService.file_attached filePath (Some thumbnailPath)) r
                  Hopen Hrow (foreign_key_ok_file_attached _ _ _))
        as (db' & Hrun & Hread & _).
      exists (set_database db' w). split; [|split; [|done]].
      * unfold OfflineApiService.uploadVideoFile, bind at 1.
        rewrite ensureInitialized_done by done. unfold try_catch, bind at 1.
        rewrite getVideo_open by done. rewrite Hstored, Hunder. cbn [negb].
        unfold bind at 1, ret at 1. rewrite Hthumb.
        unfold bind at 1, ret at 1. unfold bind. by rewrite Hrun.
      * cbn [database set_database]. rewrite Hread, decide_True by done.
        by rewrite Hv.
    + intros Houtside Habsent.
      unfold OfflineApiService.uploadVideoFile, bind at 1.
      rewrite ensureInitialized_done by done. unfold try_catch at 1, bind at 1.
      rewrite getVideo_open by done. rewrite Hstored, Houtside. cbn [negb].
      unfold bind at 1. unfold bind at 1. unfold Date_now at 1.
      unfold bind at 1. by rewrite readFile_run, Habsent.
    + intros name data Houtside Hlast Hne Hfile Hfree.
      assert (is_name "videos") as Hvideos by done.
      assert (is_name name) as Hname.
      { split; [done|]. apply (split_pieces "/" filePath).
        by apply last_Some_elem_of. }
      assert (truthy_string name = true) as Htruthy by (by destruct name).
      assert (OfflineApiService.uploadVideoFile videoId filePath w
              = try_catch
                  (bind (FileSystemService.writeFile (in_folder "videos" name)
                           (FileSystemService.Text data)
                           FileSystemService.no_write_options)
                     (fun _ =>
                        bind (SQLiteService.updateVideo videoId
                                (OfflineApiService.file_attached
                                   (in_folder "videos" name) (Some thumbnailPath)))
                             (fun _ => ret true)))
                  (fun _ => ret false) w) as ->.
      { unfold OfflineApiService.uploadVideoFile, bind at 1.
        rewrite ensureInitialized_done by done. unfold try_catch at 1, bind at 1.
        rewrite getVideo_open by done. rewrite Hstored, Houtside. cbn [negb].
        unfold bind at 1. unfold bind at 1. unfold Date_now at 1.
        unfold JsString.pop in Hlast. unfold JsString.pop. rewrite Hlast.
        unfold JsString.string_or. rewrite Htruthy.
        unfold bind at 1. rewrite (readFile_file w filePath data Hfile).
        change ("videos/" +:+ name) with (in_folder "videos" name).
        unfold try_catch, bind at 1. unfold bind at 3.
        destruct (FileSystemService.writeFile _ _ _ w) as [[uri|error] w1]; [|done].
        unfold ret at 1. rewrite Hthumb. unfold bind at 1, ret at 1. done. }
      assert (exists e, documents w !! in_folder "videos" name = e /\ e ≠ Some Folder)
        as (e & He & Hnot) by eauto.
      split.
      * intros Hbase64.
        unfold try_catch, bind at 1. rewrite writeFile_run by done. cbn [written].
        rewrite without_header_base64, Hbase64 by done.
        set (docs' := <[in_folder "videos" name := File data]>
                        (with_folder "videos" (documents w))).
        destruct (updateVideo_patches (set_documents docs' w) videoId
                    (OfflineApiService.file_attached
                       (in_folder "videos" name) (Some thumbnailPath)) r
                    Hopen Hrow (foreign_key_ok_file_attached _ _ _))
          as (db' & Hrun & Hread & _).
        exists (set_database db' (set_documents docs' w)).
        split.
        { rewrite He. destruct e as [[|previous]|]; [done|..];
            unfold bind; by rewrite Hrun. }
        cbn [database documents set_database set_documents].
        split; [rewrite Hread, decide_True by done; by rewrite Hv|].
        subst docs'. split; [apply lookup_insert_eq|]. split.
        -- rewrite lookup_insert_ne by apply in_folder_not_the_folder.
           apply with_folder_there.
        -- intros q Hq Hq'. rewrite lookup_insert_ne by done.
           by apply with_folder_other.
      * intros Hbase64.
        unfold try_catch, bind at 1. rewrite writeFile_run by done. cbn [written].
        rewrite Hbase64, He.
        eexists. split; [by destruct e as [[|previous]|]|]. done.
Qed.

End VideoFiles.

(* ===================================================================== *)
(** * The mode switch and the requests                                     *)
(* ===================================================================== *)

Section Mode.

(** X16.  [setOfflineMode] followed by [isOfflineMode].  With a working
    preference store the mode read afterwards is offline exactly when
    the mode was forced, or enabled on a native platform: in a browser
    enabling without forcing has no effect.  When the preference store
    fails, [setOfflineMode] resolves all the same and changes nothing,
    and the mode reads online. *)
Theorem setOfflineMode_then_isOfflineMode (w : World) (enabled forced : bool) :
  (preferences_available w = true ->
     exists w' : World,
       ApiSwitcher.setOfflineMode enabled forced w = (Resolved tt, w')
       /\ ApiSwitcher.isOfflineMode w'
          = (Resolved (forced || enabled && native_platform w), w')
       /\ database w' = database w /\ documents w' = documents w)
  /\ (preferences_available w = false ->
        ApiSwitcher.setOfflineMode enabled forced w = (Resolved tt, w)
        /\ ApiSwitcher.isOfflineMode w = (Resolved false, w)).
Proof.
  split.
  - intros Havailable.
    unfold ApiSwitcher.setOfflineMode, try_catch, Preferences.set. rewrite Havailable.
    eexists. split; [reflexivity|]. split; [|done].
    rewrite isOfflineMode_run. do 2 f_equal. unfold offline_mode.
    cbn [preferences preferences_available set_preferences]. rewrite Havailable.
    rewrite lookup_insert_eq. cbn [andb].
    change (native_platform (set_preferences _ w)) with (native_platform w).
    destruct forced, enabled, (native_platform w); reflexivity.
  - intros Hbroken. split.
    + unfold ApiSwitcher.setOfflineMode, try_catch, Preferences.set.
      by rewrite Hbroken.
    + rewrite isOfflineMode_run. unfold offline_mode. by rewrite Hbroken.
Qed.

End Mode.

Section Routing.
Variable API_BASE_URL : string.
Variable T : Type.
Variable fetch : string -> Settled (Response T).

(** X17.  How [apiRequest] routes a request.  In offline mode the
    network is not consulted: the result is the handler's, and without
    a handler the call rejects.  In online mode the request goes to
    the development URL on a native platform and to the API base URL
    elsewhere; a response that is ok resolves to its JSON body and
    changes nothing, and without a handler a failure reaches the
    caller: the error [fetch] threw, or the status line and the body
    of a response that is not ok. *)
Theorem apiRequest_routes (endpoint : string) (w : World) :
  (offline_mode w = true ->
     (forall handler : Async T,
         ApiSwitcher.apiRequest API_BASE_URL T fetch endpoint (Some handler) w = handler w)
     /\ ApiSwitcher.apiRequest API_BASE_URL T fetch endpoint None w
        = (Rejected (Error "Offline mode active but no offline handler provided"), w))
  /\ (offline_mode w = false ->
      forall url : string,
        url = (if native_platform w then ApiSwitcher.CAPACITOR_DEV_URL else API_BASE_URL)
              +:+ endpoint ->
        (forall (response : Response T) (handler : option (Async T)),
            fetch url = Resolved response -> ok response = true ->
            forall value : T,
              json response = Resolved value ->
              ApiSwitcher.apiRequest API_BASE_URL T fetch endpoint handler w
              = (Resolved value, w))
        /\ (forall error : JsError,
              fetch url = Rejected error ->
              ApiSwitcher.apiRequest API_BASE_URL T fetch endpoint None w
              = (Rejected error, w))
        /\ (forall response : Response T,
              fetch url = Resolved response -> ok response = false ->
              ApiSwitcher.apiRequest API_BASE_URL T fetch endpoint None w
              = (Rejected (ApiSwitcher.api_request_failed T response), w))).
Proof.
  split.
  - intros Hoffline. split; [intros handler|];
      unfold ApiSwitcher.apiRequest, bind; by rewrite isOfflineMode_run, Hoffline.
  - intros Honline url ->.
    assert (forall handler : option (Async T),
              ApiSwitcher.apiRequest API_BASE_URL T fetch endpoint handler w
              = try_catch
                  (bind (fun w0 : World =>
                           (fetch ((if native_platform w
                                    then ApiSwitcher.CAPACITOR_DEV_URL
                                    else API_BASE_URL) +:+ endpoint), w0))
                        (fun response =>
                           if negb (ok response)
                           then throw (ApiSwitcher.api_request_failed T response)
                           else fun w0 => (json response, w0)))
                  (fun error =>
                     match handler with
                     | Some handler =>
                         bind (ApiSwitcher.setOfflineMode true false) (fun _ => handler)
                     | None => throw error
                     end) w) as Hrun.
    { intros handler. unfold ApiSwitcher.apiRequest, bind at 1.
      rewrite isOfflineMode_run, Honline. unfold bind at 1.
      rewrite getApiBaseUrl_run, Honline. reflexivity. }
    split; [|split].
    + intros response handler Hfetch Hok value Hjson. rewrite Hrun.
      unfold try_catch, bind. by rewrite Hfetch, Hok, Hjson.
    + intros error Hfetch. rewrite Hrun. unfold try_catch, bind. by rewrite Hfetch.
    + intros response Hfetch Hok. rewrite Hrun. unfold try_catch, bind.
      by rewrite Hfetch, Hok.
Qed.

End Routing.

(* ===================================================================== *)
(** * Starting the app and coming back to it                               *)
(* ===================================================================== *)

Section Starting.

Lemma createTables_open (w : World) :
  connection_open w = true -> SQLiteService.createTables w = (Resolved tt, w).
Proof.
  intros Hopen. unfold SQLiteService.createTables, try_catch, bind.
  rewrite !run_open by done. cbn [fst snd]. by rewrite !set_database_same.
Qed.

(** In a browser [SQLiteService.initialize] opens the store unless the
    plugin fails. *)
Lemma sqlite_initialize_web (w : World) :
  platform w = Some "web" ->
  _isInitialized w = false ->
  web_fault w = None ->
  SQLiteService.initialize w
  = (Resolved tt,
     set__isInitialized true (set_connection_open true (set_jeep_sqlite true w))).
Proof.
  intros Hplatform Hflag Hfault.
  unfold SQLiteService.initialize. rewrite Hflag.
  unfold try_catch at 1, bind at 1, Device_getInfo. rewrite Hplatform.
  cbn [String.eqb Ascii.eqb Bool.eqb negb].
  unfold bind at 1, SQLiteService.initializeWeb, try_catch at 1, bind at 1.
  unfold SQLiteService.sqlite_initWebStore, SQLiteService.sqlite_createConnection,
    SQLiteService.db_open, bind at 1.
  unfold web_fault in Hfault.
  destruct w as [now device stored available docs db opened started offline jeep
                 [webStore connection opening]].
  cbn in *. destruct jeep, webStore, connection, opening; try done;
    cbn; by rewrite createTables_open.
Qed.

Lemma sqlite_initialize_web_fault (w : World) (error : JsError) :
  platform w = Some "web" ->
  _isInitialized w = false ->
  web_fault w = Some error ->
  exists w' : World,
    SQLiteService.initialize w = (Rejected error, w')
    /\ files_only (set_jeep_sqlite (jeep_sqlite w') w) w'
    /\ documents w' = documents w.
Proof.
  intros Hplatform Hflag Hfault.
  unfold SQLiteService.initialize. rewrite Hflag.
  unfold try_catch at 1, bind at 1, Device_getInfo. rewrite Hplatform.
  cbn [String.eqb Ascii.eqb Bool.eqb negb].
  unfold bind at 1, SQLiteService.initializeWeb, try_catch at 1, bind at 1.
  unfold SQLiteService.sqlite_initWebStore, SQLiteService.sqlite_createConnection,
    SQLiteService.db_open, bind at 1, throw.
  unfold web_fault in Hfault.
  destruct w as [now device stored available docs db opened started offline jeep
                 [webStore connection opening]].
  cbn in *.
  destruct jeep, webStore, connection, opening; simplify_eq; cbn;
    (eexists; split; [reflexivity|]); (split; [apply files_only_refl|done]).
Qed.

(** On every other platform it rejects and changes nothing: the call
    of [isDatabase] is made with an object. *)
Lemma sqlite_initialize_native (w : World) (p : string) :
  platform w = Some p -> p ≠ "web" ->
  _isInitialized w = false ->
  exists error : JsError, SQLiteService.initialize w = (Rejected error, w).
Proof.
  intros Hplatform Hnative%String.eqb_neq Hflag.
  unfold SQLiteService.initialize. rewrite Hflag.
  unfold try_catch at 1, bind at 1, Device_getInfo. rewrite Hplatform, Hnative.
  cbn [negb]. by eexists.
Qed.

Lemma sqlite_initialize_no_device (w : World) (error : JsError) :
  Device_getInfo w = (Rejected error, w) ->
  _isInitialized w = false ->
  SQLiteService.initialize w = (Rejected error, w).
Proof.
  intros Hdevice Hflag. unfold SQLiteService.initialize. rewrite Hflag.
  unfold try_catch, bind, throw. by rewrite Hdevice.
Qed.

Lemma filesystem_initialize_web (w : World) :
  platform w = Some "web" -> FileSystemService.initialize w = (Resolved tt, w).
Proof.
  intros Hplatform. unfold FileSystemService.initialize, bind, Device_getInfo.
  by rewrite Hplatform.
Qed.

Lemma offline_initialize_web (w : World) :
  platform w = Some "web" ->
  offline_isInitialized w = false ->
  _isInitialized w = false ->
  web_fault w = None ->
  OfflineApiService.initialize w
  = (Resolved tt,
     set_offline_isInitialized true
       (set__isInitialized true (set_connection_open true (set_jeep_sqlite true w)))).
Proof.
  intros Hplatform Hoffline Hflag Hfault.
  unfold OfflineApiService.initialize. rewrite Hoffline. unfold bind.
  rewrite sqlite_initialize_web by done.
  by rewrite filesystem_initialize_web.
Qed.

(** X18.  [OfflineApiService.initialize] on a service that was never
    initialized.  In a browser, when the SQLite plugin does not fail,
    the call resolves, the store's connection is open and both
    services are marked initialized, the database and the file area
    are what they were, and a second call changes nothing; when the
    plugin fails, the call rejects with the plugin's error and marks
    nothing.  On every other platform, Android and iOS among them, the
    call rejects and changes nothing: the store asks the plugin
    whether the database exists with an object where the plugin takes
    the name.  When [Device.getInfo()] rejects, the call rejects with
    the same error.  After a rejection a later call tries again. *)
Theorem offline_initialize_opens_the_store (w : World) :
  offline_isInitialized w = false ->
  _isInitialized w = false ->
  (platform w = Some "web" ->
     (web_fault w = None ->
        exists w' : World,
          OfflineApiService.initialize w = (Resolved tt, w')
          /\ connection_open w' = true
          /\ _isInitialized w' = true
          /\ offline_isInitialized w' = true
          /\ database w' = database w
          /\ documents w' = documents w
          /\ OfflineApiService.initialize w' = (Resolved tt, w'))
     /\ (forall error : JsError,
           web_fault w = Some error ->
           exists w' : World,
             OfflineApiService.initialize w = (Rejected error, w')
             /\ connection_open w' = connection_open w
             /\ _isInitialized w' = false
             /\ offline_isInitialized w' = false
             /\ database w' = database w
             /\ documents w' = documents w))
  /\ (forall p : string,
        platform w = Some p -> p ≠ "web" ->
        exists error : JsError, OfflineApiService.initialize w = (Rejected error, w))
  /\ (forall error : JsError,
        Device_getInfo w = (Rejected error, w) ->
        OfflineApiService.initialize w = (Rejected error, w)).
Proof.
  intros Hoffline Hflag. split; [|split].
  - intros Hplatform. split.
    + intros Hfault. rewrite offline_initialize_web by done.
      eexists. split; [reflexivity|]. by cbn.
    + intros error Hfault.
      destruct (sqlite_initialize_web_fault w error Hplatform Hflag Hfault)
        as (w' & Hrun & (docs & Hw') & Hdocs).
      exists w'. split.
      { unfold OfflineApiService.initialize. rewrite Hoffline. unfold bind.
        by rewrite Hrun. }
      rewrite Hw' in Hdocs |- *. cbn in *. by rewrite Hdocs.
  - intros p Hplatform Hnative.
    destruct (sqlite_initialize_native w p Hplatform Hnative Hflag) as (error & Hrun).
    exists error. unfold OfflineApiService.initialize. rewrite Hoffline.
    unfold bind. by rewrite Hrun.
  - intros error Hdevice. unfold OfflineApiService.initialize. rewrite Hoffline.
    unfold bind. by rewrite (sqlite_initialize_no_device w error).
Qed.

(** X19.  [onAppForeground] never rejects.  When the store is not
    marked initialized it tries to open it: in a browser, when the
    SQLite plugin does not fail, the connection is open afterwards and
    the store marked initialized, the database and the file area being
    what they were; when the plugin fails, on every other platform and
    when the device does not answer, the failure is swallowed and the
    store stays as it was, not marked initialized. *)
Theorem onAppForeground_opens_an_unopened_store (w : World) :
  _isInitialized w = false ->
  (platform w = Some "web" ->
     (web_fault w = None ->
        exists w' : World,
          OfflineApp.onAppForeground w = (Resolved tt, w')
          /\ connection_open w' = true
          /\ _isInitialized w' = true
          /\ database w' = database w
          /\ documents w' = documents w)
     /\ (is_Some (web_fault w) ->
           exists w' : World,
             OfflineApp.onAppForeground w = (Resolved tt, w')
             /\ connection_open w' = connection_open w
             /\ _isInitialized w' = false
             /\ database w' = database w
             /\ documents w' = documents w))
  /\ (forall p : string,
        platform w = Some p -> p ≠ "web" ->
        OfflineApp.onAppForeground w = (Resolved tt, w))
  /\ (platform w = None -> OfflineApp.onAppForeground w = (Resolved tt, w)).
Proof.
  intros Hflag. split; [|split].
  - intros Hplatform. split.
    + intros Hfault. eexists. split.
      { unfold OfflineApp.onAppForeground, try_catch, bind, OfflineApp.isInitialized.
        rewrite Hflag. cbn [negb].
        rewrite sqlite_initialize_web by done. reflexivity. }
      done.
    + intros [error Hfault].
      destruct (sqlite_initialize_web_fault w error Hplatform Hflag Hfault)
        as (w' & Hrun & (docs & Hw') & Hdocs).
      exists w'. split.
      { unfold OfflineApp.onAppForeground, try_catch, bind, OfflineApp.isInitialized.
        rewrite Hflag. cbn [negb]. by rewrite Hrun. }
      rewrite Hw' in Hdocs |- *. cbn in *. by rewrite Hdocs.
  - intros p Hplatform Hnative.
    destruct (sqlite_initialize_native w p Hplatform Hnative Hflag) as (error & Hrun).
    unfold OfflineApp.onAppForeground, try_catch, bind, OfflineApp.isInitialized.
    rewrite Hflag. cbn [negb]. by rewrite Hrun.
  - intros Hplatform.
    unfold OfflineApp.onAppForeground, try_catch, bind, OfflineApp.isInitialized.
    rewrite Hflag. cbn [negb].
    rewrite (sqlite_initialize_no_device w (Error "Device information unavailable"));
      [done| |done].
    unfold Device_getInfo. by rewrite Hplatform.
Qed.

End Starting.

Section FirstRun.

Lemma getProfiles_open (w : World) :
  connection_open w = true ->
  SQLiteService.getProfiles w
  = (Resolved (SQLiteService.mapProfileResults
                 (Sql.order_by_asc "name" (Sql.scan (profiles (database w))))), w).
Proof.
  intros Hopen. unfold SQLiteService.getProfiles, bind. by rewrite query_open.
Qed.

Lemma length_profile_list (t : Table) :
  length (SQLiteService.mapProfileResults (Sql.order_by_asc "name" (Sql.scan t)))
  = size t.
Proof.
  unfold SQLiteService.mapProfileResults, Sql.order_by_asc.
  rewrite length_fmap, sort_by_Permutation. apply length_scan.
Qed.

Lemma no_profile_listed (t : Table) :
  (length (SQLiteService.mapProfileResults (Sql.order_by_asc "name" (Sql.scan t)))
   =? 0)%nat
  = bool_decide (t = ∅).
Proof.
  rewrite length_profile_list. destruct (decide (t = ∅)) as [->|Hne].
  - by rewrite map_size_empty.
  - rewrite bool_decide_eq_false_2 by done. apply Nat.eqb_neq.
    by rewrite map_size_empty_iff.
Qed.

Lemma checkFirstRun_again (w : World) :
  preferences_available w = true ->
  preferences w !! "first_run_completed" = Some "true" ->
  preferences w !! "app_version" = Some OfflineApp.APP_VERSION ->
  OfflineApp.checkFirstRun w = (Resolved tt, w).
Proof.
  intros Hav Hflag Hversion.
  unfold OfflineApp.checkFirstRun, try_catch, bind, Preferences.get.
  rewrite Hav, Hflag. cbn [string_or_null truthy_string].
  cbn. rewrite Hav, Hversion. by rewrite bool_decide_eq_true_2.
Qed.

(** The first run: the store may get the default profile, the two
    values are recorded, nothing else changes. *)
Lemma checkFirstRun_first (w : World) :
  preferences_available w = true ->
  connection_open w = true ->
  string_or_null (preferences w !! "first_run_completed") = None ->
  exists db' : Database,
    OfflineApp.checkFirstRun w
    = (Resolved tt,
       set_preferences
         (<["app_version" := OfflineApp.APP_VERSION]>
            (<["first_run_completed" := "true"]> (preferences w)))
         (set_database db' w))
    /\ (profiles (database w) = ∅ ->
        stored_profile db' (profiles_seq (database w) + 1)
        = Some (profile_as_stored (profiles_seq (database w) + 1)
                  OfflineApp.default_profile)
        /\ videos db' = videos (database w))
    /\ (profiles (database w) ≠ ∅ -> db' = database w).
Proof.
  intros Havailable Hopen Hfirst.
  unfold OfflineApp.checkFirstRun, try_catch at 1, bind at 1, Preferences.get.
  rewrite Havailable, Hfirst. unfold bind at 1.
  rewrite getProfiles_open by done. unfold bind at 1.
  rewrite no_profile_listed.
  destruct (decide (profiles (database w) = ∅)) as [Hempty|Hsome].
  - rewrite bool_decide_eq_true_2 by done.
    destruct (createProfile_inserts w OfflineApp.default_profile Hopen)
      as (db' & Hrun & Hnew & _ & _ & Hvideos & _).
    unfold bind at 1. rewrite Hrun. unfold ret at 1.
    exists db'. unfold bind, Preferences.set.
    cbn [preferences_available set_database set_preferences]. rewrite Havailable.
    cbn [preferences_available set_database set_preferences]. rewrite Havailable.
    split; [done|]. split; [done|]. intros Hne. done.
  - rewrite bool_decide_eq_false_2 by done. unfold ret at 1.
    exists (database w). rewrite set_database_same. unfold bind, Preferences.set.
    rewrite Havailable.
    cbn [preferences_available set_preferences]. rewrite Havailable.
    split; [done|]. split; [done|]. done.
Qed.

(** X20.  [checkFirstRun] with a working preference store and an open
    connection.  On the first run (no ['first_run_completed'] value)
    it creates the default profile when the store has no profile at
    all and leaves the store alone otherwise, then records the run and
    the app version.  On a later run it only brings the recorded
    version up to date; in particular a run right after the first one
    changes nothing. *)
Theorem checkFirstRun_seeds_once (w : World) :
  preferences_available w = true ->
  connection_open w = true ->
  (string_or_null (preferences w !! "first_run_completed") = None ->
     exists w' : World,
       OfflineApp.checkFirstRun w = (Resolved tt, w')
       /\ preferences w' !! "first_run_completed" = Some "true"
       /\ preferences w' !! "app_version" = Some OfflineApp.APP_VERSION
       /\ (profiles (database w) = ∅ ->
           stored_profile (database w') (profiles_seq (database w) + 1)
           = Some (profile_as_stored (profiles_seq (database w) + 1)
                     OfflineApp.default_profile)
           /\ videos (database w') = videos (database w))
       /\ (profiles (database w) ≠ ∅ -> database w' = database w)
       /\ documents w' = documents w
       /\ OfflineApp.checkFirstRun w' = (Resolved tt, w'))
  /\ (forall flag : string,
        string_or_null (preferences w !! "first_run_completed") = Some flag ->
        OfflineApp.checkFirstRun w
        = (Resolved tt,
           set_preferences (<["app_version" := OfflineApp.APP_VERSION]> (preferences w)) w)
        /\ (preferences w !! "app_version" = Some OfflineApp.APP_VERSION ->
            OfflineApp.checkFirstRun w = (Resolved tt, w))).
Proof.
  intros Havailable Hopen. split.
  - intros Hfirst.
    destruct (checkFirstRun_first w Havailable Hopen Hfirst)
      as (db' & Hrun & Hempty & Hsome).
    eexists. split; [exact Hrun|].
    cbn [preferences database documents set_preferences set_database].
    split; [by rewrite lookup_insert_ne, lookup_insert_eq|].
    split; [by rewrite lookup_insert_eq|].
    split; [exact Hempty|]. split; [exact Hsome|]. split; [done|].
    apply checkFirstRun_again; cbn [preferences set_preferences]; [done|..].
    + by rewrite lookup_insert_ne, lookup_insert_eq.
    + by rewrite lookup_insert_eq.
  - intros flag Hflag.
    assert (forall w' : World,
              w' = set_preferences
                     (<["app_version" := OfflineApp.APP_VERSION]> (preferences w)) w ->
              preferences w !! "app_version" = Some OfflineApp.APP_VERSION -> w' = w)
      as Hsame.
    { intros w' -> Hversion. rewrite insert_id by done.
      by destruct w. }
    unfold OfflineApp.checkFirstRun, try_catch, bind, Preferences.get, Preferences.set.
    rewrite Havailable, Hflag, Havailable.
    destruct (bool_decide (preferences w !! "app_version" = Some OfflineApp.APP_VERSION))
      eqn:Hversion.
    + apply bool_decide_eq_true_1 in Hversion. unfold ret.
      rewrite (Hsame _ eq_refl Hversion). done.
    + rewrite Havailable. split; [done|]. intros Hv.
      apply bool_decide_eq_false_1 in Hversion. done.
Qed.

Lemma checkFirstRun_resolves (w : World) :
  exists w' : World, OfflineApp.checkFirstRun w = (Resolved tt, w').
Proof.
  unfold OfflineApp.checkFirstRun, try_catch.
  match goal with |- context [match ?m with _ => _ end] => destruct m as [[[]|e] w1] end;
    by eauto.
Qed.

(** X21.  The start of the app with a working preference store.
    [initializeNativeApp] never rejects and stores ['true'] under the
    offline-mode key first.  On Android and iOS, with a service that
    was never initialized, that is all it does: the mode reads offline
    afterwards, but the initialization of the offline service rejects,
    the failure is swallowed and the first-run check never runs, so
    that the connection is not open, no default profile is stored and
    the first run is not recorded.  On every other platform the
    offline service is left alone and the first-run check runs. *)
Theorem initializeNativeApp_first_start (w : World) :
  preferences_available w = true ->
  (native_platform w = true ->
   offline_isInitialized w = false ->
   _isInitialized w = false ->
   exists w' : World,
     OfflineApp.initializeNativeApp w = (Resolved tt, w')
     /\ w' = switched_offline w
     /\ ApiSwitcher.isOfflineMode w' = (Resolved true, w')
     /\ connection_open w' = connection_open w
     /\ offline_isInitialized w' = false
     /\ database w' = database w
     /\ documents w' = documents w
     /\ preferences w' !! "first_run_completed"
        = preferences w !! "first_run_completed")
  /\ (native_platform w = false ->
      OfflineApp.initializeNativeApp w
      = OfflineApp.checkFirstRun (switched_offline w)).
Proof.
  intros Havailable. split.
  - intros Hnative Hoffline Hflag.
    assert (exists p : string, platform w = Some p /\ p ≠ "web") as (p & Hplatform & Hp).
    { unfold native_platform in Hnative. destruct (platform w) as [p|]; [|done].
      exists p. split; [done|]. intros ->. done. }
    destruct (sqlite_initialize_native (switched_offline w) p Hplatform Hp Hflag)
      as (error & Hrun).
    exists (switched_offline w). split.
    { unfold OfflineApp.initializeNativeApp, try_catch, bind at 1.
      unfold ApiSwitcher.setOfflineMode, try_catch, Preferences.set. rewrite Havailable.
      fold (switched_offline w).
      unfold bind at 1, ApiSwitcher.initializeOfflineCapabilities, bind at 1.
      rewrite isNativeApp_run.
      change (native_platform (switched_offline w)) with (native_platform w).
      rewrite Hnative. unfold OfflineApiService.initialize.
      change (offline_isInitialized (switched_offline w)) with (offline_isInitialized w).
      rewrite Hoffline. unfold bind at 1. by rewrite Hrun. }
    split; [done|]. split.
    { rewrite isOfflineMode_run. do 2 f_equal. unfold offline_mode.
      change (native_platform (switched_offline w)) with (native_platform w).
      cbn [switched_offline preferences preferences_available set_preferences].
      rewrite Havailable, Hnative, lookup_insert_eq.
      rewrite (bool_decide_eq_true_2 (Some "true" = Some "true")) by done.
      by rewrite orb_true_r. }
    cbn [switched_offline connection_open offline_isInitialized database documents
         preferences set_preferences].
    split; [done|]. split; [done|]. split; [done|]. split; [done|].
    by rewrite lookup_insert_ne.
  - intros Hnative.
    destruct (checkFirstRun_resolves (switched_offline w)) as (w' & Hcheck).
    unfold OfflineApp.initializeNativeApp, try_catch, bind at 1.
    unfold ApiSwitcher.setOfflineMode, try_catch, Preferences.set. rewrite Havailable.
    fold (switched_offline w).
    unfold bind at 1, ApiSwitcher.initializeOfflineCapabilities, bind at 1.
    rewrite isNativeApp_run.
    change (native_platform (switched_offline w)) with (native_platform w).
    rewrite Hnative. unfold ret at 1. by rewrite Hcheck.
Qed.

End FirstRun.

(* ===================================================================== *)
(** * Missing videos, export and import                                    *)
(* ===================================================================== *)

Section MissingVideoOperations.
Context `{Dates : DateLib}.

(** X22.  The facade on an id that names no stored video: [updateVideo]
    (with any partial object) resolves to [undefined],
    [markVideoAsUploaded] and [revertVideoUpload] resolve to [null],
    [deleteVideo] resolves to [false], and none of them changes
    anything. *)
Theorem video_operations_on_missing_id (w : World) (id : Z) :
  offline_isInitialized w = true ->
  fst (SQLiteService.getVideo id w) = Resolved None ->
  (forall partial : PartialVideo.t,
      OfflineApiService.updateVideo id partial w = (Resolved Undefined, w))
  /\ OfflineApiService.markVideoAsUploaded id w = (Resolved Null, w)
  /\ OfflineApiService.revertVideoUpload id w = (Resolved Null, w)
  /\ OfflineApiService.deleteVideo id w = (Resolved false, w).
Proof.
  intros Hinit Hget. pose proof Hget as Hopen.
  apply getVideo_resolved in Hopen as [Hopen Hstored].
  split; [|split; [|split]].
  - intros partial. unfold OfflineApiService.updateVideo, bind at 1.
    rewrite ensureInitialized_done by done.
    cbn [js_or truthy async_return]. unfold settles_as, bind.
    by rewrite updateVideo_missing.
  - unfold OfflineApiService.markVideoAsUploaded, bind.
    rewrite ensureInitialized_done by done. rewrite getVideo_open by done.
    by rewrite Hstored.
  - unfold OfflineApiService.revertVideoUpload, bind.
    rewrite ensureInitialized_done by done. rewrite getVideo_open by done.
    by rewrite Hstored.
  - unfold OfflineApiService.deleteVideo, SQLiteService.deleteVideo, bind.
    rewrite ensureInitialized_done by done. rewrite getVideo_open by done.
    rewrite Hstored. unfold ret at 1. rewrite run_open by done.
    unfold Sql.delete_video. rewrite (stored_video_None _ _ Hstored).
    cbn. by rewrite set_database_same.
Qed.

End MissingVideoOperations.

Section Exporting.

Lemma elem_of_stored_profiles (db : Database) (p : Profile.t) :
  (exists k : Z, stored_profile db k = Some p)
  <-> exists (k : Z) (r : Row),
        profiles db !! k = Some r
        /\ p = SQLiteService.mapProfileResult (Sql.select_row k r).
Proof.
  unfold stored_profile. split.
  - intros (k & Hk). destruct (profiles db !! k) as [r|] eqn:Hr; [|done].
    injection Hk as <-. by eauto.
  - intros (k & r & Hr & ->). exists k. by rewrite Hr.
Qed.

Lemma elem_of_profile_list (db : Database) (p : Profile.t) :
  p ∈ SQLiteService.mapProfileResults (Sql.order_by_asc "name" (Sql.scan (profiles db)))
  <-> exists k : Z, stored_profile db k = Some p.
Proof.
  rewrite elem_of_stored_profiles.
  unfold SQLiteService.mapProfileResults, Sql.order_by_asc.
  rewrite sort_by_Permutation, list_elem_of_fmap. split.
  - intros (row & -> & Hrow). apply elem_of_scan in Hrow as (k & r & Hr & ->).
    by eauto.
  - intros (k & r & Hr & ->). eexists. split; [reflexivity|].
    apply elem_of_scan. by eauto.
Qed.

Lemma order_by_asc_name_Sorted (rows : list Row) :
  Sorted by_name (SQLiteService.mapProfileResults (Sql.order_by_asc "name" rows)).
Proof.
  unfold SQLiteService.mapProfileResults, Sql.order_by_asc.
  apply (Sorted_fmap SQLiteService.mapProfileResult
           (fun a b : Row =>
              String.leb (Sql.text (Sql.column a "name"))
                         (Sql.text (Sql.column b "name")) = true)
           by_name).
  - intros a b Hle. exact Hle.
  - apply (sort_by_Sorted (fun a b : Row =>
             String.leb (Sql.text (Sql.column a "name"))
                        (Sql.text (Sql.column b "name")))).
    intros a b. apply String.leb_total.
Qed.

(** X23.  [exportData] changes nothing and holds the whole store: its
    profiles are what [getProfiles] returns, every stored profile and
    no other record, ordered by name; its videos are every stored
    video and no other record, the later schedule date first. *)
Theorem exportData_holds_the_whole_store (w : World) :
  offline_isInitialized w = true ->
  connection_open w = true ->
  exists data : ExportData.t,
    OfflineApiService.exportData w = (Resolved data, w)
    /\ SQLiteService.getProfiles w = (Resolved (ExportData.profiles data), w)
    /\ (forall p : Profile.t,
          p ∈ ExportData.profiles data
          <-> exists k : Z, stored_profile (database w) k = Some p)
    /\ length (ExportData.profiles data) = size (profiles (database w))
    /\ Sorted by_name (ExportData.profiles data)
    /\ (forall v : Video.t,
          v ∈ ExportData.videos data
          <-> exists k : Z, stored_video (database w) k = Some v)
    /\ length (ExportData.videos data) = size (videos (database w))
    /\ Sorted later_first (ExportData.videos data).
Proof.
  intros Hinit Hopen.
  unfold OfflineApiService.exportData, bind at 1.
  rewrite ensureInitialized_done by done. unfold bind at 1.
  rewrite getProfiles_open by done. unfold bind at 1.
  unfold SQLiteService.getVideos, bind. rewrite query_open by done.
  eexists. split; [reflexivity|]. cbn [ExportData.profiles ExportData.videos].
  split; [done|]. split; [|split; [|split; [|split; [|split]]]].
  - intros p. apply elem_of_profile_list.
  - apply length_profile_list.
  - apply order_by_asc_name_Sorted.
  - intros v. rewrite elem_of_stored_videos.
    unfold SQLiteService.mapVideoResults, Sql.order_by_desc.
    rewrite sort_by_Permutation, list_elem_of_fmap. split.
    + intros (row & -> & Hrow). apply elem_of_scan in Hrow as (k & r & Hr & ->).
      by eauto.
    + intros (k & r & Hr & ->). eexists. split; [reflexivity|].
      apply elem_of_scan. by eauto.
  - unfold SQLiteService.mapVideoResults, Sql.order_by_desc.
    rewrite length_fmap, sort_by_Permutation. apply length_scan.
  - apply order_by_desc_scheduleDate_Sorted.
Qed.

End Exporting.

Section Importing.

(** The loop over the profiles of an import file. *)
Lemma import_profiles_run (items : list Profile.t) (w : World) :
  connection_open w = true ->
  exists db' : Database,
    for_of items
      (fun profile =>
         bind (SQLiteService.createProfile (OfflineApiService.profile_without_id profile))
              (fun _ => ret tt)) w
    = (Resolved tt, set_database db' w)
    /\ profiles_seq db' = profiles_seq (database w) + Z.of_nat (length items)
    /\ (forall (i : nat) (p : Profile.t),
          items !! i = Some p ->
          stored_profile db' (profiles_seq (database w) + 1 + Z.of_nat i)
          = Some (profile_as_stored (profiles_seq (database w) + 1 + Z.of_nat i)
                    (OfflineApiService.profile_without_id p)))
    /\ (forall k : Z, k <= profiles_seq (database w) ->
          stored_profile db' k = stored_profile (database w) k)
    /\ videos db' = videos (database w)
    /\ videos_seq db' = videos_seq (database w)
    /\ (forall k : Z,
          profiles_seq (database w) + Z.of_nat (length items) < k ->
          stored_profile db' k = stored_profile (database w) k).
Proof.
  revert w. induction items as [|item items IH]; intros w Hopen.
  - exists (database w). cbn [for_of]. unfold ret. rewrite set_database_same.
    split; [done|]. split; [cbn; lia|]. split; [intros i p; by rewrite lookup_nil|].
    done.
  - destruct (createProfile_inserts w (OfflineApiService.profile_without_id item) Hopen)
      as (db1 & Hrun & Hnew & Hseq & Hothers & Hvideos & Hvseq).
    destruct (IH (set_database db1 w) Hopen)
      as (db2 & Hloop & Hseq2 & Hitems & Hbelow & Hvideos2 & Hvseq2 & Habove).
    cbn [database set_database] in Hseq2, Hitems, Hbelow, Hvideos2, Hvseq2, Habove.
    exists db2. split; [|split; [|split; [|split; [|split; [|split]]]]].
    + cbn [for_of]. unfold bind at 1. unfold bind at 1. rewrite Hrun.
      unfold ret at 1. by rewrite Hloop.
    + rewrite Hseq2, Hseq. cbn [length]. lia.
    + intros [|i] p Hp.
      * cbn in Hp. injection Hp as <-. rewrite Z.add_0_r.
        rewrite Hbelow by lia. exact Hnew.
      * cbn in Hp. specialize (Hitems i p Hp). rewrite Hseq in Hitems.
        replace (profiles_seq (database w) + 1 + Z.of_nat (S i))
          with (profiles_seq (database w) + 1 + 1 + Z.of_nat i) by lia.
        exact Hitems.
    + intros k Hk. rewrite Hbelow by lia. apply Hothers. lia.
    + congruence.
    + congruence.
    + intros k Hk. cbn [length] in Hk. rewrite Habove by lia. apply Hothers. lia.
Qed.

(** X24.  [importData] with profiles and no videos always succeeds: the
    ids in the file are dropped, the profiles are stored in file order
    under the ids that follow the largest one ever handed out, and the
    records already stored up to that id and all videos are as
    before. *)
Theorem importData_gives_profiles_fresh_ids (w : World) (items : list Profile.t) :
  offline_isInitialized w = true ->
  connection_open w = true ->
  exists w' : World,
    OfflineApiService.importData
      {| ImportData.profiles := Items items; ImportData.videos := Items [] |} w
    = (Resolved true, w')
    /\ profiles_seq (database w') = profiles_seq (database w) + Z.of_nat (length items)
    /\ (forall (i : nat) (p : Profile.t),
          items !! i = Some p ->
          stored_profile (database w') (profiles_seq (database w) + 1 + Z.of_nat i)
          = Some (profile_as_stored (profiles_seq (database w) + 1 + Z.of_nat i)
                    (OfflineApiService.profile_without_id p)))
    /\ (forall k : Z, k <= profiles_seq (database w) ->
          stored_profile (database w') k = stored_profile (database w) k)
    /\ videos (database w') = videos (database w)
    /\ documents w' = documents w.
Proof.
  intros Hinit Hopen.
  destruct (import_profiles_run items w Hopen)
    as (db' & Hloop & Hseq & Hitems & Hbelow & Hvideos & _).
  exists (set_database db' w). split; [|done].
  unfold OfflineApiService.importData, bind at 1.
  rewrite ensureInitialized_done by done.
  unfold try_catch, bind at 1.
  cbn [ImportData.profiles ImportData.videos iterate]. rewrite Hloop.
  cbn [for_of]. done.
Qed.

(** The loop over the videos of an import file whose profiles are all
    stored. *)
Lemma import_videos_run (items : list Video.t) (w : World) :
  connection_open w = true ->
  (forall v : Video.t,
      v ∈ items -> is_Some (profiles (database w) !! Video.profileId v)) ->
  exists db' : Database,
    for_of items
      (fun video =>
         bind (SQLiteService.createVideo (OfflineApiService.video_without_id video))
              (fun _ => ret tt)) w
    = (Resolved tt, set_database db' w)
    /\ (forall (j : nat) (v : Video.t),
          items !! j = Some v ->
          stored_video db' (videos_seq (database w) + 1 + Z.of_nat j)
          = Some (video_as_stored (videos_seq (database w) + 1 + Z.of_nat j)
                    (OfflineApiService.video_without_id v)))
    /\ (forall k : Z,
          k <= videos_seq (database w)
          \/ videos_seq (database w) + Z.of_nat (length items) < k ->
          stored_video db' k = stored_video (database w) k)
    /\ profiles db' = profiles (database w).
Proof.
  revert w. induction items as [|item items IH]; intros w Hopen Hprofiles.
  - exists (database w). cbn [for_of]. unfold ret. rewrite set_database_same.
    split; [done|]. split; [intros j v; by rewrite lookup_nil|]. done.
  - destruct (createVideo_inserts w (OfflineApiService.video_without_id item) Hopen)
      as (db1 & Hrun & Hnew & Hothers & Hsame).
    { apply Hprofiles. left. }
    assert (videos_seq db1 = videos_seq (database w) + 1) as Hseq.
    { unfold SQLiteService.createVideo, bind in Hrun.
      rewrite run_open in Hrun by done. unfold Sql.insert_video in Hrun.
      destruct (Sql.foreign_key_ok _ _); [|done].
      cbn in Hrun. by injection Hrun as <-. }
    destruct (IH (set_database db1 w) Hopen)
      as (db2 & Hloop & Hitems & Hrest & Hsame2).
    { intros v Hv. cbn [database set_database]. rewrite Hsame.
      apply Hprofiles. by right. }
    cbn [database set_database] in Hitems, Hrest, Hsame2.
    exists db2. split; [|split; [|split]].
    + cbn [for_of]. unfold bind at 1. unfold bind at 1. rewrite Hrun.
      unfold ret at 1. by rewrite Hloop.
    + intros [|j] v Hv.
      * cbn in Hv. injection Hv as <-. rewrite Z.add_0_r.
        rewrite Hrest by lia. exact Hnew.
      * cbn in Hv. specialize (Hitems j v Hv). rewrite Hseq in Hitems.
        replace (videos_seq (database w) + 1 + Z.of_nat (S j))
          with (videos_seq (database w) + 1 + 1 + Z.of_nat j) by lia.
        exact Hitems.
    + intros k Hk. cbn [length] in Hk. rewrite Hrest by lia. apply Hothers. lia.
    + congruence.
Qed.

Lemma stored_profile_of_empty (db : Database) (k : Z) :
  profiles db = ∅ -> stored_profile db k = None.
Proof. intros Hempty. unfold stored_profile. by rewrite Hempty, lookup_empty. Qed.

Lemma stored_video_of_empty (db : Database) (k : Z) :
  videos db = ∅ -> stored_video db k = None.
Proof. intros Hempty. unfold stored_video. by rewrite Hempty, lookup_empty. Qed.

(** What is stored for a record agrees with the record on every field
    other than [id], unless the record holds an empty text, a size 0 or
    an empty status where the store holds null or ['pending']. *)
Lemma profile_stored_as_given (id : Z) (p : Profile.t) :
  stored_as_given_profile p ->
  OfflineApiService.profile_without_id
    (profile_as_stored id (OfflineApiService.profile_without_id p))
  = OfflineApiService.profile_without_id p.
Proof.
  unfold stored_as_given_profile, OfflineApiService.profile_without_id,
    profile_as_stored. cbn. intros Hp. f_equal.
  destruct (Profile.lastPushReset p) as [text|]; [|done].
  cbn. unfold truthy_string. by destruct text.
Qed.

Lemma text_stored_as_given (x : option string) :
  x <> Some EmptyString -> string_or_null x = x.
Proof.
  destruct x as [text|]; [|done]. intros Hx. cbn. unfold truthy_string.
  by destruct text.
Qed.

Lemma size_stored_as_given (x : option Z) : x <> Some 0 -> number_or_null x = x.
Proof.
  destruct x as [n|]; [|done]. intros Hx. cbn. unfold truthy_number.
  destruct (Z.eqb_spec n 0) as [->|]; done.
Qed.

Lemma video_stored_as_given (id : Z) (v : Video.t) :
  stored_as_given_video v ->
  OfflineApiService.video_without_id
    (video_as_stored id (OfflineApiService.video_without_id v))
  = OfflineApiService.video_without_id v.
Proof.
  unfold stored_as_given_video, OfflineApiService.video_without_id, video_as_stored.
  cbn. intros (H1 & H2 & H3 & H4 & H5 & H6 & H7 & H8 & H9 & H10).
  rewrite !text_stored_as_given, !size_stored_as_given by done.
  assert (truthy_string (Video.status v) = true) as ->; [|done].
  unfold truthy_string. by destruct (Video.status v).
Qed.

(** C6 (amended).  An export imported into an empty store.  The
    import drops the ids: the profiles get the ids that follow the
    largest one ever handed out, in the order of the export, and every
    video keeps its [profileId].  When the [profileId] of every
    exported video is one of the ids the profiles get, the import
    resolves to [true], and the store then holds, for every exported
    record, one record under an id of its own, and no other record.
    The stored record agrees with the exported one on every field
    other than [id], an empty text or a size 0 being stored as null and
    an empty status as ['pending'].  The file area is untouched. *)
Theorem import_of_export_keeps_the_records (source w : World) (data : ExportData.t) :
  fst (OfflineApiService.exportData source) = Resolved data ->
  offline_isInitialized w = true ->
  connection_open w = true ->
  profiles (database w) = ∅ ->
  videos (database w) = ∅ ->
  let first := profiles_seq (database w) + 1 in
  let first_video := videos_seq (database w) + 1 in
  (forall v : Video.t,
      v ∈ ExportData.videos data ->
      first <= Video.profileId v
      < first + Z.of_nat (length (ExportData.profiles data))) ->
  exists w' : World,
    OfflineApiService.importData (Samples.as_import data) w = (Resolved true, w')
    /\ (forall (i : nat) (p : Profile.t),
          ExportData.profiles data !! i = Some p ->
          stored_profile (database w') (first + Z.of_nat i)
          = Some (profile_as_stored (first + Z.of_nat i)
                    (OfflineApiService.profile_without_id p)))
    /\ (forall (j : nat) (v : Video.t),
          ExportData.videos data !! j = Some v ->
          stored_video (database w') (first_video + Z.of_nat j)
          = Some (video_as_stored (first_video + Z.of_nat j)
                    (OfflineApiService.video_without_id v)))
    /\ (forall (k : Z) (p' : Profile.t),
          stored_profile (database w') k = Some p' ->
          exists i : nat,
            k = first + Z.of_nat i /\ is_Some (ExportData.profiles data !! i))
    /\ (forall (k : Z) (v' : Video.t),
          stored_video (database w') k = Some v' ->
          exists j : nat,
            k = first_video + Z.of_nat j /\ is_Some (ExportData.videos data !! j))
    /\ (forall (id : Z) (p : Profile.t),
          stored_as_given_profile p ->
          OfflineApiService.profile_without_id
            (profile_as_stored id (OfflineApiService.profile_without_id p))
          = OfflineApiService.profile_without_id p)
    /\ (forall (id : Z) (v : Video.t),
          stored_as_given_video v ->
          OfflineApiService.video_without_id
            (video_as_stored id (OfflineApiService.video_without_id v))
          = OfflineApiService.video_without_id v)
    /\ documents w' = documents w.
Proof.
  intros _ Hinit Hopen Hnone Hnovideo first first_video Hrefer.
  subst first first_video.
  destruct (import_profiles_run (ExportData.profiles data) w Hopen)
    as (db1 & Hloop1 & Hseq1 & Hitems1 & Hbelow1 & Hvideos1 & Hvseq1 & Habove1).
  destruct (import_videos_run (ExportData.videos data) (set_database db1 w) Hopen)
    as (db2 & Hloop2 & Hitems2 & Hrest2 & Hprofiles2).
  { intros v Hv. cbn [database set_database].
    destruct (Hrefer v Hv) as [Hlow Hhigh].
    destruct (lookup_lt_is_Some_2 (ExportData.profiles data)
                (Z.to_nat (Video.profileId v - (profiles_seq (database w) + 1))))
      as [p Hp]; [lia|].
    specialize (Hitems1 _ p Hp). rewrite Z2Nat.id in Hitems1 by lia.
    replace (profiles_seq (database w) + 1
             + (Video.profileId v - (profiles_seq (database w) + 1)))
      with (Video.profileId v) in Hitems1 by lia.
    by apply stored_profile_is_Some in Hitems1. }
  cbn [database set_database] in Hitems2, Hrest2, Hprofiles2.
  rewrite Hvseq1 in Hitems2, Hrest2.
  exists (set_database db2 w).
  split.
  { unfold OfflineApiService.importData, bind at 1.
    rewrite ensureInitialized_done by done.
    unfold try_catch, bind at 1.
    cbn [Samples.as_import ImportData.profiles ImportData.videos iterate].
    rewrite Hloop1. unfold bind at 1. by rewrite Hloop2. }
  cbn [database set_database documents].
  split.
  { intros i p Hp. unfold stored_profile. rewrite Hprofiles2. by apply Hitems1. }
  split; [exact Hitems2|].
  split.
  { intros k p' Hstored. unfold stored_profile in Hstored. rewrite Hprofiles2 in Hstored.
    fold (stored_profile db1 k) in Hstored.
    destruct (decide (k <= profiles_seq (database w))) as [Hk|Hk].
    { by rewrite Hbelow1, stored_profile_of_empty in Hstored. }
    destruct (decide (profiles_seq (database w)
                      + Z.of_nat (length (ExportData.profiles data)) < k)) as [Hk'|Hk'].
    { by rewrite Habove1, stored_profile_of_empty in Hstored. }
    exists (Z.to_nat (k - (profiles_seq (database w) + 1))).
    split; [lia|]. apply lookup_lt_is_Some_2. lia. }
  split.
  { intros k v' Hstored.
    destruct (decide (k <= videos_seq (database w))) as [Hk|Hk].
    { rewrite Hrest2 in Hstored by auto.
      unfold stored_video in Hstored. rewrite Hvideos1 in Hstored.
      fold (stored_video (database w) k) in Hstored.
      by rewrite stored_video_of_empty in Hstored. }
    destruct (decide (videos_seq (database w)
                      + Z.of_nat (length (ExportData.videos data)) < k)) as [Hk'|Hk'].
    { rewrite Hrest2 in Hstored by auto.
      unfold stored_video in Hstored. rewrite Hvideos1 in Hstored.
      fold (stored_video (database w) k) in Hstored.
      by rewrite stored_video_of_empty in Hstored. }
    exists (Z.to_nat (k - (videos_seq (database w) + 1))).
    split; [lia|]. apply lookup_lt_is_Some_2. lia. }
  split; [apply profile_stored_as_given|].
  split; [apply video_stored_as_given|done].
Qed.

End Importing.

(** The export of the sample store, whose profile has id 1, imported
    into the store of the freshly started app. *)
Lemma import_of_export_keeps_the_records_witness :
  fst (OfflineApiService.exportData Samples.with_video)
  = Resolved {| ExportData.profiles := [Samples.chan_stored];
                ExportData.videos := [Samples.clip_stored] |}
  /\ offline_isInitialized Samples.started = true
  /\ connection_open Samples.started = true
  /\ profiles (database Samples.started) = ∅
  /\ videos (database Samples.started) = ∅
  /\ (forall v : Video.t,
        v ∈ [Samples.clip_stored] ->
        profiles_seq (database Samples.started) + 1 <= Video.profileId v
        < profiles_seq (database Samples.started) + 1 + Z.of_nat 1)
  /\ exists w' : World,
       OfflineApiService.importData
         (Samples.as_import {| ExportData.profiles := [Samples.chan_stored];
                               ExportData.videos := [Samples.clip_stored] |})
         Samples.started
       = (Resolved true, w')
       /\ stored_profile (database w') 1 = Some Samples.chan_stored
       /\ stored_video (database w') 1 = Some Samples.clip_stored.
Proof.
  assert (fst (OfflineApiService.exportData Samples.with_video)
          = Resolved {| ExportData.profiles := [Samples.chan_stored];
                        ExportData.videos := [Samples.clip_stored] |}) as Hexport
    by (vm_compute; reflexivity).
  split; [exact Hexport|]. split; [reflexivity|]. split; [reflexivity|].
  split; [reflexivity|]. split; [reflexivity|].
  assert (forall v : Video.t,
            v ∈ [Samples.clip_stored] ->
            profiles_seq (database Samples.started) + 1 <= Video.profileId v
            < profiles_seq (database Samples.started) + 1 + Z.of_nat 1) as Hrefer
    by (intros v ->%list_elem_of_singleton; cbn; lia).
  split; [exact Hrefer|].
  destruct (import_of_export_keeps_the_records Samples.with_video Samples.started _
              Hexport eq_refl eq_refl eq_refl eq_refl Hrefer)
    as (w' & Hrun & Hprofiles & Hvideos & _).
  exists w'. split; [exact Hrun|]. split.
  - exact (Hprofiles 0%nat Samples.chan_stored eq_refl).
  - exact (Hvideos 0%nat Samples.clip_stored eq_refl).
Defined.

Section StatusFilter.

(** X25.  With a text in every [status] column, [getVideosByStatus]
    returns exactly the stored videos that have the status, the later
    schedule date first, and changes nothing. *)
Theorem getVideosByStatus_filters (w : World) (status : string) :
  offline_isInitialized w = true ->
  connection_open w = true ->
  status_is_text (database w) ->
  exists vs : list Video.t,
    OfflineApiService.getVideosByStatus status w = (Resolved vs, w)
    /\ (forall v : Video.t,
          v ∈ vs
          <-> (exists k : Z, stored_video (database w) k = Some v)
              /\ Video.status v = status)
    /\ Sorted later_first vs.
Proof.
  intros Hinit Hopen Htext.
  unfold OfflineApiService.getVideosByStatus, SQLiteService.getVideosByStatus, bind.
  rewrite ensureInitialized_done by done. rewrite query_open by done.
  eexists. split; [reflexivity|]. split; [|apply order_by_desc_scheduleDate_Sorted].
  intros v. rewrite elem_of_stored_videos.
  unfold SQLiteService.mapVideoResults, Sql.order_by_desc.
  rewrite sort_by_Permutation, list_elem_of_fmap.
  assert (forall (k : Z) (r : Row),
            videos (database w) !! k = Some r ->
            (Sql.column r "status" = SqlText status
             <-> Video.status (SQLiteService.mapVideoResult (Sql.select_row k r)) = status))
    as Hstatus.
  { intros k r Hr. pose proof (Htext k r Hr) as Hs. cbn in Hs.
    cbn [SQLiteService.mapVideoResult Video.status].
    rewrite column_select_row by discriminate.
    destruct (Sql.column r "status") as [|n|s]; [done|done|]. cbn.
    split; [by intros [= ->]|by intros ->]. }
  split.
  - intros (row & -> & Hrow). apply list_elem_of_filter in Hrow as [Hs Hrow].
    apply elem_of_scan in Hrow as (k & r & Hr & ->).
    rewrite column_select_row in Hs by discriminate.
    split; [by eauto|]. by apply (Hstatus k r Hr).
  - intros [(k & r & Hr & ->) Hs]. eexists. split; [reflexivity|].
    apply list_elem_of_filter. split.
    + rewrite column_select_row by discriminate. by apply (Hstatus k r Hr).
    + apply elem_of_scan. by eauto.
Qed.

End StatusFilter.

Section Encoding.

Lemma length_encode (bytes : list Z) :
  length (Base64.encode bytes) = (4 * ((length bytes + 2) / 3))%nat.
Proof.
  assert (forall (n : nat) (l : list Z),
            (length l <= n)%nat ->
            length (Base64.encode l) = (4 * ((length l + 2) / 3))%nat) as Hall.
  { induction n as [n IH] using (well_founded_induction lt_wf).
    intros l Hl. destruct l as [|a [|b [|c rest]]]; try reflexivity.
    change (Base64.encode (a :: b :: c :: rest))
      with (Base64.sextet (a / 4) :: Base64.sextet ((a mod 4) * 16 + b / 16)
              :: Base64.sextet ((b mod 16) * 4 + c / 64) :: Base64.sextet (c mod 64)
              :: Base64.encode rest).
    cbn [length] in Hl |- *.
    rewrite (IH (length rest)) by lia.
    replace (S (S (S (length rest))) + 2)%nat with (length rest + 2 + 1 * 3)%nat by lia.
    rewrite Nat.div_add by lia. lia. }
  by apply (Hall (length bytes)).
Qed.

Lemma length_text_of (cs : list ascii) : String.length (Base64.text_of cs) = length cs.
Proof.
  unfold Base64.text_of. induction cs as [|c cs IH]; [done|]. cbn. by rewrite IH.
Qed.

Lemma length_list_ascii_of_string (s : string) :
  length (list_ascii_of_string s) = String.length s.
Proof. induction s as [|c s IH]; [done|]. cbn. by rewrite IH. Qed.

Lemma length_binary (buffer : list Byte.byte) (start : string) :
  String.length
    (foldl (fun binary b => binary +:+ String (ascii_of_byte b) EmptyString)
           start buffer)
  = (String.length start + length buffer)%nat.
Proof.
  revert start. induction buffer as [|b buffer IH]; intros start.
  - cbn. lia.
  - cbn [foldl length]. rewrite IH, length_append. cbn. lia.
Qed.

(** X26.  [arrayBufferToBase64] gives four characters for every three
    bytes of the buffer, the last group filled up. *)
Theorem arrayBufferToBase64_length (buffer : list Byte.byte) :
  String.length (FileSystemService.arrayBufferToBase64 buffer)
  = (4 * ((length buffer + 2) / 3))%nat.
Proof.
  unfold FileSystemService.arrayBufferToBase64, Base64.btoa.
  rewrite length_text_of, length_encode, length_fmap, length_list_ascii_of_string.
  by rewrite length_binary.
Qed.

End Encoding.

(* ===================================================================== *)
(** * Deleting a profile, first use, closing                               *)
(* ===================================================================== *)

Section Cascade.

(** X27.  [deleteProfile] on a stored profile of a consistent store
    removes it: afterwards the profile is gone, the other profiles are
    as before, the stored videos are exactly the videos of the other
    profiles, each unchanged, and the file area is untouched.  The
    call resolves to [false] even so: the number of deleted rows is not
    where the service looks for it in the plugin's result. *)
Theorem deleteProfile_cascades_exactly (w : World) (id : Z) (p : Profile.t) :
  offline_isInitialized w = true ->
  connection_open w = true ->
  consistent (database w) ->
  stored_profile (database w) id = Some p ->
  exists w' : World,
    OfflineApiService.deleteProfile id w = (Resolved false, w')
    /\ stored_profile (database w') id = None
    /\ (forall other : Z, other ≠ id ->
          stored_profile (database w') other = stored_profile (database w) other)
    /\ (forall (k : Z) (v : Video.t),
          stored_video (database w') k = Some v
          <-> stored_video (database w) k = Some v /\ Video.profileId v ≠ id)
    /\ documents w' = documents w.
Proof.
  intros Hinit Hopen Hw Hstored.
  pose proof (stored_profile_is_Some _ _ _ Hstored) as [r Hrow].
  exists (set_database
            {| profiles := delete id (profiles (database w));
               profiles_seq := profiles_seq (database w);
               videos := filter (fun kr : Z * Row =>
                                   Sql.column kr.2 "profileId" ≠ SqlInteger id)
                                (videos (database w));
               videos_seq := videos_seq (database w) |} w).
  split.
  { unfold OfflineApiService.deleteProfile, SQLiteService.deleteProfile, bind.
    rewrite ensureInitialized_done by done. rewrite run_open by done.
    unfold Sql.delete_profile. by rewrite Hrow. }
  cbn [database set_database documents].
  split; [unfold stored_profile; cbn [profiles]; by rewrite lookup_delete_eq|].
  split; [intros other Hne; unfold stored_profile; cbn [profiles];
          by rewrite lookup_delete_ne|].
  split; [|done].
  intros k v. unfold stored_video. cbn [videos]. split.
  - intros Hkept.
    destruct (filter _ (videos (database w)) !! k) as [row|] eqn:Hfiltered; [|done].
    apply map_lookup_filter_Some in Hfiltered as [Hk Hother]. cbn in Hother.
    rewrite Hk. split; [exact Hkept|].
    injection Hkept as <-. intros Hpid. apply Hother.
    by apply (profileId_of_consistent_row _ k row id Hw Hk).
  - intros [Hk Hother].
    destruct (videos (database w) !! k) as [row|] eqn:Hvideo; [|done].
    injection Hk as <-.
    assert (filter (fun kr : Z * Row => Sql.column kr.2 "profileId" ≠ SqlInteger id)
                   (videos (database w)) !! k = Some row) as ->; [|done].
    apply map_lookup_filter_Some. split; [done|]. cbn. intros Hpid. apply Hother.
    by apply (profileId_of_consistent_row _ k row id Hw Hvideo).
Qed.

End Cascade.

Section FirstUse.

(** X28.  The first use of the offline service initializes it.  In a
    browser, when the SQLite plugin does not fail, [getProfiles] of a
    service that was never initialized opens the connection, marks the
    service initialized and resolves to the stored profiles, every one
    of them and no other record, ordered by name; the database is as
    it was.  On every other platform, Android and iOS among them, the
    call rejects and changes nothing, because the initialization does;
    when [Device.getInfo()] rejects, the call rejects with the same
    error. *)
Theorem first_use_opens_the_store (w : World) :
  offline_isInitialized w = false ->
  _isInitialized w = false ->
  (platform w = Some "web" ->
   web_fault w = None ->
   exists (listed : list Profile.t) (w' : World),
     OfflineApiService.getProfiles w = (Resolved listed, w')
     /\ (forall p : Profile.t,
           p ∈ listed <-> exists k : Z, stored_profile (database w) k = Some p)
     /\ Sorted by_name listed
     /\ connection_open w' = true
     /\ offline_isInitialized w' = true
     /\ database w' = database w)
  /\ (forall platformName : string,
        platform w = Some platformName -> platformName ≠ "web" ->
        exists error : JsError,
          OfflineApiService.getProfiles w = (Rejected error, w))
  /\ (forall error : JsError,
        Device_getInfo w = (Rejected error, w) ->
        OfflineApiService.getProfiles w = (Rejected error, w)).
Proof.
  intros Hoffline Hflag. split; [|split].
  - intros Hplatform Hfault.
    eexists _, _. split.
    { unfold OfflineApiService.getProfiles, bind,
        OfflineApiService.ensureInitialized.
      rewrite Hoffline. cbn [negb]. rewrite offline_initialize_web by done.
      rewrite getProfiles_open by done. reflexivity. }
    cbn [database connection_open offline_isInitialized set_offline_isInitialized
         set__isInitialized set_connection_open set_jeep_sqlite].
    split; [intros p; apply elem_of_profile_list|].
    split; [apply order_by_asc_name_Sorted|]. done.
  - intros platformName Hplatform Hnative.
    destruct (sqlite_initialize_native w platformName Hplatform Hnative Hflag)
      as (error & Hrun).
    exists error.
    unfold OfflineApiService.getProfiles, bind, OfflineApiService.ensureInitialized.
    rewrite Hoffline. cbn [negb].
    unfold OfflineApiService.initialize. rewrite Hoffline. unfold bind.
    by rewrite Hrun.
  - intros error Hdevice.
    unfold OfflineApiService.getProfiles, bind, OfflineApiService.ensureInitialized.
    rewrite Hoffline. cbn [negb].
    unfold OfflineApiService.initialize. rewrite Hoffline. unfold bind.
    by rewrite (sqlite_initialize_no_device w error).
Qed.

End FirstUse.

Section Closing.

(** X29.  [closeConnection] on an open, initialized store resolves and
    closes the connection, but the store stays marked initialized and
    the database file is kept.  Afterwards [initialize] returns at once
    without reopening, every read rejects, and closing again resolves
    and changes nothing. *)
Theorem closeConnection_closes_for_good (w : World) :
  connection_open w = true ->
  _isInitialized w = true ->
  exists w' : World,
    SQLiteService.closeConnection w = (Resolved tt, w')
    /\ connection_open w' = false
    /\ _isInitialized w' = true
    /\ database w' = database w
    /\ SQLiteService.initialize w' = (Resolved tt, w')
    /\ (forall id : Z,
          exists error : JsError, SQLiteService.getProfile id w' = (Rejected error, w'))
    /\ (forall id : Z,
          exists error : JsError, SQLiteService.getVideo id w' = (Rejected error, w'))
    /\ SQLiteService.closeConnection w' = (Resolved tt, w').
Proof.
  intros Hopen Hflag. exists (set_connection_open false w).
  split; [by apply closeConnection_keeps_flag|].
  split; [done|]. split; [done|]. split; [done|].
  split; [unfold SQLiteService.initialize; cbn [_isInitialized set_connection_open];
          by rewrite Hflag|].
  split; [intros id; unfold SQLiteService.getProfile, bind, Sql.query, Sql.run;
          by eauto|].
  split; [intros id; unfold SQLiteService.getVideo, bind, Sql.query, Sql.run;
          by eauto|].
  unfold SQLiteService.closeConnection, try_catch, bind,
    SQLiteService.sqlite_closeConnection. done.
Qed.

Lemma fileExists_entry (path : string) (w : World) :
  path <> EmptyString ->
  FileSystemService.fileExists path w
  = (Resolved (bool_decide (is_Some (documents w !! entry_key path))), w).
Proof.
  intros Hne. unfold FileSystemService.fileExists, try_catch, bind, Filesystem.stat.
  rewrite get_getPath.
  destruct (documents w !! entry_key path) as [e|] eqn:Hentry.
  - by rewrite bool_decide_eq_true_2.
  - rewrite bool_decide_eq_false_2 by (by intros [? ?]).
    destruct (clean_fixed _ (clean_idempotent path)) as [Hstart Hend].
    unfold Filesystem.get. rewrite getPath_not_empty by done.
    by rewrite append_associative, key_with_slash.
Qed.

(** X30.  [FileSystemService.deleteFile].  On a path whose entry, a
    file or a folder, is there with no entry lying in it, the call
    resolves; afterwards the entry is gone, [fileExists] answers
    [false], every other path is as before and the database is
    untouched.  On a path with entries lying in it, and on a path that
    has no entry, it rejects and changes nothing. *)
Theorem deleteFile_removes_only_that_file (w : World) (path : string) :
  path <> EmptyString ->
  (is_Some (documents w !! entry_key path) ->
   Filesystem.has_entries (Filesystem.getPath path) w = false ->
   exists w' : World,
     FileSystemService.deleteFile path w = (Resolved tt, w')
     /\ documents w' !! entry_key path = None
     /\ FileSystemService.fileExists path w' = (Resolved false, w')
     /\ (forall q : string, q ≠ entry_key path -> documents w' !! q = documents w !! q)
     /\ database w' = database w)
  /\ (Filesystem.has_entries (Filesystem.getPath path) w = true ->
      exists error : JsError,
        FileSystemService.deleteFile path w = (Rejected error, w))
  /\ (documents w !! entry_key path = None ->
      exists error : JsError,
        FileSystemService.deleteFile path w = (Rejected error, w)).
Proof.
  intros Hne. rewrite deleteFile_run. split; [|split].
  - intros [e ->] ->. eexists. split; [reflexivity|].
    cbn [documents set_documents database].
    split; [apply lookup_delete_eq|]. split.
    { rewrite fileExists_entry by done. cbn [documents set_documents].
      rewrite lookup_delete_eq. rewrite bool_decide_eq_false_2; [done|].
      by intros [? ?]. }
    split; [|done].
    intros q Hq. by apply lookup_delete_ne.
  - intros ->. destruct (documents w !! entry_key path); by eauto.
  - intros ->. by eauto.
Qed.

End Closing.

(* ===================================================================== *)
(** * Sample runs of the further properties                                *)
(* ===================================================================== *)


(** Profile 7 is not stored in the freshly started app. *)
Lemma profile_operations_on_missing_id_witness :
  fst (SQLiteService.getProfile 7 Samples.started) = Resolved None
  /\ SQLiteService.updateProfile 7 Samples.rename Samples.started
     = (Resolved None, Samples.started)
  /\ @SQLiteService.incrementProfilePushCount Calendar.lib 7 Samples.started
     = (Resolved None, Samples.started)
  /\ SQLiteService.deleteProfile 7 Samples.started = (Resolved false, Samples.started).
Proof.
  assert (fst (SQLiteService.getProfile 7 Samples.started) = Resolved None) as Hget
    by (vm_compute; reflexivity).
  split; [exact Hget|].
  destruct (@profile_operations_on_missing_id Calendar.lib Samples.started 7 Hget)
    as (Hupdate & Hincrement & _ & Hdelete).
  split; [exact (Hupdate Samples.rename)|]. split; assumption.
Defined.

(** Resetting the sample profile, whose count is 3. *)
Lemma resetProfilePushCount_clears_the_count_witness :
  fst (SQLiteService.getProfile 1 Samples.with_profile) = Resolved (Some Samples.chan_stored)
  /\ exists (p' : Profile.t) (w' : World),
       @SQLiteService.resetProfilePushCount Calendar.lib 1 Samples.with_profile
       = (Resolved (Some p'), w')
       /\ Profile.dailyPushCount p' = 0
       /\ Profile.lastPushReset p' = Some "2024-05-02 12:00:00"
       /\ Profile.name p' = "Chan"
       /\ documents w' = documents Samples.with_profile.
Proof.
  assert (fst (SQLiteService.getProfile 1 Samples.with_profile)
          = Resolved (Some Samples.chan_stored)) as Hget
    by (vm_compute; reflexivity).
  split; [exact Hget|].
  destruct (@resetProfilePushCount_clears_the_count Calendar.lib
              Samples.with_profile 1 Samples.chan_stored Hget)
    as (p' & w' & Hrun & _ & Hcount & Hlast & _ & Hname & _ & _ & _ & _ & Hfiles).
  exists p', w'. split; [exact Hrun|]. split; [exact Hcount|].
  split; [exact Hlast|]. split; [exact Hname|exact Hfiles].
Defined.

(** Creating the sample profile in the empty store: it is stored under
    id 1, and returned without an id. *)
Lemma createProfile_stores_its_input_witness :
  connection_open Samples.started = true
  /\ exists w' : World,
       SQLiteService.createProfile Samples.chan Samples.started
       = (Resolved (SQLiteService.mkCreated JsUndefined Samples.chan), w')
       /\ fst (SQLiteService.getProfile 1 w') = Resolved (Some Samples.chan_stored).
Proof.
  split; [reflexivity|].
  destruct (createProfile_stores_its_input Samples.started Samples.chan eq_refl)
    as (w' & Hrun & Hget & _).
  exists w'. split; [exact Hrun|exact Hget].
Defined.

(** The sample store has profile 1 and no profile 2. *)
Lemma createVideo_checks_the_profile_witness :
  connection_open Samples.with_profile = true
  /\ fst (SQLiteService.getProfile 2 Samples.with_profile) = Resolved None
  /\ (exists error : JsError,
        SQLiteService.createVideo Samples.talk Samples.with_profile
        = (Rejected error, Samples.with_profile))
  /\ fst (SQLiteService.getProfile 1 Samples.with_profile) = Resolved (Some Samples.chan_stored)
  /\ exists w' : World,
       SQLiteService.createVideo Samples.clip Samples.with_profile
       = (Resolved (SQLiteService.mkCreated JsUndefined Samples.clip), w')
       /\ fst (SQLiteService.getVideo 1 w') = Resolved (Some Samples.clip_stored).
Proof.
  assert (fst (SQLiteService.getProfile 2 Samples.with_profile) = Resolved None) as Hnone
    by (vm_compute; reflexivity).
  assert (fst (SQLiteService.getProfile 1 Samples.with_profile)
          = Resolved (Some Samples.chan_stored)) as Hsome
    by (vm_compute; reflexivity).
  split; [reflexivity|]. split; [exact Hnone|].
  split.
  - exact (proj1 (createVideo_checks_the_profile Samples.with_profile Samples.talk eq_refl)
             Hnone).
  - split; [exact Hsome|].
    destruct (proj2 (createVideo_checks_the_profile Samples.with_profile Samples.clip eq_refl)
                Samples.chan_stored Hsome)
      as (w' & Hrun & Hget & _).
    exists w'. split; [exact Hrun|exact Hget].
Defined.

(** Retitling the sample video, and trying to move it to profile 9. *)
Lemma updateVideo_changes_only_supplied_fields_witness :
  fst (SQLiteService.getVideo 1 Samples.with_video) = Resolved (Some Samples.clip_stored)
  /\ fst (SQLiteService.getProfile 9 Samples.with_video) = Resolved None
  /\ (exists error : JsError,
        SQLiteService.updateVideo 1 Scenes.move_to_profile_9 Samples.with_video
        = (Rejected error, Samples.with_video))
  /\ exists w' : World,
       SQLiteService.updateVideo 1 Scenes.retitle Samples.with_video
       = (Resolved (Some (patch_video Scenes.retitle Samples.clip_stored)), w')
       /\ Video.title (patch_video Scenes.retitle Samples.clip_stored) = "New title"
       /\ Video.status (patch_video Scenes.retitle Samples.clip_stored) = "pending".
Proof.
  assert (fst (SQLiteService.getVideo 1 Samples.with_video)
          = Resolved (Some Samples.clip_stored)) as Hget
    by (vm_compute; reflexivity).
  assert (fst (SQLiteService.getProfile 9 Samples.with_video) = Resolved None) as Hnone
    by (vm_compute; reflexivity).
  split; [exact Hget|]. split; [exact Hnone|].
  destruct (updateVideo_changes_only_supplied_fields
              Samples.with_video 1 Scenes.move_to_profile_9 Samples.clip_stored Hget)
    as [Hreject _].
  split; [exact (Hreject 9 eq_refl Hnone)|].
  destruct (updateVideo_changes_only_supplied_fields
              Samples.with_video 1 Scenes.retitle Samples.clip_stored Hget)
    as [_ Hpatch].
  destruct Hpatch as (w' & Hrun & _); [intros pid [=]|].
  exists w'. split; [exact Hrun|]. split; reflexivity.
Defined.

(** The sample store with its profile and video is consistent. *)
Lemma offline_service_keeps_the_store_consistent_witness :
  consistent (database Samples.with_video)
  /\ consistent (database (snd (OfflineApiService.deleteProfile 1 Samples.with_video)))
  /\ consistent
       (database (snd (OfflineApiService.importData Samples.profiles_only
                         Samples.with_video))).
Proof.
  assert (consistent (database Samples.with_video)) as Hw
    by (apply (bool_decide_unpack (consistent _)); vm_compute; exact I).
  split; [exact Hw|].
  destruct (@offline_service_keeps_the_store_consistent Calendar.lib Samples.with_video Hw)
    as (_ & _ & Hdelete & _ & _ & _ & _ & _ & _ & _ & _ & Himport).
  split; [exact (Hdelete 1)|exact (Himport Samples.profiles_only)].
Defined.

(** Writing a new file into the [videos] area of the started app: the
    base64 text of ['bytes'] is taken, the text ['bytes'] itself is
    not. *)
Lemma writeFile_then_readFile_witness :
  is_name "videos" /\ is_name "new.mp4"
  /\ plain_write FileSystemService.no_write_options
  /\ documents Samples.started !! "videos/new.mp4" ≠ Some Folder
  /\ Filesystem.isBase64String "Ynl0ZXM=" = true
  /\ Filesystem.isBase64String "bytes" = false
  /\ (exists w' : World,
        FileSystemService.writeFile "videos/new.mp4" (FileSystemService.Text "Ynl0ZXM=")
          FileSystemService.no_write_options Samples.started
        = (Resolved "/DOCUMENTS/videos/new.mp4", w')
        /\ FileSystemService.readFile "videos/new.mp4" FileSystemService.no_read_options w'
           = (Resolved "Ynl0ZXM=", w')
        /\ documents w' !! "videos" = Some Folder)
  /\ exists (error : JsError) (w' : World),
       FileSystemService.writeFile "videos/new.mp4" (FileSystemService.Text "bytes")
         FileSystemService.no_write_options Samples.started
       = (Rejected error, w')
       /\ documents w' !! "videos/new.mp4" = None.
Proof.
  assert (is_name "videos") as Hdir by done.
  assert (is_name "new.mp4") as Hname by done.
  assert (plain_write FileSystemService.no_write_options) as Hplain by (split; reflexivity).
  assert (documents Samples.started !! "videos/new.mp4" ≠ Some Folder) as Hfree
    by (vm_compute; discriminate).
  split; [exact Hdir|]. split; [exact Hname|]. split; [exact Hplain|].
  split; [exact Hfree|]. split; [vm_compute; reflexivity|].
  split; [vm_compute; reflexivity|]. split.
  - destruct (writeFile_then_readFile Samples.started "videos" "new.mp4"
                (FileSystemService.Text "Ynl0ZXM=") FileSystemService.no_write_options
                Hdir Hname Hplain)
      as (_ & result & w' & Hrun & _ & Hwritten & _ & Hfolder & _).
    destruct (Hwritten Hfree) as (-> & Hread & _); [vm_compute; reflexivity|].
    exists w'. split; [exact Hrun|]. split; [exact Hread|exact Hfolder].
  - destruct (writeFile_then_readFile Samples.started "videos" "new.mp4"
                (FileSystemService.Text "bytes") FileSystemService.no_write_options
                Hdir Hname Hplain)
      as (_ & result & w' & Hrun & _ & _ & Hrefused & _).
    destruct (Hrefused Hfree) as ((error & ->) & Hsame); [vm_compute; reflexivity|].
    exists error, w'. split; [exact Hrun|].
    transitivity (documents Samples.started !! in_folder "videos" "new.mp4");
      [exact Hsame|vm_compute; reflexivity].
Defined.

(** Copying the file of the sample video, and copying a file that is
    not there. *)
Lemma copyFile_copies_witness :
  is_name "temp" /\ is_name "copy.mp4"
  /\ documents Samples.with_video !! entry_key "videos/clip.mp4"
     = Some (File Samples.clip_data)
  /\ Filesystem.isBase64String Samples.clip_data = true
  /\ documents Samples.with_video !! "temp/copy.mp4" ≠ Some Folder
  /\ (exists error : JsError,
        Filesystem.readFile "videos/gone.mp4" Samples.with_video
        = (Rejected error, Samples.with_video)
        /\ FileSystemService.copyFile "videos/gone.mp4" "temp/copy.mp4" Samples.with_video
           = (Rejected error, Samples.with_video))
  /\ exists w' : World,
       FileSystemService.copyFile "videos/clip.mp4" "temp/copy.mp4" Samples.with_video
       = (Resolved "/DOCUMENTS/temp/copy.mp4", w')
       /\ FileSystemService.readFile "temp/copy.mp4" FileSystemService.no_read_options w'
          = (Resolved Samples.clip_data, w').
Proof.
  assert (is_name "temp") as Hdir by done.
  assert (is_name "copy.mp4") as Hname by done.
  assert (documents Samples.with_video !! entry_key "videos/clip.mp4"
          = Some (File Samples.clip_data))
    as Hfile by (vm_compute; reflexivity).
  assert (documents Samples.with_video !! "temp/copy.mp4" ≠ Some Folder) as Hfree
    by (vm_compute; discriminate).
  assert (exists error : JsError,
            Filesystem.readFile "videos/gone.mp4" Samples.with_video
            = (Rejected error, Samples.with_video)) as (error & Hgone)
    by (eexists; vm_compute; reflexivity).
  split; [exact Hdir|]. split; [exact Hname|]. split; [exact Hfile|].
  split; [vm_compute; reflexivity|]. split; [exact Hfree|].
  split.
  - exists error. split; [exact Hgone|].
    exact (proj1 (copyFile_copies Samples.with_video "videos/gone.mp4" "temp" "copy.mp4"
                    Hdir Hname) error Hgone).
  - destruct (proj2 (copyFile_copies Samples.with_video "videos/clip.mp4" "temp"
                       "copy.mp4" Hdir Hname)
                Samples.clip_data Hfile)
      as (w' & Hrun & Hread & _); [vm_compute; reflexivity|exact Hfree|].
    exists w'. split; [exact Hrun|exact Hread].
Defined.

(** The areas on the Android device, and nothing in the browser. *)
Lemma filesystem_initialize_creates_the_areas_witness :
  native Samples.device
  /\ platform Samples.browser = Some "web"
  /\ FileSystemService.initialize Samples.browser = (Resolved tt, Samples.browser)
  /\ exists w' : World,
       FileSystemService.initialize Samples.device = (Resolved tt, w')
       /\ documents w' !! "thumbs" = Some Folder
       /\ FileSystemService.fileExists "thumbs" w' = (Resolved true, w')
       /\ FileSystemService.initialize w' = (Resolved tt, w').
Proof.
  assert (native Samples.device) as Hnative by (left; reflexivity).
  split; [exact Hnative|]. split; [reflexivity|]. split.
  - apply (proj2 (filesystem_initialize_creates_the_areas Samples.browser) "web");
      [reflexivity|discriminate|discriminate].
  - destruct (proj1 (filesystem_initialize_creates_the_areas Samples.device) Hnative)
      as (w' & Hrun & Hareas & _ & _ & Hagain).
    destruct (Hareas "thumbs") as [Hfolder Hthere];
      [unfold areas; apply list_elem_of_further, list_elem_of_here|].
    exists w'. split; [exact Hrun|]. split; [exact Hfolder|].
    split; [exact Hthere|exact Hagain].
Defined.

(** The placeholder of the sample video is on disk in one store and is
    written in the other. *)
Lemma generateThumbnail_makes_a_placeholder_witness :
  thumbnail_of "videos/clip.mp4" = "thumbs/clip_thumbnail.jpg"
  /\ is_Some (documents Samples.with_video !! "thumbs/clip_thumbnail.jpg")
  /\ OfflineApiService.generateThumbnail "videos/clip.mp4" Samples.with_video
     = (Resolved (Some "thumbs/clip_thumbnail.jpg"), Samples.with_video)
  /\ documents Samples.with_video_record !! "thumbs/clip_thumbnail.jpg" = None
  /\ writable (documents Samples.with_video_record) "thumbs/clip_thumbnail.jpg" = true
  /\ exists w' : World,
       OfflineApiService.generateThumbnail "videos/clip.mp4" Samples.with_video_record
       = (Resolved (Some "thumbs/clip_thumbnail.jpg"), w')
       /\ documents w' !! "thumbs/clip_thumbnail.jpg" = Some (File EmptyString).
Proof.
  assert (is_Some (documents Samples.with_video !! thumbnail_of "videos/clip.mp4"))
    as Hthere by (vm_compute; eauto).
  assert (documents Samples.with_video_record !! thumbnail_of "videos/clip.mp4" = None)
    as Habsent by (vm_compute; reflexivity).
  split; [vm_compute; reflexivity|]. split; [exact Hthere|].
  destruct (generateThumbnail_makes_a_placeholder Samples.with_video "videos/clip.mp4")
    as (_ & Hsame & _).
  split; [exact (Hsame Hthere)|]. split; [exact Habsent|].
  split; [vm_compute; reflexivity|].
  destruct (generateThumbnail_makes_a_placeholder Samples.with_video_record
              "videos/clip.mp4")
    as (_ & _ & Hwrite).
  exact (Hwrite Habsent eq_refl).
Defined.

(** Creating the sample video through the facade. *)
Lemma createVideo_attaches_the_thumbnail_witness :
  offline_isInitialized Samples.with_profile = true
  /\ connection_open Samples.with_profile = true
  /\ is_Some (profiles (database Samples.with_profile) !! 1)
  /\ exists w' : World,
       OfflineApiService.createVideo Samples.clip Samples.with_profile
       = (Resolved (SQLiteService.mkCreated JsUndefined Samples.clip), w')
       /\ stored_video (database w') 1 = Some Samples.clip_stored
       /\ documents w' !! "thumbs/clip_thumbnail.jpg" = Some (File EmptyString).
Proof.
  assert (is_Some (profiles (database Samples.with_profile)
                   !! VideoData.profileId Samples.clip)) as Hprofile
    by (vm_compute; eauto).
  split; [reflexivity|]. split; [reflexivity|]. split; [exact Hprofile|].
  destruct (proj2 (createVideo_attaches_the_thumbnail Samples.with_profile Samples.clip
                     eq_refl eq_refl Hprofile)
              "videos/clip.mp4" eq_refl)
    as (w' & Hrun & Hstored & Hthere & _).
  exists w'. split; [exact Hrun|]. split; [exact Hstored|exact Hthere].
Defined.

(** Deleting the sample video deletes its file and its thumbnail, and
    leaves the folders. *)
Lemma deleteVideo_removes_the_files_witness :
  offline_isInitialized Samples.with_video = true
  /\ connection_open Samples.with_video = true
  /\ stored_video (database Samples.with_video) 1 = Some Samples.clip_stored
  /\ documents Samples.with_video !! "videos/clip.mp4" = Some (File Samples.clip_data)
  /\ Filesystem.has_entries (Filesystem.getPath "videos/clip.mp4") Samples.with_video
     = false
  /\ exists w' : World,
       OfflineApiService.deleteVideo 1 Samples.with_video = (Resolved false, w')
       /\ stored_video (database w') 1 = None
       /\ documents w' !! "videos/clip.mp4" = None
       /\ documents w' !! "videos" = Some Folder.
Proof.
  assert (stored_video (database Samples.with_video) 1 = Some Samples.clip_stored)
    as Hstored by (vm_compute; reflexivity).
  assert (Filesystem.has_entries (Filesystem.getPath "videos/clip.mp4") Samples.with_video
          = false) as Hempty by (vm_compute; reflexivity).
  split; [reflexivity|]. split; [reflexivity|]. split; [exact Hstored|].
  split; [vm_compute; reflexivity|]. split; [exact Hempty|].
  destruct (deleteVideo_removes_the_files Samples.with_video 1 Samples.clip_stored
              eq_refl eq_refl Hstored)
    as (w' & Hrun & Hgone & Hfiles & _ & Hrest & _).
  exists w'. split; [exact Hrun|]. split; [exact Hgone|]. split.
  - exact (Hfiles "videos/clip.mp4" (or_introl eq_refl) eq_refl Hempty).
  - rewrite Hrest; [vm_compute; reflexivity|].
    intros p [[= <-]|[= <-]]; vm_compute; discriminate.
Defined.

(** Attaching the file of the sample video, a download, and a file
    that is not there. *)
Lemma uploadVideoFile_attaches_the_file_witness :
  offline_isInitialized Scenes.with_download = true
  /\ connection_open Scenes.with_download = true
  /\ stored_video (database Scenes.with_download) 1 = Some Samples.clip_stored
  /\ documents Scenes.with_download !! entry_key "temp/raw.mp4"
     = Some (File Scenes.raw_data)
  /\ Filesystem.isBase64String Scenes.raw_data = true
  /\ OfflineApiService.uploadVideoFile 7 "videos/clip.mp4" Scenes.with_download
     = (Resolved false, Scenes.with_download)
  /\ OfflineApiService.uploadVideoFile 1 "temp/gone.mp4" Scenes.with_download
     = (Resolved false, Scenes.with_download)
  /\ (exists w' : World,
        OfflineApiService.uploadVideoFile 1 "videos/clip.mp4" Scenes.with_download
        = (Resolved true, w')
        /\ documents w' = documents Scenes.with_download)
  /\ exists w' : World,
       OfflineApiService.uploadVideoFile 1 "temp/raw.mp4" Scenes.with_download
       = (Resolved true, w')
       /\ documents w' !! "videos/raw.mp4" = Some (File Scenes.raw_data).
Proof.
  assert (stored_video (database Scenes.with_download) 1 = Some Samples.clip_stored)
    as Hstored by (vm_compute; reflexivity).
  assert (documents Scenes.with_download !! entry_key "temp/raw.mp4"
          = Some (File Scenes.raw_data)) as Hraw by (vm_compute; reflexivity).
  split; [reflexivity|]. split; [reflexivity|]. split; [exact Hstored|].
  split; [exact Hraw|]. split; [vm_compute; reflexivity|].
  split.
  { destruct (uploadVideoFile_attaches_the_file Scenes.with_download 7 "videos/clip.mp4"
                eq_refl eq_refl) as (_ & Hmissing & _).
    apply Hmissing. vm_compute. reflexivity. }
  split.
  { destruct (uploadVideoFile_attaches_the_file Scenes.with_download 1 "temp/gone.mp4"
                eq_refl eq_refl) as (_ & _ & Hattach).
    destruct (Hattach Samples.clip_stored "thumbs/clip_thumbnail.jpg" Hstored eq_refl)
      as (_ & Hnothing & _).
    apply Hnothing; vm_compute; reflexivity. }
  split.
  { destruct (uploadVideoFile_attaches_the_file Scenes.with_download 1 "videos/clip.mp4"
                eq_refl eq_refl) as (_ & _ & Hattach).
    destruct (Hattach Samples.clip_stored "thumbs/clip_thumbnail.jpg" Hstored eq_refl)
      as (Hunder & _).
    destruct (Hunder eq_refl) as (w' & Hrun & _ & Hdocs).
    exists w'. split; [exact Hrun|exact Hdocs]. }
  destruct (uploadVideoFile_attaches_the_file Scenes.with_download 1 "temp/raw.mp4"
              eq_refl eq_refl) as (_ & _ & Hattach).
  destruct (Hattach Samples.clip_stored "thumbs/clip_thumbnail.jpg" Hstored eq_refl)
    as (_ & _ & Hcopy).
  destruct (Hcopy "raw.mp4" Scenes.raw_data eq_refl eq_refl) as [Hcopied _];
    [discriminate|exact Hraw|vm_compute; discriminate|].
  destruct Hcopied as (w' & Hrun & _ & Hfile & _); [vm_compute; reflexivity|].
  exists w'. split; [exact Hrun|exact Hfile].
Defined.

(** Enabling the offline mode on the device and in the browser. *)
Lemma setOfflineMode_then_isOfflineMode_witness :
  preferences_available Samples.device = true
  /\ preferences_available Samples.browser = true
  /\ (exists w' : World,
        ApiSwitcher.setOfflineMode true false Samples.device = (Resolved tt, w')
        /\ ApiSwitcher.isOfflineMode w' = (Resolved true, w'))
  /\ exists w' : World,
       ApiSwitcher.setOfflineMode true false Samples.browser = (Resolved tt, w')
       /\ ApiSwitcher.isOfflineMode w' = (Resolved false, w').
Proof.
  split; [reflexivity|]. split; [reflexivity|]. split.
  - destruct (proj1 (setOfflineMode_then_isOfflineMode Samples.device true false) eq_refl)
      as (w' & Hrun & Hmode & _).
    exists w'. split; [exact Hrun|exact Hmode].
  - destruct (proj1 (setOfflineMode_then_isOfflineMode Samples.browser true false) eq_refl)
      as (w' & Hrun & Hmode & _).
    exists w'. split; [exact Hrun|exact Hmode].
Defined.

(** A request in the browser: forced offline, with the network up, and
    with the network down. *)
Lemma apiRequest_routes_witness :
  offline_mode Scenes.forced_offline = true
  /\ offline_mode Samples.browser = false
  /\ ApiSwitcher.apiRequest "https://app.example" string Scenes.network_up "/api/profiles"
       (Some Samples.answer_X) Scenes.forced_offline
     = (Resolved "X", Scenes.forced_offline)
  /\ ApiSwitcher.apiRequest "https://app.example" string Scenes.network_up "/api/profiles"
       (Some Samples.answer_X) Samples.browser
     = (Resolved "[]", Samples.browser)
  /\ ApiSwitcher.apiRequest "https://app.example" string Samples.network_down
       "/api/profiles" None Samples.browser
     = (Rejected (TypeError "Failed to fetch"), Samples.browser).
Proof.
  split; [vm_compute; reflexivity|]. split; [vm_compute; reflexivity|].
  split.
  { destruct (proj1 (apiRequest_routes "https://app.example" string Scenes.network_up
                       "/api/profiles" Scenes.forced_offline) eq_refl)
      as (Hhandler & _).
    exact (Hhandler Samples.answer_X). }
  split.
  { destruct (proj2 (apiRequest_routes "https://app.example" string Scenes.network_up
                       "/api/profiles" Samples.browser) eq_refl
                "https://app.example/api/profiles" eq_refl)
      as (Hok & _).
    exact (Hok Scenes.empty_list (Some Samples.answer_X) eq_refl eq_refl "[]" eq_refl). }
  destruct (proj2 (apiRequest_routes "https://app.example" string Samples.network_down
                     "/api/profiles" Samples.browser) eq_refl
              "https://app.example/api/profiles" eq_refl)
    as (_ & Hthrown & _).
  exact (Hthrown (TypeError "Failed to fetch") eq_refl).
Defined.

(** The first call in the browser, and on the Android device. *)
Lemma offline_initialize_opens_the_store_witness :
  offline_isInitialized Samples.browser = false
  /\ _isInitialized Samples.browser = false
  /\ platform Samples.browser = Some "web"
  /\ web_fault Samples.browser = None
  /\ platform Samples.device = Some "android"
  /\ (exists w' : World,
        OfflineApiService.initialize Samples.browser = (Resolved tt, w')
        /\ connection_open w' = true
        /\ offline_isInitialized w' = true)
  /\ exists error : JsError,
       OfflineApiService.initialize Samples.device = (Rejected error, Samples.device).
Proof.
  split; [reflexivity|]. split; [reflexivity|]. split; [reflexivity|].
  split; [reflexivity|]. split; [reflexivity|]. split.
  - destruct (proj1 (proj1 (offline_initialize_opens_the_store Samples.browser
                              eq_refl eq_refl) eq_refl) eq_refl)
      as (w' & Hrun & Hopen & _ & Hinit & _).
    exists w'. split; [exact Hrun|]. split; [exact Hopen|exact Hinit].
  - apply (proj1 (proj2 (offline_initialize_opens_the_store Samples.device
                           eq_refl eq_refl)) "android"); [reflexivity|discriminate].
Defined.

(** Coming to the foreground with a store that was never opened, in
    the browser and on the Android device. *)
Lemma onAppForeground_opens_an_unopened_store_witness :
  _isInitialized Samples.browser = false
  /\ platform Samples.browser = Some "web"
  /\ web_fault Samples.browser = None
  /\ platform Samples.device = Some "android"
  /\ (exists w' : World,
        OfflineApp.onAppForeground Samples.browser = (Resolved tt, w')
        /\ connection_open w' = true)
  /\ OfflineApp.onAppForeground Samples.device = (Resolved tt, Samples.device).
Proof.
  split; [reflexivity|]. split; [reflexivity|]. split; [reflexivity|].
  split; [reflexivity|]. split.
  - destruct (proj1 (proj1 (onAppForeground_opens_an_unopened_store Samples.browser
                              eq_refl) eq_refl) eq_refl)
      as (w' & Hrun & Hopen & _).
    exists w'. split; [exact Hrun|exact Hopen].
  - apply (proj1 (proj2 (onAppForeground_opens_an_unopened_store Samples.device eq_refl))
             "android"); [reflexivity|discriminate].
Defined.

(** The first run of the started app. *)
Lemma checkFirstRun_seeds_once_witness :
  preferences_available Samples.started = true
  /\ connection_open Samples.started = true
  /\ string_or_null (preferences Samples.started !! "first_run_completed") = None
  /\ profiles (database Samples.started) = ∅
  /\ exists w' : World,
       OfflineApp.checkFirstRun Samples.started = (Resolved tt, w')
       /\ stored_profile (database w') 1
          = Some (profile_as_stored 1 OfflineApp.default_profile)
       /\ OfflineApp.checkFirstRun w' = (Resolved tt, w').
Proof.
  assert (profiles (database Samples.started) = ∅) as Hempty by reflexivity.
  split; [reflexivity|]. split; [reflexivity|]. split; [reflexivity|].
  split; [exact Hempty|].
  destruct (proj1 (checkFirstRun_seeds_once Samples.started eq_refl eq_refl) eq_refl)
    as (w' & Hrun & _ & _ & Hseeded & _ & _ & Hagain).
  exists w'. split; [exact Hrun|]. split; [exact (proj1 (Hseeded Hempty))|exact Hagain].
Defined.

(** The first start on the Android device: the mode is switched and
    nothing else happens. *)
Lemma initializeNativeApp_first_start_witness :
  preferences_available Samples.device = true
  /\ native_platform Samples.device = true
  /\ offline_isInitialized Samples.device = false
  /\ _isInitialized Samples.device = false
  /\ exists w' : World,
       OfflineApp.initializeNativeApp Samples.device = (Resolved tt, w')
       /\ ApiSwitcher.isOfflineMode w' = (Resolved true, w')
       /\ connection_open w' = false
       /\ profiles (database w') = ∅
       /\ preferences w' !! "first_run_completed" = None.
Proof.
  split; [reflexivity|]. split; [reflexivity|]. split; [reflexivity|].
  split; [reflexivity|].
  destruct (proj1 (initializeNativeApp_first_start Samples.device eq_refl)
              eq_refl eq_refl eq_refl)
    as (w' & Hrun & _ & Hmode & Hopen & _ & Hdb & _ & Hfirst).
  exists w'. split; [exact Hrun|]. split; [exact Hmode|].
  split; [by rewrite Hopen|]. split; [by rewrite Hdb|]. by rewrite Hfirst.
Defined.

(** Video 7 is not stored in the freshly started app. *)
Lemma video_operations_on_missing_id_witness :
  offline_isInitialized Samples.started = true
  /\ fst (SQLiteService.getVideo 7 Samples.started) = Resolved None
  /\ OfflineApiService.updateVideo 7 Scenes.retitle Samples.started
     = (Resolved Undefined, Samples.started)
  /\ @OfflineApiService.markVideoAsUploaded Calendar.lib 7 Samples.started
     = (Resolved Null, Samples.started)
  /\ OfflineApiService.deleteVideo 7 Samples.started = (Resolved false, Samples.started).
Proof.
  assert (fst (SQLiteService.getVideo 7 Samples.started) = Resolved None) as Hget
    by (vm_compute; reflexivity).
  split; [reflexivity|]. split; [exact Hget|].
  destruct (@video_operations_on_missing_id Calendar.lib Samples.started 7 eq_refl Hget)
    as (Hupdate & Hmark & _ & Hdelete).
  split; [exact (Hupdate Scenes.retitle)|]. split; assumption.
Defined.

(** The export of the sample store. *)
Lemma exportData_holds_the_whole_store_witness :
  offline_isInitialized Samples.with_video = true
  /\ connection_open Samples.with_video = true
  /\ exists data : ExportData.t,
       OfflineApiService.exportData Samples.with_video = (Resolved data, Samples.with_video)
       /\ Samples.chan_stored ∈ ExportData.profiles data
       /\ Samples.clip_stored ∈ ExportData.videos data
       /\ length (ExportData.profiles data) = 1%nat.
Proof.
  split; [reflexivity|]. split; [reflexivity|].
  destruct (exportData_holds_the_whole_store Samples.with_video eq_refl eq_refl)
    as (data & Hrun & _ & Hprofiles & Hcount & _ & Hvideos & _).
  exists data. split; [exact Hrun|]. split; [|split].
  - apply Hprofiles. exists 1. vm_compute. reflexivity.
  - apply Hvideos. exists 1. vm_compute. reflexivity.
  - rewrite Hcount. vm_compute. reflexivity.
Defined.

(** Importing two profiles, whose ids in the file are 1 and 2, into the
    sample store: they are stored under 2 and 3. *)
Lemma importData_gives_profiles_fresh_ids_witness :
  offline_isInitialized Samples.with_profile = true
  /\ connection_open Samples.with_profile = true
  /\ exists w' : World,
       OfflineApiService.importData
         {| ImportData.profiles := Items [Samples.chan_stored; Samples.beta_stored];
            ImportData.videos := Items [] |} Samples.with_profile
       = (Resolved true, w')
       /\ stored_profile (database w') 1 = Some Samples.chan_stored
       /\ stored_profile (database w') 3
          = Some (profile_as_stored 3
                    (OfflineApiService.profile_without_id Samples.beta_stored)).
Proof.
  split; [reflexivity|]. split; [reflexivity|].
  destruct (importData_gives_profiles_fresh_ids Samples.with_profile
              [Samples.chan_stored; Samples.beta_stored] eq_refl eq_refl)
    as (w' & Hrun & _ & Hitems & Hbelow & _).
  exists w'. split; [exact Hrun|]. split.
  - rewrite Hbelow; [vm_compute; reflexivity|vm_compute; discriminate].
  - exact (Hitems 1%nat Samples.beta_stored eq_refl).
Defined.

(** The pending videos of the sample store. *)
Lemma getVideosByStatus_filters_witness :
  offline_isInitialized Samples.with_video = true
  /\ connection_open Samples.with_video = true
  /\ status_is_text (database Samples.with_video)
  /\ exists vs : list Video.t,
       OfflineApiService.getVideosByStatus "pending" Samples.with_video
       = (Resolved vs, Samples.with_video)
       /\ Samples.clip_stored ∈ vs.
Proof.
  assert (status_is_text (database Samples.with_video)) as Htext
    by (apply (bool_decide_unpack (status_is_text _)); vm_compute; exact I).
  split; [reflexivity|]. split; [reflexivity|]. split; [exact Htext|].
  destruct (getVideosByStatus_filters Samples.with_video "pending" eq_refl eq_refl Htext)
    as (vs & Hrun & Hin & _).
  exists vs. split; [exact Hrun|].
  apply Hin. split; [exists 1; vm_compute; reflexivity|reflexivity].
Defined.

(** Deleting the profile of the sample store removes its video. *)
Lemma deleteProfile_cascades_exactly_witness :
  offline_isInitialized Samples.with_video = true
  /\ connection_open Samples.with_video = true
  /\ consistent (database Samples.with_video)
  /\ stored_profile (database Samples.with_video) 1 = Some Samples.chan_stored
  /\ stored_video (database Samples.with_video) 1 = Some Samples.clip_stored
  /\ exists w' : World,
       OfflineApiService.deleteProfile 1 Samples.with_video = (Resolved false, w')
       /\ stored_profile (database w') 1 = None
       /\ stored_video (database w') 1 ≠ Some Samples.clip_stored.
Proof.
  assert (consistent (database Samples.with_video)) as Hw
    by (apply (bool_decide_unpack (consistent _)); vm_compute; exact I).
  assert (stored_profile (database Samples.with_video) 1 = Some Samples.chan_stored)
    as Hstored by (vm_compute; reflexivity).
  split; [reflexivity|]. split; [reflexivity|]. split; [exact Hw|].
  split; [exact Hstored|]. split; [vm_compute; reflexivity|].
  destruct (deleteProfile_cascades_exactly Samples.with_video 1 Samples.chan_stored
              eq_refl eq_refl Hw Hstored)
    as (w' & Hrun & Hgone & _ & Hvideos & _).
  exists w'. split; [exact Hrun|]. split; [exact Hgone|].
  intros Hkept. apply Hvideos in Hkept as [_ Hother]. by apply Hother.
Defined.

(** Listing the profiles before anything was initialized, in the
    browser and on the Android device. *)
Lemma first_use_opens_the_store_witness :
  offline_isInitialized Samples.browser = false
  /\ _isInitialized Samples.browser = false
  /\ platform Samples.browser = Some "web"
  /\ web_fault Samples.browser = None
  /\ platform Samples.device = Some "android"
  /\ (exists (listed : list Profile.t) (w' : World),
        OfflineApiService.getProfiles Samples.browser = (Resolved listed, w')
        /\ connection_open w' = true
        /\ offline_isInitialized w' = true)
  /\ exists error : JsError,
       OfflineApiService.getProfiles Samples.device = (Rejected error, Samples.device).
Proof.
  split; [reflexivity|]. split; [reflexivity|]. split; [reflexivity|].
  split; [reflexivity|]. split; [reflexivity|]. split.
  - destruct (proj1 (first_use_opens_the_store Samples.browser eq_refl eq_refl)
                eq_refl eq_refl)
      as (listed & w' & Hrun & _ & _ & Hopen & Hinit & _).
    exists listed, w'. split; [exact Hrun|]. split; [exact Hopen|exact Hinit].
  - apply (proj1 (proj2 (first_use_opens_the_store Samples.device eq_refl eq_refl))
             "android"); [reflexivity|discriminate].
Defined.

(** Closing the connection of the started app. *)
Lemma closeConnection_closes_for_good_witness :
  connection_open Samples.started = true
  /\ _isInitialized Samples.started = true
  /\ exists w' : World,
       SQLiteService.closeConnection Samples.started = (Resolved tt, w')
       /\ connection_open w' = false
       /\ SQLiteService.initialize w' = (Resolved tt, w')
       /\ exists error : JsError, SQLiteService.getProfile 1 w' = (Rejected error, w').
Proof.
  split; [reflexivity|]. split; [reflexivity|].
  destruct (closeConnection_closes_for_good Samples.started eq_refl eq_refl)
    as (w' & Hrun & Hclosed & _ & _ & Hinit & Hread & _).
  exists w'. split; [exact Hrun|]. split; [exact Hclosed|].
  split; [exact Hinit|exact (Hread 1)].
Defined.

(** Deleting the file of the sample video, trying to delete the
    [videos] folder it lies in, and deleting a folder that is empty. *)
Lemma deleteFile_removes_only_that_file_witness :
  documents Samples.with_video !! entry_key "videos/clip.mp4"
  = Some (File Samples.clip_data)
  /\ Filesystem.has_entries (Filesystem.getPath "videos/clip.mp4") Samples.with_video
     = false
  /\ Filesystem.has_entries (Filesystem.getPath "videos") Samples.with_video = true
  /\ documents Scenes.with_temp !! entry_key "temp" = Some Folder
  /\ Filesystem.has_entries (Filesystem.getPath "temp") Scenes.with_temp = false
  /\ (exists error : JsError,
        FileSystemService.deleteFile "videos" Samples.with_video
        = (Rejected error, Samples.with_video))
  /\ (exists w' : World,
        FileSystemService.deleteFile "videos/clip.mp4" Samples.with_video
        = (Resolved tt, w')
        /\ FileSystemService.fileExists "videos/clip.mp4" w' = (Resolved false, w'))
  /\ exists w' : World,
       FileSystemService.deleteFile "temp" Scenes.with_temp = (Resolved tt, w')
       /\ documents w' !! "temp" = None.
Proof.
  assert (documents Samples.with_video !! entry_key "videos/clip.mp4"
          = Some (File Samples.clip_data))
    as Hfile by (vm_compute; reflexivity).
  assert (Filesystem.has_entries (Filesystem.getPath "videos/clip.mp4") Samples.with_video
          = false) as Hempty by (vm_compute; reflexivity).
  assert (Filesystem.has_entries (Filesystem.getPath "videos") Samples.with_video = true)
    as Hfull by (vm_compute; reflexivity).
  assert (documents Scenes.with_temp !! entry_key "temp" = Some Folder) as Hfolder
    by (vm_compute; reflexivity).
  assert (Filesystem.has_entries (Filesystem.getPath "temp") Scenes.with_temp = false)
    as Hnone by (vm_compute; reflexivity).
  split; [exact Hfile|]. split; [exact Hempty|]. split; [exact Hfull|].
  assert ("videos" <> EmptyString) as Hvideos by discriminate.
  assert ("videos/clip.mp4" <> EmptyString) as Hclip by discriminate.
  assert ("temp" <> EmptyString) as Htemp by discriminate.
  split; [exact Hfolder|]. split; [exact Hnone|]. split; [|split].
  - apply (proj1 (proj2 (deleteFile_removes_only_that_file Samples.with_video "videos"
                           Hvideos))).
    exact Hfull.
  - destruct (proj1 (deleteFile_removes_only_that_file Samples.with_video
                       "videos/clip.mp4" Hclip))
      as (w' & Hrun & _ & Hgone & _); [by eauto|exact Hempty|].
    exists w'. split; [exact Hrun|exact Hgone].
  - destruct (proj1 (deleteFile_removes_only_that_file Scenes.with_temp "temp" Htemp))
      as (w' & Hrun & Hgone & _); [by eauto|exact Hnone|].
    exists w'. split; [exact Hrun|exact Hgone].
Defined.
